(** * xArm servo controller: the protocol layer of [Python/xarm/controller.py]

    A shallow embedding of the [Controller] class: the frame writer [_send],
    the frame reader [_recv], the public operations built on them, and the
    properties of the frame codec, of input validation, of discovery and of the
    battery poll.

    Python integers are [Z]; a [bytearray] is a [list Z] whose construction
    checks that every item is in [0, 256), as Python does.  Python floats are
    binary64 primitive floats.  The methods run in an exception-and-state
    monad [M]: an exception keeps the state changes made before it was
    raised, as in Python.  The [debug] flag only prints and is left out. *)

From Stdlib Require Import String ZArith List Bool Floats Lia Sorted.
From Stdlib Require QArith_base.
Import ListNotations.
Open Scope Z_scope.

(** ** Exceptions and results *)

Inductive exn : Type :=
| ValueError (msg : string)
| TypeError
| IndexError
| OverflowError
| Exception (msg : string).

Inductive result (A : Type) : Type :=
| Ok (a : A)
| Raise (e : exn).
Arguments Ok {A} a.
Arguments Raise {A} e.

(** The messages of the controller's own [raise] statements. *)
Definition msg_position_missing := "Parameter 'position' missing."%string.
Definition msg_position_range := "Parameter 'position' must be between 0 and 1000."%string.
Definition msg_angle_range := "Parameter 'position' must be between -125.0 and 125.0."%string.
Definition msg_list_not_valid := "Parameter list 'servos' is not valid."%string.
Definition msg_servos_not_valid := "Parameter 'servos' is not valid."%string.
Definition msg_recv_error := "Function 'getPosition' recv error."%string.
Definition msg_servos_incorrect := "servos parameter incorrect."%string.
Definition msg_no_servos := "No servos to update their id"%string.
Definition msg_more_than_one :=
  "More than one servo is connected. Pass overwrite_all_servo_ids=True to write the same servo_id to all connected servos, or connect only one servo physically at a time to update its id"%string.
Definition msg_zero_id := "new_servo_id must be non-zero"%string.
Definition msg_com_port := "com_port parameter incorrect."%string.

(** The messages of the interpreter and of the device libraries: a byte out
    of range in a [bytearray] or in a sequence handed to [write], and a
    negative [time.sleep]. *)
Definition msg_byte_range := "byte must be in range(0, 256)"%string.
Definition msg_sleep_negative := "sleep length must be non-negative"%string.

(** ** Servo objects and Python values *)

Definition loc := nat.

Module Servo.
(** Modelled from the spec: the [Servo] class ([servo.py] is not part of the
    sources): a servo object carries the id of the joint and a position
    field, the two attributes the controller reads and writes. *)
Record t : Type := mk { servo_id : Z; position : Z }.

Definition set_position (p : Z) (s : t) : t := mk (servo_id s) p.
End Servo.

(** The values a caller can pass where the code inspects types at run time. *)
#[warnings="-register-all"]
Inductive pyval : Type :=
| PNone
| PInt (z : Z)
| PFloat (f : float)
| PServo (r : loc)
| PList (items : list pyval)
| PTuple (items : list pyval).

(** ** Devices *)

(** What the controller does to the outside world, in order: [flush] and
    [write] on the device, [read] on the device (with the number of bytes
    asked for), [time.sleep] (in seconds). *)
Inductive event : Type :=
| Flush
| Write (bs : list Z)
| Read (n : Z)
| Sleep (secs : QArith_base.Q).

(** ** The state: the controller's attributes, its device, the caller's servo objects

    [rx] scripts the device's input.  On the serial port each entry is the
    run of bytes that arrives before one read timeout expires; on the HID
    device each entry is the report one poll returns (empty: nothing came). *)
Record state : Type := mkState {
  _is_serial : bool;
  _usb_recv_event : bool;
  _input_report : list Z;
  servos : list Z;
  rx : list (list Z);
  log : list event;
  heap : loc -> Servo.t
}.

Definition set_usb_recv_event (b : bool) (s : state) : state :=
  mkState (_is_serial s) b (_input_report s) (servos s) (rx s) (log s) (heap s).
Definition set_input_report (r : list Z) (s : state) : state :=
  mkState (_is_serial s) (_usb_recv_event s) r (servos s) (rx s) (log s) (heap s).
Definition set_servos (l : list Z) (s : state) : state :=
  mkState (_is_serial s) (_usb_recv_event s) (_input_report s) l (rx s) (log s) (heap s).
Definition set_rx (q : list (list Z)) (s : state) : state :=
  mkState (_is_serial s) (_usb_recv_event s) (_input_report s) (servos s) q (log s) (heap s).
Definition set_log (l : list event) (s : state) : state :=
  mkState (_is_serial s) (_usb_recv_event s) (_input_report s) (servos s) (rx s) l (heap s).
Definition set_heap (h : loc -> Servo.t) (s : state) : state :=
  mkState (_is_serial s) (_usb_recv_event s) (_input_report s) (servos s) (rx s) (log s) h.

Definition upd (h : loc -> Servo.t) (r : loc) (v : Servo.t) : loc -> Servo.t :=
  fun x => if Nat.eqb x r then v else h x.

(** ** The monad *)

Definition M (A : Type) : Type := state -> result A * state.

Definition ret {A} (a : A) : M A := fun s => (Ok a, s).
Definition raise {A} (e : exn) : M A := fun s => (Raise e, s).
Definition bind {A B} (m : M A) (k : A -> M B) : M B :=
  fun s => match m s with
           | (Ok a, s') => k a s'
           | (Raise e, s') => (Raise e, s')
           end.
Definition gets {A} (f : state -> A) : M A := fun s => (Ok (f s), s).
Definition modify (f : state -> state) : M unit := fun s => (Ok tt, f s).

(** [try: m / except: handler] with a bare [except]. *)
Definition try_except {A} (m : M A) (handler : M A) : M A :=
  fun s => match m s with
           | (Ok a, s') => (Ok a, s')
           | (Raise _, s') => handler s'
           end.

Declare Scope py_scope.
Delimit Scope py_scope with py.
Notation "x <- m ;; k" := (bind m (fun x => k))
  (at level 100, m at next level, right associativity) : py_scope.
Notation "m ;;; k" := (bind m (fun _ => k))
  (at level 100, right associativity) : py_scope.
Open Scope py_scope.

(** ** Bytes, sequences and the operators the code uses *)

Definition is_byte (z : Z) : bool := (0 <=? z) && (z <=? 255).
Definition len {A} (l : list A) : Z := Z.of_nat (List.length l).

(** [bytes(bytearray(seq))]: every item must be an integer in [0, 256). *)
Definition check_bytes (l : list Z) : M (list Z) :=
  if forallb is_byte l then ret l else raise (ValueError msg_byte_range).

(** An item of a sequence handed to [bytearray]: an integer, else
    [TypeError], in [0, 256), else [ValueError]. *)
Definition as_int (v : pyval) : M Z :=
  match v with
  | PInt z => ret z
  | _ => raise TypeError
  end.
Definition as_byte (v : pyval) : M Z :=
  z <- as_int v ;;
  if is_byte z then ret z else raise (ValueError msg_byte_range).

Fixpoint as_bytes (l : list pyval) : M (list Z) :=
  match l with
  | [] => ret []
  | v :: rest => b <- as_byte v ;; bs <- as_bytes rest ;; ret (b :: bs)
  end.

(** [bytearray(items)] on a list of integers. *)
Definition bytearray (l : list Z) : M (list Z) := check_bytes l.

(** [data.extend(items)] and [data.append(item)]. *)
Definition extend (data : list Z) (items : list pyval) : M (list Z) :=
  bs <- as_bytes items ;; ret (data ++ bs).
Definition append (data : list Z) (item : Z) : M (list Z) :=
  bs <- check_bytes [item] ;; ret (data ++ bs).

(** [data[0] = v] on a non-empty bytearray. *)
Definition setitem0 (data : list Z) (v : Z) : M (list Z) :=
  if is_byte v then
    match data with
    | [] => raise IndexError
    | _ :: rest => ret (v :: rest)
    end
  else raise (ValueError msg_byte_range).

(** [data[i]] for a non-negative index. *)
Definition getitem {A} (data : list A) (i : Z) : M A :=
  match nth_error data (Z.to_nat i) with
  | Some b => ret b
  | None => raise IndexError
  end.

(** [v & mask]: defined on integers only. *)
Definition py_and (v : pyval) (mask : Z) : M Z :=
  match v with
  | PInt z => ret (Z.land z mask)
  | _ => raise TypeError
  end.

(** [len(v)]: lists and tuples have a length. *)
Definition py_len (v : pyval) : M Z :=
  match v with
  | PList items | PTuple items => ret (len items)
  | _ => raise TypeError
  end.

(** [v[i]] on a list or a tuple. *)
Definition py_index (v : pyval) (i : Z) : M pyval :=
  match v with
  | PList items | PTuple items => getitem items i
  | _ => raise TypeError
  end.

Definition isinstance_int (v : pyval) : bool :=
  match v with PInt _ => true | _ => false end.
Definition isinstance_Servo (v : pyval) : bool :=
  match v with PServo _ => true | _ => false end.

(** ** The device and the clock *)

Definition emit (e : event) : M unit :=
  modify (fun s => set_log (log s ++ [e]) s).

Definition device_flush : M unit := emit Flush.

(** [self._device.write(seq)]: both device libraries turn the sequence into
    [bytes] first, which fails on an item outside [0, 256). *)
Definition device_write (seq : list Z) : M unit :=
  bs <- check_bytes seq ;; emit (Write bs).

(** [serial.read(n)]: [n] bytes if they are there, else what came before the
    timeout. *)
Definition serial_read (n : Z) : M (list Z) :=
  emit (Read n) ;;;
  q <- gets rx ;;
  match q with
  | [] => ret []
  | chunk :: rest =>
      if len chunk <? n
      then modify (set_rx rest) ;;; ret chunk
      else modify (set_rx (skipn (Z.to_nat n) chunk :: rest)) ;;;
           ret (firstn (Z.to_nat n) chunk)
  end.

(** [hid.read(max_length, timeout_ms)]: the next report, at most [max_length]
    bytes of it; empty when none came within the timeout. *)
Definition hid_read (max_length timeout_ms : Z) : M (list Z) :=
  emit (Read max_length) ;;;
  q <- gets rx ;;
  match q with
  | [] => ret []
  | report :: rest =>
      modify (set_rx rest) ;;; ret (firstn (Z.to_nat max_length) report)
  end.

(** [time.sleep(secs)].  CPython first turns the seconds into a signed 64-bit
    count of nanoseconds, with [OverflowError] when they do not fit, and then
    refuses a negative count with [ValueError].  The controller passes [1] or
    [duration/1000] for an integer [duration]: for these the test on the
    exact quotient below and CPython's test on floats agree (no whole number
    of milliseconds is within rounding distance of the limit), and a quotient
    too large for a float is an [OverflowError] of the division itself.

    What happens to a count that fits depends on the platform once it is
    very large: the call sleeps for months or centuries, or fails with an
    error of the platform's own (a CPython before 3.11 on Windows counts the
    milliseconds in 32 bits; on Linux a sleep that would end after the last
    instant of the clock is refused by the operating system).  Here such a
    call sleeps; the properties below that need the sleep to succeed are
    stated up to [sleep_safe_ms], which every platform accepts. *)
Definition sleep_overflows (secs : QArith_base.Q) : bool :=
  let nanoseconds := QArith_base.Qnum secs * 1000000000 in
  let limit := 9223372036854775808 * Z.pos (QArith_base.Qden secs) in
  (nanoseconds <? - limit) || (limit <=? nanoseconds).
Definition time_sleep (secs : QArith_base.Q) : M unit :=
  if sleep_overflows secs then raise OverflowError
  else if QArith_base.Qnum secs <? 0
  then raise (ValueError msg_sleep_negative)
  else emit (Sleep secs).

(** The largest [duration], in milliseconds, whose nanoseconds fit 64 bits:
    beyond it, on either side of zero, [time.sleep(duration/1000)] raises
    [OverflowError] (2^63 nanoseconds are 9223372036854.775808 milliseconds). *)
Definition sleep_limit_ms : Z := 9223372036854.

(** A [duration], in milliseconds, that [time.sleep(duration/1000)] accepts
    on every platform: up to 2^32 - 1. *)
Definition sleep_safe_ms : Z := 4294967295.

(** ** The controller *)

Definition SIGNATURE : Z := 0x55.
Definition CMD_SERVO_MOVE : Z := 0x03.
Definition CMD_GET_BATTERY_VOLTAGE : Z := 0x0f.
Definition CMD_SERVO_STOP : Z := 0x14.
Definition CMD_GET_SERVO_POSITION : Z := 0x15.
Definition CMD_SERVO_ID_WRITE : Z := 0x1b.

(** [__init__], after the device has been opened: the port name picks the
    transport. *)
Definition Controller_init (com_port : string) (input : list (list Z))
    (objects : loc -> Servo.t) : result state :=
  if String.prefix "COM"%string com_port
  then Ok (mkState true false [] [] input [] objects)
  else if String.prefix "USB"%string com_port
  then Ok (mkState false false [] [] input [] objects)
  else Raise (ValueError msg_com_port).

Definition _send (cmd : Z) (data : list Z) : M unit :=
  is_serial <- gets _is_serial ;;
  if is_serial then
    device_flush ;;;
    device_write [SIGNATURE; SIGNATURE; len data + 2; cmd] ;;;
    if 0 <? len data then device_write data else ret tt
  else
    let report_data := [0; SIGNATURE; SIGNATURE; len data + 2; cmd] in
    let report_data := if negb (len data =? 0) then report_data ++ data else report_data in
    modify (set_usb_recv_event false) ;;;
    device_write report_data.

(** [None] is Python's [None]: no frame for [cmd]. *)
Definition _recv (cmd : Z) : M (option (list Z)) :=
  is_serial <- gets _is_serial ;;
  if is_serial then
    data <- serial_read 4 ;;
    d0 <- getitem data 0 ;;
    if d0 =? SIGNATURE then
      d1 <- getitem data 1 ;;
      if d1 =? SIGNATURE then
        d3 <- getitem data 3 ;;
        if d3 =? cmd then
          length <- getitem data 2 ;;
          data <- serial_read length ;;
          ret (Some data)
        else ret None
      else ret None
    else ret None
  else
    report <- hid_read 64 50 ;;
    modify (set_input_report report) ;;;
    if len report <? 4 then ret None
    else
      r0 <- getitem report 0 ;;
      if r0 =? SIGNATURE then
        r1 <- getitem report 1 ;;
        if r1 =? SIGNATURE then
          r3 <- getitem report 3 ;;
          if r3 =? cmd then
            length <- getitem report 2 ;;
            ret (Some (firstn (Z.to_nat length) (skipn 4 report)))
          else ret None
        else ret None
      else ret None.

(** [range(start, stop)]. *)
Fixpoint upto (start : Z) (count : nat) : list Z :=
  match count with
  | O => []
  | S fewer => start :: upto (start + 1) fewer
  end.
Definition range (start stop : Z) : list Z := upto start (Z.to_nat (stop - start)).

(** The three bytes a servo object contributes to a move frame. *)
Definition servo_items (o : Servo.t) : list pyval :=
  [PInt (Servo.servo_id o);
   PInt (Z.land (Servo.position o) 0xff);
   PInt (Z.shiftr (Z.land (Servo.position o) 0xff00) 8)].

(** An integer as a float (exact below 2^53). *)
Definition float_of_int (z : Z) : float := PrimFloat.of_uint63 (Uint63.of_Z z).

Section Operations.

(** [Util._angle_to_position] and [Util._position_to_angle]: [util.py] is
    not part of the sources, the two converters are parameters. *)
Variable _angle_to_position : float -> Z.
Variable _position_to_angle : Z -> float.

(** The range checks of [setPosition], on an integer and on a float. *)
Definition check_position (p : Z) : M unit :=
  if (p <? 0) || (p >? 1000)
  then raise (ValueError msg_position_range) else ret tt.
Definition check_angle (f : float) : M unit :=
  if (PrimFloat.ltb f (-125)%float) || (PrimFloat.ltb 125%float f)
  then raise (ValueError msg_angle_range) else ret tt.

(** The body of [for servo in servos] in [setPosition].  [position] is the
    function's local variable: it survives from one element to the next,
    so the body returns it along with the bytes gathered so far. *)
Definition setPosition_element (servo position : pyval) (data : list Z)
    : M (pyval * list Z) :=
  match servo with
  | PServo r =>
      o <- gets (fun s => heap s r) ;;
      data <- extend data (servo_items o) ;;
      ret (position, data)
  | _ =>
      n <- py_len servo ;;
      is_pair <- (if n =? 2
                  then s0 <- py_index servo 0 ;; ret (isinstance_int s0)
                  else ret false) ;;
      if is_pair then
        s1 <- py_index servo 1 ;;
        position <- match s1 with
                    | PInt p => check_position p ;;; ret (PInt p)
                    | PFloat f =>
                        check_angle f ;;; ret (PInt (_angle_to_position f))
                    | _ => ret position
                    end ;;
        s0 <- py_index servo 0 ;;
        lo <- py_and position 0xff ;;
        hi <- py_and position 0xff00 ;;
        data <- extend data [s0; PInt lo; PInt (Z.shiftr hi 8)] ;;
        ret (position, data)
      else raise (ValueError msg_list_not_valid)
  end.

Fixpoint setPosition_loop (servos : list pyval) (position : pyval)
    (data : list Z) : M (list Z) :=
  match servos with
  | [] => ret data
  | servo :: rest =>
      next <- setPosition_element servo position data ;;
      setPosition_loop rest (fst next) (snd next)
  end.

Definition setPosition (servos position : pyval) (duration : Z) (wait : bool)
    : M unit :=
  data <- bytearray [1; Z.land duration 0xff; Z.shiftr (Z.land duration 0xff00) 8] ;;
  data <- match servos with
          | PInt _ | PFloat _ =>
              match position with
              | PNone => raise (ValueError msg_position_missing)
              | _ => ret tt
              end ;;;
              match position with
              | PInt p => check_position p
              | _ => ret tt
              end ;;;
              position <- match position with
                          | PFloat f =>
                              check_angle f ;;; ret (PInt (_angle_to_position f))
                          | _ => ret position
                          end ;;
              lo <- py_and position 0xff ;;
              hi <- py_and position 0xff00 ;;
              extend data [servos; PInt lo; PInt (Z.shiftr hi 8)]
          | PServo r =>
              o <- gets (fun s => heap s r) ;;
              extend data (servo_items o)
          | PList items =>
              data <- setitem0 data (len items) ;;
              setPosition_loop items position data
          | _ => raise (ValueError msg_servos_not_valid)
          end ;;
  _send CMD_SERVO_MOVE data ;;;
  if wait then time_sleep (QArith_base.Qmake duration 1000) else ret tt.

(** [for servo in servos: data.append(servo.servo_id)], on a list that
    holds servo objects only. *)
Fixpoint getPosition_ids (servos : list pyval) (data : list Z) : M (list Z) :=
  match servos with
  | [] => ret data
  | PServo r :: rest =>
      o <- gets (fun s => heap s r) ;;
      data <- append data (Servo.servo_id o) ;;
      getPosition_ids rest data
  | _ :: _ => raise TypeError
  end.

(** [for i in range(data[0]): servos[i].position = data[i*3+3] * 256 + data[i*3+2]]. *)
Fixpoint getPosition_update (servos : list pyval) (data : list Z)
    (indices : list Z) : M unit :=
  match indices with
  | [] => ret tt
  | i :: rest =>
      hi <- getitem data (i * 3 + 3) ;;
      lo <- getitem data (i * 3 + 2) ;;
      servo <- getitem servos i ;;
      match servo with
      | PServo r =>
          modify (fun s =>
            set_heap (upd (heap s) r
                        (Servo.set_position (hi * 256 + lo) (heap s r))) s)
      | _ => raise TypeError
      end ;;;
      getPosition_update servos data rest
  end.

Definition getPosition (servos : pyval) (degrees : bool) : M pyval :=
  data <- match servos with
          | PInt i => bytearray [1; i]
          | PServo r =>
              o <- gets (fun s => heap s r) ;;
              bytearray [1; Servo.servo_id o]
          | PList items =>
              if forallb isinstance_Servo items then
                data <- bytearray [len items] ;;
                getPosition_ids items data
              else raise (ValueError msg_servos_not_valid)
          | _ => raise (ValueError msg_servos_not_valid)
          end ;;
  _send CMD_GET_SERVO_POSITION data ;;;
  data <- _recv CMD_GET_SERVO_POSITION ;;
  match data with
  | Some data =>
      match servos with
      | PList items =>
          count <- getitem data 0 ;;
          getPosition_update items data (range 0 count) ;;;
          ret PNone
      | _ =>
          hi <- getitem data 3 ;;
          lo <- getitem data 2 ;;
          let position := hi * 256 + lo in
          ret (if degrees then PFloat (_position_to_angle position)
               else PInt position)
      end
  | None => raise (Exception msg_recv_error)
  end.

(** [for servo in servos] in [servoOff]: an element that is neither an
    integer nor a servo object is passed over. *)
Fixpoint servoOff_loop (servos : list pyval) (data : list Z) : M (list Z) :=
  match servos with
  | [] => ret data
  | PInt i :: rest => data <- append data i ;; servoOff_loop rest data
  | PServo r :: rest =>
      o <- gets (fun s => heap s r) ;;
      data <- append data (Servo.servo_id o) ;;
      servoOff_loop rest data
  | _ :: rest => servoOff_loop rest data
  end.

Definition servoOff (servos : pyval) : M unit :=
  data <- bytearray [1] ;;
  data <- match servos with
          | PInt i => append data i
          | PServo r =>
              o <- gets (fun s => heap s r) ;;
              append data (Servo.servo_id o)
          | PList items =>
              data <- setitem0 data (len items) ;;
              servoOff_loop items data
          | PNone => ret [6; 1; 2; 3; 4; 5; 6]
          | _ => raise (ValueError msg_servos_incorrect)
          end ;;
  _send CMD_SERVO_STOP data.

(** [for i in range(1, maximum_servo_id + 1)] in [listServos]. *)
Fixpoint listServos_loop (ids : list Z) : M unit :=
  match ids with
  | [] => ret tt
  | i :: rest =>
      try_except
        (getPosition (PInt i) false ;;;
         modify (fun s => set_servos (servos s ++ [i]) s))
        (ret tt) ;;;
      listServos_loop rest
  end.

Definition listServos (maximum_servo_id : Z) : M (list Z) :=
  modify (set_servos []) ;;;
  listServos_loop (range 1 (maximum_servo_id + 1)) ;;;
  gets servos.

Definition writeServoId (new_servo_id : Z) (overwrite_all_servo_ids : bool)
    : M unit :=
  (if negb overwrite_all_servo_ids
   then listServos 6 ;;; ret tt
   else ret tt) ;;;
  found <- gets servos ;;
  if len found =? 0 then raise (ValueError msg_no_servos)
  else if (len found >? 1) && negb overwrite_all_servo_ids
  then raise (ValueError msg_more_than_one)
  else if new_servo_id =? 0 then raise (ValueError msg_zero_id)
  else
    data <- bytearray [new_servo_id] ;;
    _send CMD_SERVO_ID_WRITE data.

(** [while tries < 5] in [getBatteryVoltage]; [remaining] is [5 - tries].
    An attempt whose reply is [None] or empty sleeps and goes round again. *)
Fixpoint getBatteryVoltage_loop (remaining : nat) : M float :=
  match remaining with
  | O => ret 0%float
  | S fewer =>
      _send CMD_GET_BATTERY_VOLTAGE [] ;;;
      data <- _recv CMD_GET_BATTERY_VOLTAGE ;;
      match data with
      | None | Some [] =>
          time_sleep (QArith_base.Qmake 1 1) ;;;
          getBatteryVoltage_loop fewer
      | Some data =>
          hi <- getitem data 1 ;;
          lo <- getitem data 0 ;;
          ret (PrimFloat.div (float_of_int (hi * 256 + lo)) 1000%float)
      end
  end.

Definition getBatteryVoltage : M float := getBatteryVoltage_loop 5.

End Operations.

(** ** What is observed of a run *)

(** The sequences handed to [write], in order. *)
Fixpoint writes (l : list event) : list (list Z) :=
  match l with
  | [] => []
  | Write bs :: rest => bs :: writes rest
  | _ :: rest => writes rest
  end.

(** The bytes on the wire: what [write] received, less the report id that
    leads every HID report. *)
Definition wire (s : state) : list Z :=
  if _is_serial s then concat (writes (log s))
  else concat (map (@tl Z) (writes (log s))).

(** The frame as the protocol states it: signature, length, command, payload. *)
Definition encode (cmd : Z) (payload : list Z) : list Z :=
  [SIGNATURE; SIGNATURE; len payload + 2; cmd] ++ payload.

(** Send a frame, hand the bytes it put on the wire back as the device's
    next input, and read a frame for the same command. *)
Definition loopback (cmd : Z) (payload : list Z) : M (option (list Z)) :=
  before <- gets wire ;;
  _send cmd payload ;;;
  after <- gets wire ;;
  modify (set_rx [skipn (List.length before) after]) ;;;
  _recv cmd.

(** The payload lengths the round trip is stated for: up to 250 on the
    serial port, up to 60 on the HID device, whose one report of 64 bytes
    holds the header too. *)
Definition loopback_limit (s : state) : Z :=
  if _is_serial s then 250 else 60.

(** The header of a reply: both signature bytes and the command. *)
Definition header_ok (cmd : Z) (raw : list Z) : bool :=
  (nth 0 raw 0 =? SIGNATURE) && (nth 1 raw 0 =? SIGNATURE) && (nth 3 raw 0 =? cmd).

(** The part of an incoming run of bytes that a read can see. *)
Definition visible (s : state) (raw : list Z) : list Z :=
  if _is_serial s then raw else firstn 64 raw.

(** The frames of one probe of discovery, as [write] receives them. *)
Definition probe_writes (is_serial : bool) (i : Z) : list (list Z) :=
  if is_serial
  then [[SIGNATURE; SIGNATURE; 4; CMD_GET_SERVO_POSITION]; [1; i]]
  else [[0; SIGNATURE; SIGNATURE; 4; CMD_GET_SERVO_POSITION; 1; i]].

(** A device with the given input, a controller just constructed on it. *)
Definition objects0 : loc -> Servo.t := fun r => Servo.mk (Z.of_nat r) 0.
Definition serial0 (input : list (list Z)) : state :=
  mkState true false [] [] input [] objects0.
Definition usb0 (input : list (list Z)) : state :=
  mkState false false [] [] input [] objects0.

(** ** Definitions used to state the properties *)

(** What one [_send] does to the device when every byte fits. *)
Definition sent_events (is_serial : bool) (cmd : Z) (data : list Z) : list event :=
  if is_serial
  then Flush :: Write [SIGNATURE; SIGNATURE; len data + 2; cmd]
       :: (if 0 <? len data then [Write data] else [])
  else [Write ([0; SIGNATURE; SIGNATURE; len data + 2; cmd] ++ data)].

(** The three bytes of a servo object, as integers. *)
Definition servo_bytes (o : Servo.t) : list Z :=
  [Servo.servo_id o;
   Z.land (Servo.position o) 0xff;
   Z.shiftr (Z.land (Servo.position o) 0xff00) 8].

(** The payload of a move frame. *)
Definition move_payload (count duration : Z) (triples : list Z) : list Z :=
  [count; Z.land duration 0xff; Z.shiftr (Z.land duration 0xff00) 8] ++ triples.

(** The sleep that ends [setPosition] when the caller asks to wait. *)
Definition slept (wait : bool) (duration : Z) : list event :=
  if wait then [Sleep (QArith_base.Qmake duration 1000)] else [].

(** The frames discovery writes for a run of ids: one probe per id that fits
    a byte (for another id [bytearray] fails before anything is sent). *)
Definition probes_written (is_serial : bool) (ids : list Z) : list (list Z) :=
  flat_map (probe_writes is_serial) (filter is_byte ids).

(** The events of the identity write. *)
Definition id_write_events (is_serial : bool) (new_servo_id : Z) : list event :=
  if is_serial
  then [Flush; Write [SIGNATURE; SIGNATURE; 3; CMD_SERVO_ID_WRITE]; Write [new_servo_id]]
  else [Write [0; SIGNATURE; SIGNATURE; 3; CMD_SERVO_ID_WRITE; new_servo_id]].

(** The writes of the discovery that [writeServoId] runs unless told to
    overwrite all. *)
Definition guard_writes (overwrite_all_servo_ids is_serial : bool) : list (list Z) :=
  if overwrite_all_servo_ids then []
  else probes_written is_serial (range 1 7).

(** One probe of discovery: [self.getPosition(i)]. *)
Definition probe (_position_to_angle : Z -> float) (i : Z) : M pyval :=
  getPosition _position_to_angle (PInt i) false.

(** The last two statements of [writeServoId]. *)
Definition send_id (new_servo_id : Z) : M unit :=
  data <- bytearray [new_servo_id] ;; _send CMD_SERVO_ID_WRITE data.

(** Discovery as a relation: the ids are probed in order, each in the state
    the earlier probes left; an id whose probe returns is found, an id whose
    probe raises, whatever it raises, is not. *)
Inductive discovery (probe : Z -> M pyval) : list Z -> state -> list Z -> state -> Prop :=
| discovery_done (s : state) : discovery probe [] s [] s
| discovery_found (i : Z) (ids : list Z) (s s1 s2 : state) (v : pyval) (found : list Z) :
    probe i s = (Ok v, s1) ->
    discovery probe ids s1 found s2 ->
    discovery probe (i :: ids) s (i :: found) s2
| discovery_absent (i : Z) (ids : list Z) (s s1 s2 : state) (e : exn) (found : list Z) :
    probe i s = (Raise e, s1) ->
    discovery probe ids s1 found s2 ->
    discovery probe (i :: ids) s found s2.

(** The position the reply carries at index [i]. *)
Definition reply_position (reply : list Z) (i : Z) : Z :=
  nth (Z.to_nat (i * 3 + 3)) reply 0 * 256 + nth (Z.to_nat (i * 3 + 2)) reply 0.

(** One round of the update loop of [getPosition], on the servo objects alone. *)
Definition assign (refs : list loc) (reply : list Z) (h : loc -> Servo.t) (i : Z)
    : loc -> Servo.t :=
  let r := nth (Z.to_nat i) refs 0%nat in
  upd h r (Servo.set_position (reply_position reply i) (h r)).

(** [s'] differs from [s] by nothing a later check or frame depends on: same
    transport, same cache, same servo objects, same writes. *)
Definition quiet (s s' : state) : Prop :=
  _is_serial s' = _is_serial s /\ servos s' = servos s /\ heap s' = heap s /\
  writes (log s') = writes (log s).

(** A computation that neither reads nor writes the cache [servos]. *)
Definition blind {A} (m : M A) : Prop :=
  forall l s, m (set_servos l s) = (fst (m s), set_servos l (snd (m s))).

(** A computation that leaves the state alone and whose value, if any,
    satisfies [Q]. *)
Definition builds {A} (m : M A) (Q : A -> Prop) : Prop :=
  forall s, snd (m s) = s /\ (forall a, fst (m s) = Ok a -> Q a).

Definition all_bytes (l : list Z) : Prop := forallb is_byte l = true.
Definition anything {A} (a : A) : Prop := True.

(** A computation that never raises [ValueError]. *)
Definition no_value_error {A} (m : M A) : Prop :=
  forall s msg, fst (m s) <> Raise (ValueError msg).

(** One failed attempt of the battery poll on the HID device. *)
Definition battery_attempt : list event :=
  [Write [0; SIGNATURE; SIGNATURE; 2; CMD_GET_BATTERY_VOLTAGE]; Read 64;
   Sleep (QArith_base.Qmake 1 1)].

(** A serial controller whose caller holds, as object 3, a servo whose
    position field is far outside [0, 1000]. *)
Definition far_servo : state :=
  set_heap (upd objects0 3%nat (Servo.mk 3 70000)) (serial0 []).

(** [int(f)] on a finite float: towards zero. *)
Definition int_of_float (f : float) : Z :=
  match Prim2SF f with
  | S754_finite negative m e =>
      let magnitude := Z.shiftl (Z.pos m) e in
      if negative then - magnitude else magnitude
  | _ => 0
  end.

(** Modelled from the spec: [Util._angle_to_position] ([util.py] is not part of
    the sources), for the closed runs below: increasing, four raw units to
    the degree, [-125.0, 125.0] onto [0, 1000]. *)
Definition linear_angle_to_position (angle : float) : Z :=
  int_of_float (PrimFloat.mul (PrimFloat.add angle 125%float) 4%float).
(** Modelled from the spec: [Util._position_to_angle] ([util.py] is not part of
    the sources), the inverse of the converter above up to rounding. *)
Definition linear_position_to_angle (position : Z) : float :=
  PrimFloat.sub (PrimFloat.div (float_of_int position) 4%float) 125%float.

(** ** What the documentation asks of the arguments *)

(** What the documentation asks of a position: that it is there, and that
    it is an integer from 0 to 1000 or an angle from -125.0 to 125.0.  The
    message of the error when it is not. *)
Definition position_error (position : pyval) : option string :=
  match position with
  | PNone => Some msg_position_missing
  | PInt p => if (p <? 0) || (1000 <? p) then Some msg_position_range else None
  | PFloat angle =>
      if PrimFloat.ltb angle (-125)%float || PrimFloat.ltb 125%float angle
      then Some msg_angle_range else None
  | _ => None
  end.

(** What the documentation asks of an element of the list handed to
    [setPosition]: a servo object, or a pair of an integer id and a position
    in range.  The message of the error for a list or tuple that is not such
    a pair, or whose position is out of range. *)
Definition element_error (v : pyval) : option string :=
  match v with
  | PList [PInt _; PInt p] | PTuple [PInt _; PInt p] => position_error (PInt p)
  | PList [PInt _; PFloat angle] | PTuple [PInt _; PFloat angle] =>
      position_error (PFloat angle)
  | PList [PInt _; _] | PTuple [PInt _; _] => None
  | PList _ | PTuple _ => Some msg_list_not_valid
  | _ => None
  end.

(** An element that [setPosition] takes: a servo object or a pair with a
    position in range (for an angle: a number from -125.0 to 125.0), with an
    id that fits a byte. *)
Definition element_accepted (h : loc -> Servo.t) (v : pyval) : bool :=
  match v with
  | PServo r => is_byte (Servo.servo_id (h r))
  | PList [PInt i; PInt p] | PTuple [PInt i; PInt p] =>
      is_byte i && negb ((p <? 0) || (1000 <? p))
  | PList [PInt i; PFloat angle] | PTuple [PInt i; PFloat angle] =>
      is_byte i &&
      (PrimFloat.leb (-125)%float angle && PrimFloat.leb angle 125%float)
  | _ => false
  end.

(** The shapes of [servos] that each operation documents. *)
Definition is_number (v : pyval) : bool :=
  match v with PInt _ | PFloat _ => true | _ => false end.
Definition setPosition_shape (v : pyval) : bool :=
  match v with PInt _ | PFloat _ | PServo _ | PList _ => true | _ => false end.
Definition getPosition_shape (v : pyval) : bool :=
  match v with
  | PInt _ | PServo _ => true
  | PList items => forallb isinstance_Servo items
  | _ => false
  end.
Definition servoOff_shape (v : pyval) : bool :=
  match v with PInt _ | PServo _ | PList _ | PNone => true | _ => false end.

(** The error of [writeServoId] for what discovery found, when the new id is
    zero or the target is not exactly one servo. *)
Definition target_error (found : list Z) : string :=
  match found with
  | [] => msg_no_servos
  | [_] => msg_zero_id
  | _ => msg_more_than_one
  end.

(** ** Opening the device *)

(** [s.strip(chars)]: the characters of [chars] are taken off both ends. *)
Definition among (chars : list Ascii.ascii) (c : Ascii.ascii) : bool :=
  existsb (Ascii.eqb c) chars.
Fixpoint lstrip (chars : list Ascii.ascii) (s : string) : string :=
  match s with
  | EmptyString => EmptyString
  | String c rest => if among chars c then lstrip chars rest else s
  end.
Fixpoint rstrip (chars : list Ascii.ascii) (s : string) : string :=
  match s with
  | EmptyString => EmptyString
  | String c rest =>
      match rstrip chars rest with
      | EmptyString => if among chars c then EmptyString else String c EmptyString
      | kept => String c kept
      end
  end.
Definition strip (chars : list Ascii.ascii) (s : string) : string :=
  rstrip chars (lstrip chars s).

(** What [__init__] asks of the device libraries: [serial.Serial(port,
    baudrate, timeout=...)], [hid.device().open(vendor_id, product_id,
    serial_number)] with or without a serial number, or
    [hid.device().open_path(path)]. *)
Inductive opening : Type :=
| Serial_open (port : string) (baudrate timeout : Z)
| Hid_open (vendor_id product_id : Z) (serial_number : option string)
| Hid_open_path (path : string).

(** The characters of ['USB']. *)
Definition USB : list Ascii.ascii := list_ascii_of_string "USB"%string.

(** The first part of [__init__]: which device is opened, and how.
    [usb_path] is [None] or a string. *)
Definition Controller_open (com_port : string) (usb_path : option string)
    : result opening :=
  if String.prefix "COM"%string com_port
  then Ok (Serial_open com_port 9600 1)
  else if String.prefix "USB"%string com_port
  then
    let serial_number := strip USB com_port in
    match serial_number with
    | String _ _ => Ok (Hid_open 0x0483 0x5750 (Some serial_number))
    | EmptyString =>
        match usb_path with
        | Some path => Ok (Hid_open_path path)
        | None => Ok (Hid_open 0x0483 0x5750 None)
        end
    end
  else Raise (ValueError msg_com_port).

(** The first and the last character of a string. *)
Definition first_char (s : string) : option Ascii.ascii :=
  match s with
  | EmptyString => None
  | String c _ => Some c
  end.
Fixpoint last_char (s : string) : option Ascii.ascii :=
  match s with
  | EmptyString => None
  | String c rest =>
      match last_char rest with
      | None => Some c
      | found => found
      end
  end.

(** Every character of [s] is one of [chars]. *)
Fixpoint only (chars : list Ascii.ascii) (s : string) : bool :=
  match s with
  | EmptyString => true
  | String c rest => among chars c && only chars rest
  end.

(** ** Definitions used to state further properties *)

(** The sizes asked of [read], in order. *)
Fixpoint reads (l : list event) : list Z :=
  match l with
  | [] => []
  | Read n :: rest => n :: reads rest
  | _ :: rest => reads rest
  end.

(** [s'] differs from [s] by nothing a read could have caused or could
    depend on: same pending input, same servo objects, same cache, and no
    read made. *)
Definition untouched (s s' : state) : Prop :=
  rx s' = rx s /\ heap s' = heap s /\ servos s' = servos s /\
  reads (log s') = reads (log s).

(** A computation whose final state is related to its initial state by [R],
    whatever it returns or raises. *)
Definition keeps (R : state -> state -> Prop) {A} (m : M A) : Prop :=
  forall s, R s (snd (m s)).

(** The payload [_recv] returns for a reply whose header is accepted: the
    bytes after the header, as many as the length byte says if they came. *)
Definition received (s : state) (raw : list Z) : list Z :=
  firstn (Z.to_nat (nth 2 raw 0)) (skipn 4 (visible s raw)).

(** [s'] holds the same servo objects and the same cache as [s]. *)
Definition same_objects (s s' : state) : Prop :=
  heap s' = heap s /\ servos s' = servos s.

(** The three bytes of a move to [position] for servo [servo_id], when
    [position] is within the 16 bits the frame has for it. *)
Definition move_bytes (servo_id position : Z) : list Z :=
  [servo_id; position mod 256; position / 256].

(** An element [(servo_id, position)] of the list handed to [setPosition]. *)
Definition move_pair (m : Z * Z) : pyval := PTuple [PInt (fst m); PInt (snd m)].

(** The ids [servoOff] gathers from a list: the integers and the ids of the
    servo objects, in order; any other element contributes nothing. *)
Definition stop_ids (h : loc -> Servo.t) (items : list pyval) : list Z :=
  flat_map (fun v => match v with
                     | PInt i => [i]
                     | PServo r => [Servo.servo_id (h r)]
                     | _ => []
                     end) items.

(** ** Tactics *)

(** Reduce the matches a run has decided, and the projections of a state
    that a setter built. *)
Ltac mred :=
  cbv beta iota;
  cbn [fst snd _is_serial _usb_recv_event _input_report servos rx log heap
       set_usb_recv_event set_input_report set_servos set_rx set_log set_heap].
Ltac munfold :=
  repeat (progress (unfold bind, ret, raise, gets, modify, emit, try_except; mred)).

(** Case analysis on the innermost undecided test of the goal. *)
Ltac break_match :=
  match goal with
  | |- context [match ?x with _ => _ end] =>
      lazymatch x with
      | context [match _ with _ => _ end] => fail
      | _ => destruct x eqn:?
      end
  end.
Ltac run := repeat (munfold; try break_match).

(** * Proofs *)

(** ** The monad, bytes and the frame writer *)

Lemma constructed_serial (input : list (list Z)) :
  Controller_init "COM3" input objects0 = Ok (serial0 input).
Proof. reflexivity. Qed.

Lemma constructed_hid (input : list (list Z)) :
  Controller_init "USB" input objects0 = Ok (usb0 input).
Proof. reflexivity. Qed.

Lemma bind_ok {A B} (m : M A) (k : A -> M B) (s s1 : state) (a : A) :
  m s = (Ok a, s1) -> bind m k s = k a s1.
Proof. intros H. unfold bind. rewrite H. reflexivity. Qed.

Lemma bind_raise {A B} (m : M A) (k : A -> M B) (s s1 : state) (e : exn) :
  m s = (Raise e, s1) -> bind m k s = (Raise e, s1).
Proof. intros H. unfold bind. rewrite H. reflexivity. Qed.

Lemma bind_assoc {A B C} (m : M A) (f : A -> M B) (g : B -> M C) (s : state) :
  bind (bind m f) g s = bind m (fun a => bind (f a) g) s.
Proof. unfold bind. destruct (m s) as [[a|e] s1]; reflexivity. Qed.

Lemma writes_app (l1 l2 : list event) : writes (l1 ++ l2) = writes l1 ++ writes l2.
Proof.
  induction l1 as [|e l1 IH]; [reflexivity|].
  destruct e; cbn [app writes]; rewrite ?IH; reflexivity.
Qed.

Lemma len_app {A} (l1 l2 : list A) : len (l1 ++ l2) = len l1 + len l2.
Proof. unfold len. rewrite length_app. lia. Qed.

Lemma len_cons {A} (a : A) (l : list A) : len (a :: l) = 1 + len l.
Proof. unfold len. cbn [List.length]. lia. Qed.

Lemma len_nonneg {A} (l : list A) : 0 <= len l.
Proof. unfold len. lia. Qed.

Lemma check_bytes_ok (l : list Z) (s : state) :
  forallb is_byte l = true -> check_bytes l s = (Ok l, s).
Proof. intros H. unfold check_bytes. rewrite H. reflexivity. Qed.

Lemma check_bytes_raise (l : list Z) (s : state) :
  forallb is_byte l = false ->
  check_bytes l s = (Raise (ValueError msg_byte_range), s).
Proof. intros H. unfold check_bytes. rewrite H. reflexivity. Qed.

Lemma device_write_ok (bs : list Z) (s : state) :
  forallb is_byte bs = true ->
  device_write bs s = (Ok tt, set_log (log s ++ [Write bs]) s).
Proof.
  intros H. unfold device_write, bind. rewrite (check_bytes_ok _ _ H).
  reflexivity.
Qed.

Lemma device_write_raise (bs : list Z) (s : state) :
  forallb is_byte bs = false ->
  device_write bs s = (Raise (ValueError msg_byte_range), s).
Proof.
  intros H. unfold device_write, bind. rewrite (check_bytes_raise _ _ H).
  reflexivity.
Qed.

Lemma header_bytes (cmd n : Z) :
  is_byte cmd = true -> 0 <= n <= 253 ->
  forallb is_byte [SIGNATURE; SIGNATURE; n + 2; cmd] = true.
Proof.
  intros Hc Hn. cbn [forallb]. rewrite Hc.
  unfold is_byte, SIGNATURE.
  replace (0 <=? n + 2) with true by (symmetry; apply Z.leb_le; lia).
  replace (n + 2 <=? 255) with true by (symmetry; apply Z.leb_le; lia).
  reflexivity.
Qed.

Lemma send_ok (cmd : Z) (data : list Z) (s : state) :
  is_byte cmd = true -> forallb is_byte data = true -> len data <= 253 ->
  _send cmd data s =
    (Ok tt,
     set_log (log s ++ sent_events (_is_serial s) cmd data)
       (if _is_serial s then s else set_usb_recv_event false s)).
Proof.
  intros Hc Hd Hn.
  pose proof (header_bytes cmd (len data) Hc (conj (len_nonneg data) Hn)) as Hh.
  unfold _send, sent_events. munfold.
  destruct (_is_serial s) eqn:Hs.
  - unfold device_flush. munfold.
    rewrite device_write_ok by exact Hh. mred.
    destruct (0 <? len data) eqn:Hz.
    + rewrite device_write_ok by exact Hd. mred.
      rewrite <- !app_assoc. reflexivity.
    + mred. rewrite <- !app_assoc. reflexivity.
  - assert (Hr : forallb is_byte ([0; SIGNATURE; SIGNATURE; len data + 2; cmd] ++ data) = true).
    { rewrite forallb_app, Hd. cbn [forallb] in *. rewrite Hh. reflexivity. }
    destruct (len data =? 0) eqn:Hz; cbn [negb].
    + assert (data = []) as ->.
      { apply Z.eqb_eq in Hz. destruct data; [reflexivity|]. rewrite len_cons in Hz.
        pose proof (len_nonneg data). lia. }
      rewrite app_nil_r in *.
      rewrite device_write_ok by exact Hr. mred. reflexivity.
    + rewrite device_write_ok by exact Hr. mred. reflexivity.
Qed.

Lemma firstn_short {A} (n : Z) (l : list A) :
  (len l <? n) = true -> l = firstn (Z.to_nat n) l.
Proof.
  intros H. apply Z.ltb_lt in H. unfold len in H.
  symmetry. apply firstn_all2. lia.
Qed.

Lemma recv_result (cmd : Z) (raw : list Z) (rest : list (list Z)) (s : state) :
  rx s = raw :: rest -> 4 <= len raw ->
  fst (_recv cmd s) =
    Ok (if header_ok cmd (visible s raw)
        then Some (firstn (Z.to_nat (nth 2 raw 0)) (skipn 4 (visible s raw)))
        else None).
Proof.
  intros Hrx Hlen.
  destruct raw as [|a [|b [|c [|d tl]]]];
    try (unfold len in Hlen; cbn [List.length] in Hlen; lia).
  unfold _recv, visible, header_ok. munfold.
  destruct (_is_serial s) eqn:Hs.
  - unfold serial_read. munfold. rewrite Hrx.
    replace (len (a :: b :: c :: d :: tl) <? 4) with false
      by (symmetry; apply Z.ltb_ge; exact Hlen).
    munfold. change (Z.to_nat 4) with 4%nat. cbn [firstn skipn nth].
    unfold getitem. change (Z.to_nat 0) with 0%nat. change (Z.to_nat 1) with 1%nat.
    change (Z.to_nat 2) with 2%nat. change (Z.to_nat 3) with 3%nat.
    cbn [nth_error]. munfold.
    destruct (a =? SIGNATURE); [|reflexivity]. munfold.
    destruct (b =? SIGNATURE); [|reflexivity]. munfold.
    destruct (d =? cmd); [|reflexivity]. munfold.
    destruct (len tl <? c) eqn:Hc; munfold.
    + rewrite (firstn_short c tl Hc) at 1. reflexivity.
    + reflexivity.
  - unfold hid_read. munfold. rewrite Hrx. munfold.
    change (firstn (Z.to_nat 64) (a :: b :: c :: d :: tl))
      with (a :: b :: c :: d :: firstn 60 tl).
    change (firstn 64 (a :: b :: c :: d :: tl))
      with (a :: b :: c :: d :: firstn 60 tl).
    cbn [skipn nth].
    replace (len (a :: b :: c :: d :: firstn 60 tl) <? 4) with false
      by (symmetry; apply Z.ltb_ge; rewrite !len_cons;
          pose proof (len_nonneg (firstn 60 tl)); lia).
    unfold getitem. change (Z.to_nat 0) with 0%nat. change (Z.to_nat 1) with 1%nat.
    change (Z.to_nat 2) with 2%nat. change (Z.to_nat 3) with 3%nat.
    cbn [nth_error]. munfold.
    destruct (a =? SIGNATURE); [|reflexivity]. munfold.
    destruct (b =? SIGNATURE); [|reflexivity]. munfold.
    destruct (d =? cmd); reflexivity.
Qed.

Lemma skipn_length_app {A} (l1 l2 : list A) : skipn (List.length l1) (l1 ++ l2) = l2.
Proof. induction l1 as [|a l1 IH]; [reflexivity | exact IH]. Qed.

Lemma concat_snoc {A} (ls : list (list A)) (l : list A) :
  concat (ls ++ [l]) = concat ls ++ l.
Proof. rewrite concat_app. cbn [concat]. rewrite app_nil_r. reflexivity. Qed.

Lemma send_wire (cmd : Z) (data : list Z) (s : state) :
  is_byte cmd = true -> forallb is_byte data = true -> len data <= 253 ->
  wire (snd (_send cmd data s)) = wire s ++ encode cmd data.
Proof.
  intros Hc Hd Hn. rewrite (send_ok cmd data s Hc Hd Hn).
  unfold wire, sent_events, encode. cbn [snd].
  destruct (_is_serial s) eqn:Hs; mred; rewrite Hs, writes_app.
  - cbn [writes]. destruct (0 <? len data) eqn:Hz; cbn [writes].
    + rewrite concat_app. cbn [concat]. rewrite app_nil_r. reflexivity.
    + assert (data = []) as ->.
      { apply Z.ltb_ge in Hz. destruct data; [reflexivity|]. rewrite len_cons in Hz.
        pose proof (len_nonneg data). lia. }
      rewrite concat_app. cbn [concat]. rewrite !app_nil_r. reflexivity.
  - cbn [writes]. rewrite map_app, concat_app. cbn [map tl concat app].
    rewrite app_nil_r. reflexivity.
Qed.

Lemma recv_encoded (cmd : Z) (payload : list Z) (s : state) :
  rx s = [encode cmd payload] ->
  (_is_serial s = false -> len payload <= 60) ->
  fst (_recv cmd s) = Ok (Some payload).
Proof.
  intros Hrx Hn.
  assert (Hlen : 4 <= len (encode cmd payload)).
  { unfold encode. rewrite len_app. pose proof (len_nonneg payload).
    unfold len at 1. cbn [List.length]. lia. }
  rewrite (recv_result cmd _ [] s Hrx Hlen).
  assert (Hv : visible s (encode cmd payload) = encode cmd payload).
  { unfold visible. destruct (_is_serial s); [reflexivity|].
    apply firstn_all2. specialize (Hn eq_refl). unfold encode.
    rewrite length_app. cbn [List.length]. unfold len in Hn. lia. }
  rewrite Hv. unfold header_ok, encode. cbn [app nth skipn].
  rewrite !Z.eqb_refl. cbn [andb].
  rewrite firstn_all2; [reflexivity|]. unfold len. lia.
Qed.

(** ** Servo objects in a move frame *)

Lemma is_byte_iff (z : Z) : is_byte z = true <-> 0 <= z <= 255.
Proof. unfold is_byte. rewrite andb_true_iff, !Z.leb_le. tauto. Qed.

Lemma low_byte (z : Z) : is_byte (Z.land z 0xff) = true.
Proof.
  assert (E : Z.land z 0xff = z mod 256)
    by (change 0xff with (Z.ones 8); rewrite Z.land_ones by lia; reflexivity).
  rewrite E. apply is_byte_iff.
  pose proof (Z.mod_pos_bound z 256 ltac:(lia)). lia.
Qed.

Lemma high_byte (z : Z) : is_byte (Z.shiftr (Z.land z 0xff00) 8) = true.
Proof.
  rewrite Z.shiftr_land. change (Z.shiftr 0xff00 8) with 0xff. apply low_byte.
Qed.

Lemma extend_servo (data : list Z) (o : Servo.t) (s : state) :
  is_byte (Servo.servo_id o) = true ->
  extend data (servo_items o) s = (Ok (data ++ servo_bytes o), s).
Proof.
  intros Hid. unfold extend, servo_items. cbn [as_bytes]. unfold as_byte, as_int.
  munfold. rewrite Hid, low_byte, high_byte. munfold. reflexivity.
Qed.

Lemma servo_bytes_ok (o : Servo.t) :
  is_byte (Servo.servo_id o) = true -> forallb is_byte (servo_bytes o) = true.
Proof.
  intros Hid. unfold servo_bytes. cbn [forallb].
  rewrite Hid, low_byte, high_byte. reflexivity.
Qed.

Section MoveFrames.
Variable a2p : float -> Z.
Variable p2a : Z -> float.

Lemma setPosition_element_servo (r : loc) (position : pyval) (data : list Z)
    (s : state) :
  is_byte (Servo.servo_id (heap s r)) = true ->
  setPosition_element a2p (PServo r) position data s =
    (Ok (position, data ++ servo_bytes (heap s r)), s).
Proof.
  intros Hid. unfold setPosition_element. munfold.
  rewrite (extend_servo data _ s Hid). reflexivity.
Qed.

Lemma setPosition_loop_servos (refs : list loc) (position : pyval)
    (data : list Z) (s : state) :
  Forall (fun r => is_byte (Servo.servo_id (heap s r)) = true) refs ->
  setPosition_loop a2p (map PServo refs) position data s =
    (Ok (data ++ flat_map (fun r => servo_bytes (heap s r)) refs), s).
Proof.
  intros H. revert data. induction H as [|r refs Hr _ IH]; intros data.
  - cbn [map flat_map setPosition_loop]. rewrite app_nil_r. reflexivity.
  - cbn [map flat_map setPosition_loop].
    erewrite bind_ok by (apply setPosition_element_servo; exact Hr).
    cbn [fst snd]. rewrite IH, <- app_assoc. reflexivity.
Qed.

Lemma sleep_fits (duration : Z) :
  0 <= duration <= sleep_safe_ms ->
  sleep_overflows (QArith_base.Qmake duration 1000) = false.
Proof.
  unfold sleep_safe_ms, sleep_overflows. cbn [QArith_base.Qnum QArith_base.Qden].
  intros H. apply orb_false_iff. split; [apply Z.ltb_ge | apply Z.leb_gt]; lia.
Qed.

Lemma time_sleep_ok (wait : bool) (duration : Z) (s : state) :
  (wait = true -> 0 <= duration <= sleep_safe_ms) ->
  (if wait then time_sleep (QArith_base.Qmake duration 1000) else ret tt) s =
    (Ok tt, set_log (log s ++ slept wait duration) s).
Proof.
  intros H. unfold slept. destruct wait.
  - unfold time_sleep. rewrite (sleep_fits duration (H eq_refl)).
    cbn [QArith_base.Qnum].
    replace (duration <? 0) with false
      by (symmetry; apply Z.ltb_ge; apply (H eq_refl)).
    reflexivity.
  - munfold. rewrite app_nil_r. destruct s; reflexivity.
Qed.

Lemma servo_list_bytes (refs : list loc) (s : state) :
  Forall (fun r => is_byte (Servo.servo_id (heap s r)) = true) refs ->
  forallb is_byte (flat_map (fun r => servo_bytes (heap s r)) refs) = true /\
  len (flat_map (fun r => servo_bytes (heap s r)) refs) = 3 * len refs.
Proof.
  induction 1 as [|r refs Hr _ [IH1 IH2]]; [split; reflexivity|].
  cbn [flat_map]. rewrite forallb_app, (servo_bytes_ok _ Hr), IH1, len_app, IH2.
  rewrite (len_cons r refs). split; [reflexivity|].
  unfold servo_bytes, len. cbn [List.length]. lia.
Qed.

Lemma setPosition_servo_list (refs : list loc) (position : pyval)
    (duration : Z) (wait : bool) (s : state) :
  Forall (fun r => is_byte (Servo.servo_id (heap s r)) = true) refs ->
  len refs <= 83 ->
  (wait = true -> 0 <= duration <= sleep_safe_ms) ->
  fst (setPosition a2p (PList (map PServo refs)) position duration wait s) = Ok tt /\
  log (snd (setPosition a2p (PList (map PServo refs)) position duration wait s)) =
    log s ++
    sent_events (_is_serial s) CMD_SERVO_MOVE
      (move_payload (len refs) duration
         (flat_map (fun r => servo_bytes (heap s r)) refs)) ++
    slept wait duration.
Proof.
  intros Hids Hn Hw. destruct (servo_list_bytes refs s Hids) as [Hb Hl].
  pose proof (len_nonneg refs) as Hn0.
  unfold setPosition, bytearray.
  erewrite bind_ok
    by (apply check_bytes_ok; cbn [forallb]; rewrite low_byte, high_byte; reflexivity).
  replace (len (map PServo refs)) with (len refs)
    by (unfold len; rewrite length_map; reflexivity).
  assert (Hc : is_byte (len refs) = true) by (apply is_byte_iff; lia).
  erewrite bind_ok.
  2: { erewrite bind_ok by (unfold setitem0; rewrite Hc; reflexivity).
       apply setPosition_loop_servos. exact Hids. }
  erewrite bind_ok.
  2: { apply send_ok; [reflexivity | |].
       - rewrite forallb_app, Hb. cbn [forallb].
         rewrite Hc, low_byte, high_byte. reflexivity.
       - rewrite len_app, Hl. unfold len at 1. cbn [List.length]. lia. }
  rewrite time_sleep_ok by exact Hw. unfold move_payload.
  destruct (_is_serial s); mred; rewrite <- app_assoc; split; reflexivity.
Qed.

(** The slip behind C7: a pair whose second component is neither an integer
    nor a float passes every test of the loop body and is encoded with the
    position the local variable still holds. *)
Lemma setPosition_element_keeps_position (id : Z) (v : pyval) (p : Z)
    (data : list Z) (s : state) :
  is_byte id = true ->
  isinstance_int v = false ->
  (forall f, v <> PFloat f) ->
  setPosition_element a2p (PTuple [PInt id; v]) (PInt p) data s =
    (Ok (PInt p,
         data ++ [id; Z.land p 0xff; Z.shiftr (Z.land p 0xff00) 8]), s).
Proof.
  intros Hid Hint Hfloat.
  destruct v; try discriminate Hint; try (exfalso; eapply Hfloat; reflexivity);
    unfold setPosition_element, extend; cbn [py_len py_index as_bytes];
    unfold getitem, as_byte, as_int; munfold;
    match goal with
    | |- context [len ?l =? 2] => change (len l =? 2) with true
    end;
    change (Z.to_nat 0) with 0%nat; change (Z.to_nat 1) with 1%nat;
    cbn [nth_error isinstance_int py_and]; munfold;
    rewrite Hid, low_byte, high_byte; reflexivity.
Qed.
End MoveFrames.

(** ** The frame reader and discovery *)

Lemma quiet_refl s : quiet s s.
Proof. repeat split. Qed.

Lemma writes_read (l : list event) (n : Z) : writes (l ++ [Read n]) = writes l.
Proof. rewrite writes_app. cbn [writes]. apply app_nil_r. Qed.

Lemma recv_quiet (cmd : Z) (s : state) : quiet s (snd (_recv cmd s)).
Proof.
  unfold quiet, _recv, serial_read, hid_read, getitem.
  run; repeat split; mred; rewrite ?writes_app; cbn [writes];
    rewrite ?app_nil_r; congruence.
Qed.

Lemma recv_blind (cmd : Z) (l : list Z) (s : state) :
  _recv cmd (set_servos l s) = (fst (_recv cmd s), set_servos l (snd (_recv cmd s))).
Proof.
  unfold _recv, serial_read, hid_read, getitem.
  run; try reflexivity; congruence.
Qed.

Lemma blind_bind {A B} (m : M A) (k : A -> M B) :
  blind m -> (forall a, blind (k a)) -> blind (bind m k).
Proof.
  intros Hm Hk l s. unfold bind. rewrite Hm.
  destruct (m s) as [[a|e] s1]; cbn [fst snd]; [apply Hk | reflexivity].
Qed.

Lemma blind_stateless {A} (m : M A) (r : result A) :
  (forall s, m s = (r, s)) -> blind m.
Proof. intros H l s. rewrite !H. reflexivity. Qed.

Lemma blind_check_bytes (l : list Z) : blind (check_bytes l).
Proof. intros c s. unfold check_bytes. run; reflexivity. Qed.

Lemma blind_getitem {A} (data : list A) (i : Z) : blind (getitem data i).
Proof. intros c s. unfold getitem. run; reflexivity. Qed.

Lemma blind_recv (cmd : Z) : blind (_recv cmd).
Proof. intros l s. apply recv_blind. Qed.

Lemma blind_send (cmd : Z) (data : list Z) : blind (_send cmd data).
Proof.
  intros l s. unfold _send, device_flush, device_write, check_bytes.
  run; try reflexivity; congruence.
Qed.

Create HintDb blind.
#[local] Hint Resolve blind_check_bytes blind_getitem blind_recv blind_send : blind.

Section Discovery.
Variable a2p : float -> Z.
Variable p2a : Z -> float.

Lemma blind_getPosition_int (i : Z) (degrees : bool) :
  blind (getPosition p2a (PInt i) degrees).
Proof.
  unfold getPosition, bytearray.
  apply blind_bind; [auto with blind|]. intros data.
  apply blind_bind; [auto with blind|]. intros _.
  apply blind_bind; [auto with blind|]. intros [reply|].
  - apply blind_bind; [auto with blind|]. intros hi.
    apply blind_bind; [auto with blind|]. intros lo.
    intros l s. reflexivity.
  - intros l s. reflexivity.
Qed.

Lemma getPosition_int_effect (i : Z) (degrees : bool) (s : state) :
  _is_serial (snd (getPosition p2a (PInt i) degrees s)) = _is_serial s /\
  writes (log (snd (getPosition p2a (PInt i) degrees s))) =
    writes (log s) ++ probes_written (_is_serial s) [i].
Proof.
  unfold getPosition, bytearray, probes_written. cbn [filter]. munfold.
  destruct (is_byte i) eqn:Hi.
  - rewrite check_bytes_ok by (cbn [forallb]; rewrite Hi; reflexivity). mred.
    rewrite send_ok;
      [| reflexivity | cbn [forallb]; rewrite Hi; reflexivity
       | vm_compute; intros E; discriminate E]. mred.
    match goal with
    | |- context [_recv ?c ?st] =>
        pose proof (recv_quiet c st) as (Q1 & _ & _ & Q4);
        destruct (_recv c st) as [[[reply|]|e] s2]
    end; cbn [snd] in Q1, Q4; mred.
    1: unfold getitem; destruct (nth_error reply (Z.to_nat 3));
         [destruct (nth_error reply (Z.to_nat 2))|]; munfold.
    all: rewrite Q1, Q4; destruct (_is_serial s) eqn:Hs; mred;
      rewrite ?Hs, writes_app; split; reflexivity.
  - rewrite check_bytes_raise by (cbn [forallb]; rewrite Hi; reflexivity). mred.
    cbn [flat_map]. rewrite app_nil_r. split; reflexivity.
Qed.

Lemma listServos_loop_run (ids : list Z) :
  forall (s : state) (acc : list Z),
  exists found s2,
    discovery (probe p2a) ids s found s2 /\
    listServos_loop p2a ids (set_servos acc s) =
      (Ok tt, set_servos (acc ++ found) s2).
Proof.
  induction ids as [|i ids IH]; intros s acc.
  - exists [], s. split; [constructor|]. rewrite app_nil_r. reflexivity.
  - cbn [listServos_loop].
    pose proof (blind_getPosition_int i false acc s) as Hb.
    destruct (getPosition p2a (PInt i) false s) as [[v|e] s1] eqn:Hp;
      cbn [fst snd] in Hb.
    + destruct (IH s1 (acc ++ [i])) as (found & s2 & Hd & Hl).
      exists (i :: found), s2. split; [econstructor; eassumption|].
      erewrite bind_ok; [rewrite Hl, <- app_assoc; reflexivity|].
      unfold try_except. erewrite bind_ok by exact Hb. reflexivity.
    + destruct (IH s1 acc) as (found & s2 & Hd & Hl).
      exists found, s2. split; [eapply discovery_absent; eassumption|].
      erewrite bind_ok; [exact Hl|].
      unfold try_except. erewrite bind_raise by exact Hb. reflexivity.
Qed.

Lemma probes_written_cons (b : bool) (i : Z) (ids : list Z) :
  probes_written b (i :: ids) = probes_written b [i] ++ probes_written b ids.
Proof.
  unfold probes_written. cbn [filter]. destruct (is_byte i); cbn [flat_map].
  - rewrite app_nil_r. reflexivity.
  - reflexivity.
Qed.

Lemma discovery_effect (ids found : list Z) (s s2 : state) :
  discovery (probe p2a) ids s found s2 ->
  _is_serial s2 = _is_serial s /\
  writes (log s2) = writes (log s) ++ probes_written (_is_serial s) ids.
Proof.
  induction 1 as [s | i ids s s1 s2 v found Hp _ [IH1 IH2]
                    | i ids s s1 s2 e found Hp _ [IH1 IH2]].
  - unfold probes_written. cbn [filter flat_map]. rewrite app_nil_r. split; reflexivity.
  - destruct (getPosition_int_effect i false s) as [E1 E2].
    unfold probe in Hp. rewrite Hp in E1, E2. cbn [snd] in E1, E2.
    rewrite IH1, IH2, E1, E2, (probes_written_cons _ i ids), <- app_assoc.
    split; reflexivity.
  - destruct (getPosition_int_effect i false s) as [E1 E2].
    unfold probe in Hp. rewrite Hp in E1, E2. cbn [snd] in E1, E2.
    rewrite IH1, IH2, E1, E2, (probes_written_cons _ i ids), <- app_assoc.
    split; reflexivity.
Qed.

Lemma discovery_keeps_order (ids found : list Z) (s s2 : state) :
  discovery (probe p2a) ids s found s2 ->
  StronglySorted Z.lt ids ->
  StronglySorted Z.lt found /\ (forall x, In x found -> In x ids).
Proof.
  induction 1 as [s | i ids s s1 s2 v found Hp _ IH
                    | i ids s s1 s2 e found Hp _ IH]; intros Hs.
  - split; [constructor | auto].
  - inversion Hs as [|? ? Hs' Hall]; subst.
    destruct (IH Hs') as [IH1 IH2]. split.
    + constructor; [exact IH1|].
      apply Forall_forall. intros x Hx.
      apply (proj1 (Forall_forall _ _) Hall x (IH2 x Hx)).
    + intros x [->|Hx]; [left; reflexivity | right; auto].
  - inversion Hs as [|? ? Hs' Hall]; subst.
    destruct (IH Hs') as [IH1 IH2]. split; [exact IH1|].
    intros x Hx. right. auto.
Qed.

Lemma listServos_run (maximum_servo_id : Z) (s : state) :
  exists found s2,
    discovery (probe p2a) (range 1 (maximum_servo_id + 1)) s found s2 /\
    listServos p2a maximum_servo_id s = (Ok found, set_servos found s2).
Proof.
  destruct (listServos_loop_run (range 1 (maximum_servo_id + 1)) s [])
    as (found & s2 & Hd & Hl).
  exists found, s2. split; [exact Hd|].
  unfold listServos.
  erewrite bind_ok by reflexivity.
  erewrite bind_ok by exact Hl.
  reflexivity.
Qed.
End Discovery.

Lemma in_upto (x start : Z) (count : nat) :
  In x (upto start count) <-> start <= x < start + Z.of_nat count.
Proof.
  revert start. induction count as [|n IH]; intros start; cbn [upto In].
  - lia.
  - rewrite IH. lia.
Qed.

Lemma upto_sorted (start : Z) (count : nat) : StronglySorted Z.lt (upto start count).
Proof.
  revert start. induction count as [|n IH]; intros start; cbn [upto].
  - constructor.
  - constructor; [apply IH|]. apply Forall_forall. intros x Hx.
    apply in_upto in Hx. lia.
Qed.

Lemma in_range (x start stop : Z) : In x (range start stop) <-> start <= x < stop.
Proof. unfold range. rewrite in_upto. lia. Qed.

(** ** Building a payload touches nothing *)

Lemma builds_ret {A} (a : A) (Q : A -> Prop) : Q a -> builds (ret a) Q.
Proof. intros H s. split; [reflexivity|]. intros b E. injection E as <-. exact H. Qed.

Lemma builds_raise {A} (e : exn) (Q : A -> Prop) : builds (raise e) Q.
Proof. intros s. split; [reflexivity|]. intros b E. discriminate E. Qed.

Lemma builds_gets {A} (f : state -> A) (Q : A -> Prop) :
  (forall s, Q (f s)) -> builds (gets f) Q.
Proof. intros H s. split; [reflexivity|]. intros b E. injection E as <-. apply H. Qed.

Lemma builds_bind {A B} (m : M A) (k : A -> M B) (P : A -> Prop) (Q : B -> Prop) :
  builds m P -> (forall a, P a -> builds (k a) Q) -> builds (bind m k) Q.
Proof.
  intros Hm Hk s. unfold bind. destruct (Hm s) as [Hs Hv].
  destruct (m s) as [[a|e] s1]; cbn [fst snd] in *; subst s1.
  - apply Hk. apply Hv. reflexivity.
  - split; [reflexivity|]. intros b E. discriminate E.
Qed.

Lemma builds_weaken {A} (m : M A) (P Q : A -> Prop) :
  builds m P -> (forall a, P a -> Q a) -> builds m Q.
Proof. intros H HPQ s. destruct (H s) as [Hs Hv]. split; auto. Qed.

Lemma builds_check_bytes (l : list Z) : builds (check_bytes l) all_bytes.
Proof.
  intros s. unfold check_bytes. destruct (forallb is_byte l) eqn:E.
  - apply builds_ret. exact E.
  - apply builds_raise.
Qed.

Lemma builds_getitem {A} (data : list A) (i : Z) : builds (getitem data i) anything.
Proof.
  unfold getitem. destruct (nth_error data (Z.to_nat i)).
  - apply builds_ret. exact I.
  - apply builds_raise.
Qed.

Lemma builds_as_byte (v : pyval) : builds (as_byte v) (fun b => is_byte b = true).
Proof.
  unfold as_byte. eapply builds_bind with (P := anything).
  - destruct v; cbn [as_int]; first [apply builds_ret; exact I | apply builds_raise].
  - intros z _. destruct (is_byte z) eqn:E; [apply builds_ret; exact E | apply builds_raise].
Qed.

Lemma builds_as_bytes (items : list pyval) : builds (as_bytes items) all_bytes.
Proof.
  induction items as [|v items IH]; cbn [as_bytes].
  - apply builds_ret. reflexivity.
  - eapply builds_bind; [apply builds_as_byte|]. intros b Hb.
    eapply builds_bind; [exact IH|]. intros bs Hbs. apply builds_ret.
    unfold all_bytes in *. cbn [forallb]. rewrite Hb, Hbs. reflexivity.
Qed.

Lemma all_bytes_app (l1 l2 : list Z) : all_bytes l1 -> all_bytes l2 -> all_bytes (l1 ++ l2).
Proof. unfold all_bytes. intros H1 H2. rewrite forallb_app, H1, H2. reflexivity. Qed.

Lemma builds_extend (data : list Z) (items : list pyval) :
  all_bytes data -> builds (extend data items) all_bytes.
Proof.
  intros Hd. unfold extend.
  eapply builds_bind; [apply builds_as_bytes|]. intros bs Hb.
  apply builds_ret. apply all_bytes_app; assumption.
Qed.

Lemma builds_append (data : list Z) (item : Z) :
  all_bytes data -> builds (append data item) all_bytes.
Proof.
  intros Hd. unfold append.
  eapply builds_bind; [apply builds_check_bytes|]. intros bs Hb.
  apply builds_ret. apply all_bytes_app; assumption.
Qed.

Lemma builds_setitem0 (data : list Z) (v : Z) :
  all_bytes data -> builds (setitem0 data v) all_bytes.
Proof.
  intros Hd. unfold setitem0. destruct (is_byte v) eqn:Hv; [|apply builds_raise].
  destruct data as [|b rest]; [apply builds_raise|].
  apply builds_ret. unfold all_bytes in *. cbn [forallb] in *.
  apply andb_true_iff in Hd. rewrite Hv. tauto.
Qed.

Lemma builds_py_and (v : pyval) (mask : Z) : builds (py_and v mask) anything.
Proof. destruct v; cbn [py_and]; first [apply builds_ret; exact I | apply builds_raise]. Qed.

Lemma builds_py_len (v : pyval) : builds (py_len v) anything.
Proof. destruct v; cbn [py_len]; first [apply builds_ret; exact I | apply builds_raise]. Qed.

Lemma builds_py_index (v : pyval) (i : Z) : builds (py_index v i) anything.
Proof. destruct v; cbn [py_index]; first [apply builds_getitem | apply builds_raise]. Qed.

Lemma builds_check_position (p : Z) : builds (check_position p) anything.
Proof.
  unfold check_position. destruct ((p <? 0) || (p >? 1000));
    [apply builds_raise | apply builds_ret; exact I].
Qed.

Lemma builds_check_angle (f : float) : builds (check_angle f) anything.
Proof.
  unfold check_angle.
  destruct (PrimFloat.ltb f (-125)%float || PrimFloat.ltb 125%float f);
    [apply builds_raise | apply builds_ret; exact I].
Qed.

Create HintDb builds.
#[local] Hint Resolve builds_raise builds_check_bytes builds_getitem builds_as_bytes
  builds_extend builds_append builds_setitem0 builds_py_and builds_py_len
  builds_py_index builds_check_position builds_check_angle : builds.
#[local] Hint Extern 1 (builds (ret _) _) => apply builds_ret : builds.
#[local] Hint Extern 1 (builds (gets _) _) => apply builds_gets; intros : builds.
#[local] Hint Extern 1 (anything _) => exact I : builds.

Section Builders.
Variable a2p : float -> Z.
Variable p2a : Z -> float.

Lemma builds_setPosition_element (servo position : pyval) (data : list Z) :
  all_bytes data ->
  builds (setPosition_element a2p servo position data)
         (fun next => all_bytes (snd next)).
Proof.
  intros Hd. unfold setPosition_element.
  destruct servo.
  4: { eapply builds_bind with (P := anything); [auto with builds|]. intros o _.
       eapply builds_bind with (P := all_bytes); [auto with builds|].
       intros data' Hd'. apply builds_ret. exact Hd'. }
  all: eapply builds_bind with (P := anything); [auto with builds|]; intros n _;
    eapply builds_bind with (P := anything);
    [ destruct (n =? 2); [|apply builds_ret; exact I];
      eapply builds_bind with (P := anything); [auto with builds|];
      intros s0 _; apply builds_ret; exact I |];
    intros [|] _; [|apply builds_raise];
    eapply builds_bind with (P := anything); [auto with builds|]; intros s1 _;
    eapply builds_bind with (P := anything);
    [ destruct s1; try (apply builds_ret; exact I);
      (eapply builds_bind with (P := anything); [auto with builds|];
       intros _ _; apply builds_ret; exact I) |];
    intros position' _;
    eapply builds_bind with (P := anything); [auto with builds|]; intros s0 _;
    eapply builds_bind with (P := anything); [auto with builds|]; intros lo _;
    eapply builds_bind with (P := anything); [auto with builds|]; intros hi _;
    eapply builds_bind with (P := all_bytes); [auto with builds|];
    intros data' Hd'; apply builds_ret; exact Hd'.
Qed.

Lemma builds_setPosition_loop (items : list pyval) :
  forall (position : pyval) (data : list Z),
  all_bytes data -> builds (setPosition_loop a2p items position data) all_bytes.
Proof.
  induction items as [|servo rest IH]; intros position data Hd;
    cbn [setPosition_loop].
  - apply builds_ret. exact Hd.
  - eapply builds_bind; [apply builds_setPosition_element; exact Hd|].
    intros next Hn. apply IH. exact Hn.
Qed.

Lemma builds_getPosition_ids (items : list pyval) :
  forall data, all_bytes data -> builds (getPosition_ids items data) all_bytes.
Proof.
  induction items as [|servo rest IH]; intros data Hd; cbn [getPosition_ids].
  - apply builds_ret. exact Hd.
  - destruct servo; try apply builds_raise.
    eapply builds_bind with (P := anything); [auto with builds|]. intros o _.
    eapply builds_bind with (P := all_bytes); [auto with builds|]. intros data' Hd'.
    apply IH. exact Hd'.
Qed.

Lemma builds_servoOff_loop (items : list pyval) :
  forall data, all_bytes data -> builds (servoOff_loop items data) all_bytes.
Proof.
  induction items as [|servo rest IH]; intros data Hd; cbn [servoOff_loop].
  - apply builds_ret. exact Hd.
  - destruct servo; try (apply IH; exact Hd).
    + eapply builds_bind with (P := all_bytes); [auto with builds|]. intros data' Hd'.
      apply IH. exact Hd'.
    + eapply builds_bind with (P := anything); [auto with builds|]. intros o _.
      eapply builds_bind with (P := all_bytes); [auto with builds|]. intros data' Hd'.
      apply IH. exact Hd'.
Qed.
End Builders.

Lemma send_raise_keeps_writes (cmd : Z) (data : list Z) (s s' : state) (e : exn) :
  all_bytes data ->
  _send cmd data s = (Raise e, s') ->
  writes (log s') = writes (log s).
Proof.
  unfold all_bytes. intros Hd. unfold _send, device_flush, device_write, check_bytes.
  run; intros H; first [discriminate H | injection H as <- <-];
    mred; rewrite ?writes_app; cbn [writes]; rewrite ?app_nil_r;
    first [reflexivity | congruence].
Qed.

Lemma nve_bind {A B} (m : M A) (k : A -> M B) :
  no_value_error m -> (forall a, no_value_error (k a)) -> no_value_error (bind m k).
Proof.
  intros Hm Hk s msg. unfold bind. specialize (Hm s msg).
  destruct (m s) as [[a|e] s1]; cbn [fst] in *; [apply Hk|].
  intros E. apply Hm. injection E as ->. reflexivity.
Qed.

Lemma nve_getitem {A} (data : list A) (i : Z) : no_value_error (getitem data i).
Proof. intros s msg. unfold getitem. run; discriminate. Qed.

Lemma nve_recv (cmd : Z) : no_value_error (_recv cmd).
Proof.
  intros s msg. unfold _recv, serial_read, hid_read, getitem.
  run; discriminate.
Qed.

(** ** Validation and the wire *)

Section Validation.
Variable a2p : float -> Z.
Variable p2a : Z -> float.

Lemma nve_getPosition_update (items : list pyval) (data : list Z) (indices : list Z) :
  no_value_error (getPosition_update items data indices).
Proof.
  induction indices as [|i rest IH]; cbn [getPosition_update].
  - intros s msg. discriminate.
  - apply nve_bind; [apply nve_getitem|]. intros hi.
    apply nve_bind; [apply nve_getitem|]. intros lo.
    apply nve_bind; [apply nve_getitem|]. intros servo.
    apply nve_bind; [|intros _; exact IH].
    destruct servo; intros s msg; discriminate.
Qed.

Lemma setPosition_raise_keeps_writes (servos position : pyval) (duration : Z)
    (wait : bool) (s s' : state) (e : exn) :
  setPosition a2p servos position duration wait s = (Raise e, s') ->
  wait = false \/ (e <> ValueError msg_sleep_negative /\ e <> OverflowError) ->
  writes (log s') = writes (log s).
Proof.
  unfold setPosition. intros H Hw.
  match type of H with
  | bind ?m0 (fun data => bind (@?m1 data) ?k) s = _ =>
      pose proof (bind_assoc m0 m1 k s) as Ha; cbv beta in Ha;
      rewrite <- Ha in H; clear Ha;
      assert (HB : builds (bind m0 m1) all_bytes);
      [| set (B := bind m0 m1) in * ]
  end.
  { unfold bytearray.
    eapply builds_bind; [apply builds_check_bytes|]. intros data Hd.
    destruct servos; try apply builds_raise.
    1, 2: eapply builds_bind with (P := anything);
        [destruct position; auto with builds|]; intros _ _;
        eapply builds_bind with (P := anything);
        [destruct position; auto with builds|]; intros _ _;
        eapply builds_bind with (P := anything);
        [ destruct position; try (apply builds_ret; exact I);
          eapply builds_bind with (P := anything); [auto with builds|];
          intros _ _; apply builds_ret; exact I |];
        intros position' _;
        eapply builds_bind with (P := anything); [auto with builds|]; intros lo _;
        eapply builds_bind with (P := anything); [auto with builds|]; intros hi _;
        auto with builds.
    - eapply builds_bind with (P := anything); [auto with builds|]. intros o _.
      auto with builds.
    - eapply builds_bind with (P := all_bytes); [auto with builds|]. intros data' Hd'.
      apply builds_setPosition_loop. exact Hd'. }
  destruct (HB s) as [Hs Hv].
  destruct (B s) as [[data|e0] s0] eqn:HBs; cbn [fst snd] in Hs, Hv; subst s0.
  - specialize (Hv data eq_refl).
    erewrite bind_ok in H by exact HBs.
    destruct (_send CMD_SERVO_MOVE data s) as [[[]|e1] s1] eqn:Hsend.
    + erewrite bind_ok in H by exact Hsend.
      destruct wait; [|discriminate H].
      destruct Hw as [Hw|[He Ho]]; [discriminate Hw|].
      unfold time_sleep in H.
      destruct (sleep_overflows (QArith_base.Qmake duration 1000));
        [injection H as <- _; contradiction Ho; reflexivity|].
      destruct (QArith_base.Qnum (QArith_base.Qmake duration 1000) <? 0);
        [|discriminate H].
      injection H as <- _. contradiction He. reflexivity.
    + erewrite bind_raise in H by exact Hsend. injection H as <- <-.
      eapply send_raise_keeps_writes; eassumption.
  - erewrite bind_raise in H by exact HBs. injection H as <- <-. reflexivity.
Qed.

Lemma getPosition_value_error_keeps_writes (servos : pyval) (degrees : bool)
    (s s' : state) (msg : string) :
  getPosition p2a servos degrees s = (Raise (ValueError msg), s') ->
  writes (log s') = writes (log s).
Proof.
  unfold getPosition. intros H.
  match type of H with
  | bind ?m0 ?k s = _ =>
      assert (HB : builds m0 all_bytes); [| set (B := m0) in * ]
  end.
  { unfold bytearray. destruct servos; try apply builds_raise; auto with builds.
    - eapply builds_bind with (P := anything); [auto with builds|]. intros o _.
      auto with builds.
    - destruct (forallb isinstance_Servo items); [|apply builds_raise].
      eapply builds_bind with (P := all_bytes); [auto with builds|]. intros data Hd.
      apply builds_getPosition_ids. exact Hd. }
  destruct (HB s) as [Hs Hv].
  destruct (B s) as [[data|e0] s0] eqn:HBs; cbn [fst snd] in Hs, Hv; subst s0.
  - specialize (Hv data eq_refl).
    erewrite bind_ok in H by exact HBs.
    destruct (_send CMD_GET_SERVO_POSITION data s) as [[[]|e1] s1] eqn:Hsend.
    + erewrite bind_ok in H by exact Hsend. exfalso.
      match type of H with
      | ?m s1 = _ => assert (Hn : no_value_error m)
      end.
      { apply nve_bind; [apply nve_recv|]. intros [reply|].
        - destruct servos;
            try (apply nve_bind; [apply nve_getitem|]; intros hi;
                 apply nve_bind; [apply nve_getitem|]; intros lo;
                 intros st m; discriminate).
          apply nve_bind; [apply nve_getitem|]. intros count.
          apply nve_bind; [apply nve_getPosition_update|]. intros _.
          intros st m. discriminate.
        - intros st m. discriminate. }
      apply (Hn s1 msg). rewrite H. reflexivity.
    + erewrite bind_raise in H by exact Hsend. injection H as _ <-.
      eapply send_raise_keeps_writes; eassumption.
  - erewrite bind_raise in H by exact HBs. injection H as _ <-. reflexivity.
Qed.

Lemma servoOff_raise_keeps_writes (servos : pyval) (s s' : state) (e : exn) :
  servoOff servos s = (Raise e, s') ->
  writes (log s') = writes (log s).
Proof.
  unfold servoOff. intros H.
  match type of H with
  | bind ?m0 (fun data => bind (@?m1 data) ?k) s = _ =>
      pose proof (bind_assoc m0 m1 k s) as Ha; cbv beta in Ha;
      rewrite <- Ha in H; clear Ha;
      assert (HB : builds (bind m0 m1) all_bytes);
      [| set (B := bind m0 m1) in * ]
  end.
  { unfold bytearray.
    eapply builds_bind; [apply builds_check_bytes|]. intros data Hd.
    destruct servos; try apply builds_raise; auto with builds.
    - apply builds_ret. reflexivity.
    - eapply builds_bind with (P := anything); [auto with builds|]. intros o _.
      auto with builds.
    - eapply builds_bind with (P := all_bytes); [auto with builds|]. intros data' Hd'.
      apply builds_servoOff_loop. exact Hd'. }
  destruct (HB s) as [Hs Hv].
  destruct (B s) as [[data|e0] s0] eqn:HBs; cbn [fst snd] in Hs, Hv; subst s0.
  - specialize (Hv data eq_refl).
    erewrite bind_ok in H by exact HBs.
    eapply send_raise_keeps_writes; eassumption.
  - erewrite bind_raise in H by exact HBs. injection H as <- <-. reflexivity.
Qed.
End Validation.

(** ** The identity write *)

Section IdentityWrite.
Variable a2p : float -> Z.
Variable p2a : Z -> float.

Lemma writeServoId_overwrite (new_servo_id : Z) (s : state) :
  writeServoId p2a new_servo_id true s =
    if len (servos s) =? 0 then (Raise (ValueError msg_no_servos), s)
    else if new_servo_id =? 0 then (Raise (ValueError msg_zero_id), s)
    else send_id new_servo_id s.
Proof.
  unfold writeServoId, send_id. cbn [negb]. munfold. rewrite andb_false_r.
  destruct (len (servos s) =? 0); [reflexivity|].
  destruct (new_servo_id =? 0); reflexivity.
Qed.

Lemma writeServoId_guarded (new_servo_id : Z) (s st : state) (found : list Z) :
  listServos p2a 6 s = (Ok found, st) ->
  writeServoId p2a new_servo_id false s =
    if len (servos st) =? 0 then (Raise (ValueError msg_no_servos), st)
    else if len (servos st) >? 1 then (Raise (ValueError msg_more_than_one), st)
    else if new_servo_id =? 0 then (Raise (ValueError msg_zero_id), st)
    else send_id new_servo_id st.
Proof.
  intros Hl. unfold writeServoId, send_id. cbn [negb].
  erewrite bind_ok; [| erewrite bind_ok by exact Hl; reflexivity].
  munfold. rewrite andb_true_r.
  destruct (len (servos st) =? 0); [reflexivity|].
  destruct (len (servos st) >? 1); [reflexivity|].
  destruct (new_servo_id =? 0); reflexivity.
Qed.

Lemma send_id_ok (new_servo_id : Z) (s : state) :
  is_byte new_servo_id = true ->
  send_id new_servo_id s =
    (Ok tt, set_log (log s ++ id_write_events (_is_serial s) new_servo_id)
              (if _is_serial s then s else set_usb_recv_event false s)).
Proof.
  intros Hb. unfold send_id, bytearray.
  erewrite bind_ok
    by (apply check_bytes_ok; cbn [forallb]; rewrite Hb; reflexivity).
  rewrite send_ok;
    [| reflexivity | cbn [forallb]; rewrite Hb; reflexivity
     | vm_compute; intros E; discriminate E].
  unfold sent_events, id_write_events. destruct (_is_serial s); reflexivity.
Qed.

Lemma send_id_raise_keeps_writes (new_servo_id : Z) (s s' : state) (e : exn) :
  send_id new_servo_id s = (Raise e, s') -> writes (log s') = writes (log s).
Proof.
  unfold send_id, bytearray. intros H.
  destruct (builds_check_bytes [new_servo_id] s) as [Hs Hv].
  destruct (check_bytes [new_servo_id] s) as [[data|e0] s0] eqn:Hc;
    cbn [fst snd] in Hs, Hv; subst s0.
  - erewrite bind_ok in H by exact Hc.
    eapply send_raise_keeps_writes; [apply Hv; reflexivity | exact H].
  - erewrite bind_raise in H by exact Hc. injection H as <- <-. reflexivity.
Qed.

Lemma discovery_six (s : state) :
  exists found s2,
    discovery (probe p2a) (range 1 7) s found s2 /\
    listServos p2a 6 s = (Ok found, set_servos found s2) /\
    writes (log s2) = writes (log s) ++ guard_writes false (_is_serial s).
Proof.
  destruct (listServos_run p2a 6 s) as (found & s2 & Hd & Hl).
  exists found, s2. split; [exact Hd|]. split; [exact Hl|].
  apply (discovery_effect p2a _ _ _ _ Hd).
Qed.

Lemma writeServoId_raise_writes (new_servo_id : Z) (overwrite_all_servo_ids : bool)
    (s s' : state) (e : exn) :
  writeServoId p2a new_servo_id overwrite_all_servo_ids s = (Raise e, s') ->
  writes (log s') =
    writes (log s) ++ guard_writes overwrite_all_servo_ids (_is_serial s).
Proof.
  destruct overwrite_all_servo_ids; cbn [guard_writes].
  - rewrite writeServoId_overwrite, app_nil_r.
    destruct (len (servos s) =? 0); [intros H; injection H as _ <-; reflexivity|].
    destruct (new_servo_id =? 0); [intros H; injection H as _ <-; reflexivity|].
    apply send_id_raise_keeps_writes.
  - destruct (discovery_six s) as (found & s2 & _ & Hl & Hw).
    rewrite (writeServoId_guarded _ _ _ _ Hl). cbn [servos set_servos].
    assert (Hst : writes (log (set_servos found s2)) =
                  writes (log s) ++ guard_writes false (_is_serial s)) by exact Hw.
    destruct (len found =? 0); [intros H; injection H as _ <-; exact Hst|].
    destruct (len found >? 1); [intros H; injection H as _ <-; exact Hst|].
    destruct (new_servo_id =? 0); [intros H; injection H as _ <-; exact Hst|].
    intros H. rewrite (send_id_raise_keeps_writes _ _ _ _ H). exact Hst.
Qed.
End IdentityWrite.

(** ** A list query *)

Lemma upto_snoc (start : Z) (count : nat) :
  upto start (S count) = upto start count ++ [start + Z.of_nat count].
Proof.
  revert start. induction count as [|n IH]; intros start.
  - cbn [upto app]. rewrite Z.add_0_r. reflexivity.
  - change (upto start (S (S n))) with (start :: upto (start + 1) (S n)).
    rewrite IH. change (upto start (S n)) with (start :: upto (start + 1) n).
    cbn [app]. do 3 f_equal. lia.
Qed.

Lemma assign_all (refs : list loc) (reply : list Z) (h : loc -> Servo.t) (n : nat) :
  NoDup refs ->
  (n <= List.length refs)%nat ->
  forall (i : nat) (r : loc),
    nth_error refs i = Some r ->
    fold_left (assign refs reply) (upto 0 n) h r =
      if (i <? n)%nat
      then Servo.set_position (reply_position reply (Z.of_nat i)) (h r)
      else h r.
Proof.
  intros Hnd. induction n as [|n IH]; intros Hn i r Hi.
  - reflexivity.
  - rewrite upto_snoc, fold_left_app. cbn [fold_left]. rewrite Z.add_0_l.
    unfold assign at 1. rewrite Nat2Z.id.
    destruct (nth_error refs n) as [rn|] eqn:Hrn;
      [| apply nth_error_None in Hrn; lia].
    rewrite (nth_error_nth _ _ _ Hrn). unfold upd.
    destruct (Nat.eqb r rn) eqn:E.
    + apply Nat.eqb_eq in E. subst rn.
      assert (i = n).
      { apply (proj1 (NoDup_nth_error refs) Hnd);
          [apply nth_error_Some; congruence | congruence]. }
      subst i. rewrite (IH ltac:(lia) n r Hi).
      rewrite Nat.ltb_irrefl.
      replace (n <? S n)%nat with true by (symmetry; apply Nat.ltb_lt; lia).
      reflexivity.
    + rewrite (IH ltac:(lia) i r Hi).
      assert (i <> n) by (intros ->; rewrite Hi in Hrn; injection Hrn as ->;
                          rewrite Nat.eqb_refl in E; discriminate).
      destruct (i <? n)%nat eqn:E1; destruct (i <? S n)%nat eqn:E2;
        try reflexivity;
        rewrite ?Nat.ltb_lt, ?Nat.ltb_ge in *; lia.
Qed.

Lemma getitem_ok {A} (data : list A) (i : Z) (d : A) (s : state) :
  0 <= i < len data -> getitem data i s = (Ok (nth (Z.to_nat i) data d), s).
Proof.
  intros Hi. unfold getitem, len in *.
  destruct (nth_error data (Z.to_nat i)) as [a|] eqn:E.
  - rewrite (nth_error_nth _ _ d E). reflexivity.
  - apply nth_error_None in E. lia.
Qed.

Lemma update_run (refs : list loc) (reply : list Z) (indices : list Z) :
  Forall (fun i => 0 <= i < len refs /\ i * 3 + 3 < len reply) indices ->
  forall s,
    getPosition_update (map PServo refs) reply indices s =
      (Ok tt, set_heap (fold_left (assign refs reply) indices (heap s)) s).
Proof.
  induction 1 as [|i rest [Hi Hr] _ IH]; intros s; cbn [getPosition_update fold_left].
  - destruct s; reflexivity.
  - erewrite bind_ok by (apply getitem_ok with (d := 0); lia).
    erewrite bind_ok by (apply getitem_ok with (d := 0); lia).
    erewrite bind_ok
      by (apply getitem_ok with (d := PNone); unfold len in *; rewrite length_map; lia).
    change PNone with ((fun r : loc => PNone) 0%nat) at 1.
    assert (Hn : nth (Z.to_nat i) (map PServo refs) PNone =
                 PServo (nth (Z.to_nat i) refs 0%nat)).
    { rewrite (nth_indep _ PNone (PServo 0%nat))
        by (rewrite length_map; unfold len in Hi; lia).
      apply map_nth. }
    cbv beta. rewrite Hn.
    erewrite bind_ok by reflexivity.
    rewrite IH. reflexivity.
Qed.

Lemma all_servos (refs : list loc) : forallb isinstance_Servo (map PServo refs) = true.
Proof. induction refs as [|r refs IH]; [reflexivity | exact IH]. Qed.

Section ListQuery.
Variable a2p : float -> Z.
Variable p2a : Z -> float.

Lemma getPosition_ids_run (refs : list loc) (s : state) :
  Forall (fun r => is_byte (Servo.servo_id (heap s r)) = true) refs ->
  forall data,
    getPosition_ids (map PServo refs) data s =
      (Ok (data ++ map (fun r => Servo.servo_id (heap s r)) refs), s).
Proof.
  induction 1 as [|r refs Hr _ IH]; intros data; cbn [map getPosition_ids].
  - rewrite app_nil_r. reflexivity.
  - erewrite bind_ok by reflexivity.
    unfold append.
    erewrite bind_ok;
      [| erewrite bind_ok
           by (apply check_bytes_ok; cbn [forallb]; rewrite Hr; reflexivity);
         reflexivity].
    rewrite IH, <- app_assoc. reflexivity.
Qed.

Lemma forall_bytes_map (refs : list loc) (s : state) :
  Forall (fun r => is_byte (Servo.servo_id (heap s r)) = true) refs ->
  forallb is_byte (map (fun r => Servo.servo_id (heap s r)) refs) = true.
Proof.
  induction 1 as [|r refs Hr _ IH]; [reflexivity|].
  cbn [map forallb]. rewrite Hr, IH. reflexivity.
Qed.

Lemma getPosition_list_run (refs : list loc) (reply : list Z) (declared : Z)
    (rest : list (list Z)) (degrees : bool) (s : state) :
  Forall (fun r => is_byte (Servo.servo_id (heap s r)) = true) refs ->
  len refs <= 252 ->
  rx s = ([SIGNATURE; SIGNATURE; declared; CMD_GET_SERVO_POSITION] ++ reply) :: rest ->
  len reply <= declared ->
  (_is_serial s = false -> len reply <= 60) ->
  0 <= nth 0 reply 0 <= len refs ->
  nth 0 reply 0 * 3 + 1 <= len reply ->
  exists s2,
    heap s2 = heap s /\
    getPosition p2a (PList (map PServo refs)) degrees s =
      (Ok PNone,
       set_heap (fold_left (assign refs reply)
                   (range 0 (nth 0 reply 0)) (heap s2)) s2).
Proof.
  intros Hids Hn Hrx Hdecl Hhid Hcount Hlen.
  pose proof (len_nonneg refs) as Hn0.
  unfold getPosition. rewrite all_servos. unfold bytearray.
  replace (len (map PServo refs)) with (len refs)
    by (unfold len; rewrite length_map; reflexivity).
  assert (Hb : is_byte (len refs) = true) by (apply is_byte_iff; lia).
  erewrite bind_ok;
    [| erewrite bind_ok
         by (apply check_bytes_ok; cbn [forallb]; rewrite Hb; reflexivity);
       apply getPosition_ids_run; exact Hids].
  rewrite bind_ok with (a := tt)
    (s1 := set_log (log s ++ sent_events (_is_serial s) CMD_GET_SERVO_POSITION
                      ([len refs] ++ map (fun r => Servo.servo_id (heap s r)) refs))
             (if _is_serial s then s else set_usb_recv_event false s)).
  2: { apply send_ok; [reflexivity | |].
       - rewrite forallb_app, forall_bytes_map by exact Hids.
         cbn [forallb]. rewrite Hb. reflexivity.
       - unfold len in *. rewrite length_app, length_map.
         cbn [List.length]. lia. }
  match goal with |- context [bind (_recv _) _ ?st] => set (s1 := st) end.
  assert (Hrx1 : rx s1 = rx s) by (subst s1; destruct (_is_serial s); reflexivity).
  assert (Hh1 : heap s1 = heap s) by (subst s1; destruct (_is_serial s); reflexivity).
  assert (Hs1 : _is_serial s1 = _is_serial s)
    by (subst s1; destruct (_is_serial s) eqn:E; mred; rewrite ?E; reflexivity).
  rewrite Hrx in Hrx1.
  assert (Hraw : 4 <= len ([SIGNATURE; SIGNATURE; declared; CMD_GET_SERVO_POSITION] ++ reply)).
  { rewrite len_app. pose proof (len_nonneg reply). unfold len at 1.
    cbn [List.length]. lia. }
  pose proof (recv_result CMD_GET_SERVO_POSITION _ rest s1 Hrx1 Hraw) as Hr.
  pose proof (recv_quiet CMD_GET_SERVO_POSITION s1) as (_ & _ & Hq & _).
  assert (Hv : visible s1 ([SIGNATURE; SIGNATURE; declared; CMD_GET_SERVO_POSITION] ++ reply)
               = [SIGNATURE; SIGNATURE; declared; CMD_GET_SERVO_POSITION] ++ reply).
  { unfold visible. rewrite Hs1. destruct (_is_serial s); [reflexivity|].
    apply firstn_all2. specialize (Hhid eq_refl). rewrite length_app.
    cbn [List.length]. unfold len in Hhid. lia. }
  rewrite Hv in Hr. unfold header_ok in Hr. cbn [app nth skipn] in Hr.
  rewrite !Z.eqb_refl in Hr. cbn [andb] in Hr.
  rewrite firstn_all2 in Hr by (unfold len in Hdecl; lia).
  destruct (_recv CMD_GET_SERVO_POSITION s1) as [r s2] eqn:Hrecv.
  cbn [fst snd] in Hr, Hq.
  subst r. exists s2. split; [congruence|].
  erewrite bind_ok by exact Hrecv. cbv beta iota.
  erewrite bind_ok by (apply getitem_ok with (d := 0); lia).
  change (Z.to_nat 0) with 0%nat.
  erewrite bind_ok.
  2: { apply update_run. apply Forall_forall. intros i Hi.
       apply in_range in Hi. lia. }
  reflexivity.
Qed.
End ListQuery.

(** ** The battery poll, and bytes that follow a frame *)

Lemma battery_attempt_hid_silent (s : state) :
  _is_serial s = false -> rx s = [] ->
  forall n,
    getBatteryVoltage_loop (S n) s =
    getBatteryVoltage_loop n
      (set_log (log s ++ battery_attempt)
         (set_input_report [] (set_usb_recv_event false s))).
Proof.
  intros Hs Hrx n. cbn [getBatteryVoltage_loop].
  erewrite bind_ok
    by (apply send_ok; [reflexivity | reflexivity | vm_compute; intros E; discriminate E]).
  rewrite Hs. unfold _recv, hid_read. munfold. rewrite Hs. munfold.
  rewrite Hrx. munfold. change (len (@nil Z) <? 4) with true. munfold.
  unfold time_sleep. change (sleep_overflows (QArith_base.Qmake 1 1)) with false.
  cbn [QArith_base.Qnum Z.ltb Z.compare]. munfold.
  unfold sent_events, battery_attempt. rewrite <- !app_assoc. reflexivity.
Qed.

(** X1.  On the HID device, when no report comes, [getBatteryVoltage] makes
    exactly five attempts, each a write of the query, a read of one report
    and a sleep of one second, and returns 0.0. *)
Lemma getBatteryVoltage_hid_silent (s : state) :
  _is_serial s = false -> rx s = [] ->
  fst (getBatteryVoltage s) = Ok 0%float /\
  log (snd (getBatteryVoltage s)) =
    log s ++ concat (repeat battery_attempt 5).
Proof.
  intros Hs Hrx. unfold getBatteryVoltage.
  do 5 (rewrite battery_attempt_hid_silent by (mred; assumption)).
  cbn [getBatteryVoltage_loop]. unfold ret. mred.
  cbn [repeat concat]. rewrite <- !app_assoc, app_nil_r. split; reflexivity.
Qed.

(** X2.  On either transport, when the first reply is a frame for the battery
    query with the two payload bytes [lo], [hi], [getBatteryVoltage] returns
    [(hi * 256 + lo) / 1000.0] at the first attempt. *)
Lemma getBatteryVoltage_reply (lo hi : Z) (rest : list (list Z)) (s : state) :
  rx s = [SIGNATURE; SIGNATURE; 4; CMD_GET_BATTERY_VOLTAGE; lo; hi] :: rest ->
  fst (getBatteryVoltage s) =
    Ok (PrimFloat.div (float_of_int (hi * 256 + lo)) 1000%float).
Proof.
  intros Hrx. unfold getBatteryVoltage. cbn [getBatteryVoltage_loop].
  erewrite bind_ok
    by (apply send_ok; [reflexivity | reflexivity | vm_compute; intros E; discriminate E]).
  match goal with |- context [bind (_recv _) _ ?st] => set (s1 := st) end.
  assert (Hrx1 : rx s1 = rx s) by (subst s1; destruct (_is_serial s); reflexivity).
  rewrite Hrx in Hrx1.
  pose proof (recv_result CMD_GET_BATTERY_VOLTAGE _ rest s1 Hrx1
                ltac:(vm_compute; intros E; discriminate E)) as Hr.
  assert (Hv : visible s1 [SIGNATURE; SIGNATURE; 4; CMD_GET_BATTERY_VOLTAGE; lo; hi] =
               [SIGNATURE; SIGNATURE; 4; CMD_GET_BATTERY_VOLTAGE; lo; hi])
    by (unfold visible; destruct (_is_serial s1); reflexivity).
  rewrite Hv in Hr. unfold header_ok in Hr. cbn [nth skipn] in Hr.
  rewrite !Z.eqb_refl in Hr. cbn [andb] in Hr.
  change (firstn (Z.to_nat 4) [lo; hi]) with [lo; hi] in Hr.
  destruct (_recv CMD_GET_BATTERY_VOLTAGE s1) as [r s2] eqn:Hrecv.
  cbn [fst] in Hr. subst r.
  erewrite bind_ok by exact Hrecv. reflexivity.
Qed.

(** X1 on a HID controller whose device is silent. *)
Lemma getBatteryVoltage_hid_silent_witness :
  _is_serial (usb0 []) = false /\ rx (usb0 []) = [] /\
  fst (getBatteryVoltage (usb0 [])) = Ok 0%float /\
  log (snd (getBatteryVoltage (usb0 []))) = concat (repeat battery_attempt 5).
Proof.
  exact (conj eq_refl (conj eq_refl
           (getBatteryVoltage_hid_silent (usb0 []) eq_refl eq_refl))).
Defined.

(** X2 at 7400 millivolts. *)
Lemma getBatteryVoltage_reply_witness :
  rx (serial0 [[0x55; 0x55; 4; 0x0f; 0xe8; 0x1c]]) =
    [SIGNATURE; SIGNATURE; 4; CMD_GET_BATTERY_VOLTAGE; 0xe8; 0x1c] :: [] /\
  fst (getBatteryVoltage (serial0 [[0x55; 0x55; 4; 0x0f; 0xe8; 0x1c]])) =
    Ok (PrimFloat.div (float_of_int 7400) 1000%float).
Proof.
  exact (conj eq_refl
           (getBatteryVoltage_reply 0xe8 0x1c []
              (serial0 [[0x55; 0x55; 4; 0x0f; 0xe8; 0x1c]]) eq_refl)).
Defined.

(** On the serial port a silent device ends the poll at once: the first read
    returns no byte and indexing it raises. *)
Lemma getBatteryVoltage_serial_silent (s : state) :
  _is_serial s = true -> rx s = [] ->
  fst (getBatteryVoltage s) = Raise IndexError /\
  log (snd (getBatteryVoltage s)) =
    log s ++ [Flush; Write [SIGNATURE; SIGNATURE; 2; CMD_GET_BATTERY_VOLTAGE]; Read 4].
Proof.
  intros Hs Hrx. unfold getBatteryVoltage. cbn [getBatteryVoltage_loop].
  erewrite bind_ok
    by (apply send_ok; [reflexivity | reflexivity | vm_compute; intros E; discriminate E]).
  rewrite Hs. unfold _recv, serial_read. munfold. rewrite Hs. munfold.
  rewrite Hrx. munfold. unfold getitem. cbn [nth_error Z.to_nat]. munfold.
  unfold sent_events. rewrite <- !app_assoc. split; reflexivity.
Qed.

(** X3.  [_recv] takes as many bytes after the header as the length byte
    says, which is two more than the payload: when bytes follow the frame in
    the same run (the padding of a HID report, say) the first two of them come
    back after the payload. *)
Lemma recv_takes_trailing_bytes (cmd : Z) (payload more : list Z)
    (rest : list (list Z)) (s : state) :
  rx s = (encode cmd payload ++ more) :: rest ->
  (_is_serial s = false -> len payload + len more <= 60) ->
  fst (_recv cmd s) = Ok (Some (payload ++ firstn 2 more)).
Proof.
  intros Hrx Hn.
  assert (Hlen : 4 <= len (encode cmd payload ++ more)).
  { unfold encode. rewrite !len_app. pose proof (len_nonneg payload).
    pose proof (len_nonneg more). unfold len at 1. cbn [List.length]. lia. }
  rewrite (recv_result cmd _ rest s Hrx Hlen).
  assert (Hv : visible s (encode cmd payload ++ more) = encode cmd payload ++ more).
  { unfold visible. destruct (_is_serial s); [reflexivity|].
    apply firstn_all2. specialize (Hn eq_refl). unfold encode.
    rewrite !length_app. cbn [List.length]. unfold len in Hn. lia. }
  rewrite Hv. unfold header_ok, encode. cbn [app nth skipn].
  rewrite !Z.eqb_refl. cbn [andb].
  rewrite firstn_app, firstn_all2 by (unfold len; lia).
  replace (Z.to_nat (len payload + 2) - List.length payload)%nat with 2%nat
    by (unfold len; lia).
  reflexivity.
Qed.

(** X3 at a battery reply in a zero-padded report of 64 bytes. *)
Lemma recv_takes_trailing_bytes_witness :
  rx (usb0 [encode CMD_GET_BATTERY_VOLTAGE [0xe8; 0x1c] ++ repeat 0 58]) =
    (encode CMD_GET_BATTERY_VOLTAGE [0xe8; 0x1c] ++ repeat 0 58) :: [] /\
  fst (_recv CMD_GET_BATTERY_VOLTAGE
         (usb0 [encode CMD_GET_BATTERY_VOLTAGE [0xe8; 0x1c] ++ repeat 0 58])) =
    Ok (Some [0xe8; 0x1c; 0; 0]).
Proof.
  exact (conj eq_refl
           (recv_takes_trailing_bytes CMD_GET_BATTERY_VOLTAGE [0xe8; 0x1c]
              (repeat 0 58) []
              (usb0 [encode CMD_GET_BATTERY_VOLTAGE [0xe8; 0x1c] ++ repeat 0 58])
              eq_refl
              (fun _ => ltac:(vm_compute; intros E; discriminate E)))).
Defined.

(** ** Refused arguments *)

Lemma SFcompare_antisym (x y : SpecFloat.spec_float) (c : comparison) :
  SpecFloat.SFcompare x y = Some c -> SpecFloat.SFcompare y x = Some (CompOpp c).
Proof.
  destruct x as [sx|sx| |sx mx ex], y as [sy|sy| |sy my ey]; cbn [SpecFloat.SFcompare];
    try discriminate;
    try (intros E; injection E as <-;
         repeat match goal with b : bool |- _ => destruct b end; reflexivity).
  intros E; injection E as <-.
  assert (H : Pos.compare_cont Eq my mx = CompOpp (Pos.compare_cont Eq mx my))
    by (rewrite Pos.compare_cont_antisym; reflexivity).
  destruct sx, sy; try reflexivity;
    rewrite (Z.compare_antisym ex ey); destruct (ex ?= ey); cbn [CompOpp];
    rewrite ?H, ?CompOpp_involutive; reflexivity.
Qed.

Lemma leb_not_ltb (x y : float) : PrimFloat.leb x y = true -> PrimFloat.ltb y x = false.
Proof.
  rewrite FloatAxioms.leb_spec, FloatAxioms.ltb_spec.
  unfold SpecFloat.SFleb, SpecFloat.SFltb.
  destruct (SpecFloat.SFcompare (Prim2SF x) (Prim2SF y)) as [c|] eqn:E; [|discriminate].
  rewrite (SFcompare_antisym _ _ _ E). destruct c; try discriminate; reflexivity.
Qed.

Lemma upto_seq (start count : nat) :
  upto (Z.of_nat start) count = map Z.of_nat (seq start count).
Proof.
  revert start. induction count as [|n IH]; intros start; cbn [upto seq map].
  - reflexivity.
  - f_equal. rewrite <- IH. f_equal. lia.
Qed.

Lemma range_ids (maximum_servo_id : Z) :
  range 1 (maximum_servo_id + 1) = map Z.of_nat (seq 1 (Z.to_nat maximum_servo_id)).
Proof.
  unfold range. rewrite <- upto_seq.
  replace (maximum_servo_id + 1 - 1) with maximum_servo_id by lia. reflexivity.
Qed.

Lemma gtb_ltb_1000 (p : Z) : (p >? 1000) = (1000 <? p).
Proof. apply Z.gtb_ltb. Qed.

Section Refusals.
Variable a2p : float -> Z.
Variable p2a : Z -> float.

Lemma move_header_ok (duration : Z) (s : state) :
  bytearray [1; Z.land duration 0xff; Z.shiftr (Z.land duration 0xff00) 8] s =
    (Ok [1; Z.land duration 0xff; Z.shiftr (Z.land duration 0xff00) 8], s).
Proof.
  unfold bytearray. apply check_bytes_ok. cbn [forallb].
  rewrite low_byte, high_byte. reflexivity.
Qed.

Lemma setPosition_refuses_position (servos position : pyval) (duration : Z)
    (wait : bool) (s : state) (msg : string) :
  is_number servos = true ->
  position_error position = Some msg ->
  setPosition a2p servos position duration wait s = (Raise (ValueError msg), s).
Proof.
  intros Hn Hp. unfold setPosition.
  erewrite bind_ok by apply move_header_ok.
  apply bind_raise.
  destruct servos; try discriminate Hn;
    destruct position as [|p|angle|r|l|l]; try discriminate Hp;
    cbn [position_error] in Hp.
  1, 4: injection Hp as <-; reflexivity.
  1, 3: unfold check_position; rewrite gtb_ltb_1000;
        destruct ((p <? 0) || (1000 <? p)); [|discriminate Hp];
        injection Hp as <-; reflexivity.
  1, 2: unfold check_angle;
        destruct (PrimFloat.ltb angle (-125)%float || PrimFloat.ltb 125%float angle);
        [|discriminate Hp]; injection Hp as <-; reflexivity.
Qed.

Lemma len_three {A} (a b c : A) (l : list A) : (len (a :: b :: c :: l) =? 2) = false.
Proof. apply Z.eqb_neq. rewrite !len_cons. pose proof (len_nonneg l). lia. Qed.

Lemma element_refused (v position : pyval) (data : list Z) (s : state) (msg : string) :
  element_error v = Some msg ->
  setPosition_element a2p v position data s = (Raise (ValueError msg), s).
Proof.
  intros He. unfold setPosition_element.
  assert (Hseq : forall l,
    match l with
    | [PInt _; PInt p] => position_error (PInt p)
    | [PInt _; PFloat angle] => position_error (PFloat angle)
    | [PInt _; _] => None
    | _ => Some msg_list_not_valid
    end = Some msg ->
    (is_pair <- (if len l =? 2
                 then s0 <- getitem l 0 ;; ret (isinstance_int s0)
                 else ret false) ;;
     if is_pair then
       s1 <- getitem l 1 ;;
       position' <- match s1 with
                    | PInt p => check_position p ;;; ret (PInt p)
                    | PFloat f => check_angle f ;;; ret (PInt (a2p f))
                    | _ => ret position
                    end ;;
       s0 <- getitem l 0 ;;
       lo <- py_and position' 0xff ;;
       hi <- py_and position' 0xff00 ;;
       data' <- extend data [s0; PInt lo; PInt (Z.shiftr hi 8)] ;;
       ret (position', data')
     else raise (ValueError msg_list_not_valid)) s = (Raise (ValueError msg), s)).
  { intros l Hl.
    destruct l as [|a [|b [|c l']]].
    - injection Hl as <-. reflexivity.
    - assert (E : msg = msg_list_not_valid)
        by (destruct a; injection Hl as <-; reflexivity).
      rewrite E. reflexivity.
    - change (len [a; b] =? 2) with true. unfold getitem.
      change (Z.to_nat 0) with 0%nat. change (Z.to_nat 1) with 1%nat.
      cbn [nth_error]. munfold.
      destruct a; try (injection Hl as <-; reflexivity).
      cbn [isinstance_int]. munfold.
      destruct b as [|p|f|r|l|l]; try discriminate Hl; cbn [position_error] in Hl.
      + unfold check_position. rewrite gtb_ltb_1000.
        destruct ((p <? 0) || (1000 <? p)); [|discriminate Hl].
        injection Hl as <-. reflexivity.
      + unfold check_angle.
        destruct (PrimFloat.ltb f (-125)%float || PrimFloat.ltb 125%float f);
          [|discriminate Hl].
        injection Hl as <-. reflexivity.
    - assert (E : msg = msg_list_not_valid)
        by (destruct a; try destruct b; injection Hl as <-; reflexivity).
      rewrite E, len_three. reflexivity. }
  destruct v; try discriminate He; cbn [py_len py_index element_error] in *;
    (erewrite bind_ok by reflexivity); apply Hseq; exact He.
Qed.

Lemma element_taken (v position : pyval) (data : list Z) (s : state) :
  element_accepted (heap s) v = true ->
  exists next, setPosition_element a2p v position data s = (Ok next, s).
Proof.
  intros Ha. unfold setPosition_element.
  assert (Hseq : forall l,
    match l with
    | [PInt i; PInt p] => is_byte i && negb ((p <? 0) || (1000 <? p))
    | [PInt i; PFloat angle] =>
        is_byte i &&
        (PrimFloat.leb (-125)%float angle && PrimFloat.leb angle 125%float)
    | _ => false
    end = true ->
    exists next,
    (is_pair <- (if len l =? 2
                 then s0 <- getitem l 0 ;; ret (isinstance_int s0)
                 else ret false) ;;
     if is_pair then
       s1 <- getitem l 1 ;;
       position' <- match s1 with
                    | PInt p => check_position p ;;; ret (PInt p)
                    | PFloat f => check_angle f ;;; ret (PInt (a2p f))
                    | _ => ret position
                    end ;;
       s0 <- getitem l 0 ;;
       lo <- py_and position' 0xff ;;
       hi <- py_and position' 0xff00 ;;
       data' <- extend data [s0; PInt lo; PInt (Z.shiftr hi 8)] ;;
       ret (position', data')
     else raise (ValueError msg_list_not_valid)) s = (Ok next, s)).
  { intros l Hl.
    destruct l as [|a [|b [|c l']]];
      try (exfalso; try destruct a; try destruct b; discriminate Hl).
    destruct a as [|i| | | |]; try (destruct b; discriminate Hl).
    change (len [PInt i; b] =? 2) with true. unfold getitem.
    change (Z.to_nat 0) with 0%nat. change (Z.to_nat 1) with 1%nat.
    cbn [nth_error]. munfold. cbn [isinstance_int]. munfold.
    destruct b as [|p|f|r|l|l]; try discriminate Hl;
      apply andb_true_iff in Hl; destruct Hl as [Hi Hr].
    - apply negb_true_iff in Hr.
      unfold check_position. rewrite gtb_ltb_1000, Hr. munfold.
      cbn [py_and]. munfold. unfold extend. cbn [as_bytes]. unfold as_byte, as_int.
      munfold. rewrite Hi, low_byte, high_byte. munfold. eexists. reflexivity.
    - apply andb_true_iff in Hr. destruct Hr as [Hlo Hhi].
      unfold check_angle. rewrite (leb_not_ltb _ _ Hlo), (leb_not_ltb _ _ Hhi).
      cbn [orb]. munfold.
      cbn [py_and]. munfold. unfold extend. cbn [as_bytes]. unfold as_byte, as_int.
      munfold. rewrite Hi, low_byte, high_byte. munfold. eexists. reflexivity. }
  destruct v; try discriminate Ha; cbn [py_len py_index element_accepted] in *.
  - eexists. erewrite bind_ok by reflexivity.
    erewrite bind_ok by (apply extend_servo; exact Ha). reflexivity.
  - erewrite bind_ok by reflexivity. apply Hseq. exact Ha.
  - erewrite bind_ok by reflexivity. apply Hseq. exact Ha.
Qed.

Lemma loop_refuses (good : list pyval) (bad : pyval) (rest : list pyval)
    (s : state) (msg : string) :
  Forall (fun v => element_accepted (heap s) v = true) good ->
  element_error bad = Some msg ->
  forall position data,
    setPosition_loop a2p (good ++ bad :: rest) position data s =
      (Raise (ValueError msg), s).
Proof.
  intros Hg Hb. induction Hg as [|v good Hv _ IH]; intros position data;
    cbn [app setPosition_loop].
  - apply bind_raise. apply element_refused. exact Hb.
  - destruct (element_taken v position data s Hv) as (next & Hn).
    erewrite bind_ok by exact Hn. apply IH.
Qed.

Lemma setPosition_refuses_element (good : list pyval) (bad : pyval)
    (rest : list pyval) (position : pyval) (duration : Z) (wait : bool)
    (s : state) (msg : string) :
  Forall (fun v => element_accepted (heap s) v = true) good ->
  element_error bad = Some msg ->
  len (good ++ bad :: rest) <= 255 ->
  setPosition a2p (PList (good ++ bad :: rest)) position duration wait s =
    (Raise (ValueError msg), s).
Proof.
  intros Hg Hb Hn. unfold setPosition.
  erewrite bind_ok by apply move_header_ok.
  apply bind_raise. unfold setitem0.
  replace (is_byte (len (good ++ bad :: rest))) with true
    by (symmetry; apply is_byte_iff; split; [apply len_nonneg | exact Hn]).
  erewrite bind_ok by reflexivity.
  apply loop_refuses; assumption.
Qed.

Lemma setPosition_refuses_shape (servos position : pyval) (duration : Z)
    (wait : bool) (s : state) :
  setPosition_shape servos = false ->
  setPosition a2p servos position duration wait s =
    (Raise (ValueError msg_servos_not_valid), s).
Proof.
  intros Hs. unfold setPosition.
  erewrite bind_ok by apply move_header_ok.
  apply bind_raise. destruct servos; try discriminate Hs; reflexivity.
Qed.

Lemma getPosition_refuses_shape (servos : pyval) (degrees : bool) (s : state) :
  getPosition_shape servos = false ->
  getPosition p2a servos degrees s = (Raise (ValueError msg_servos_not_valid), s).
Proof.
  intros Hs. unfold getPosition. apply bind_raise.
  destruct servos; try discriminate Hs; try reflexivity.
  cbn [getPosition_shape] in Hs. rewrite Hs. reflexivity.
Qed.

Lemma servoOff_refuses_shape (servos : pyval) (s : state) :
  servoOff_shape servos = false ->
  servoOff servos s = (Raise (ValueError msg_servos_incorrect), s).
Proof.
  intros Hs. unfold servoOff, bytearray.
  erewrite bind_ok by (apply check_bytes_ok; reflexivity).
  apply bind_raise. destruct servos; try discriminate Hs; reflexivity.
Qed.

Lemma writeServoId_refuses_target (new_servo_id : Z) (s : state) :
  exists found s2,
    discovery (probe p2a) [1; 2; 3; 4; 5; 6] s found s2 /\
    writes (log s2) =
      writes (log s) ++ probes_written (_is_serial s) [1; 2; 3; 4; 5; 6] /\
    (new_servo_id = 0 \/ len found <> 1 ->
     writeServoId p2a new_servo_id false s =
       (Raise (ValueError (target_error found)), set_servos found s2)).
Proof.
  destruct (discovery_six p2a s) as (found & s2 & Hd & Hl & Hw).
  exists found, s2. split; [exact Hd|]. split; [exact Hw|].
  intros Hbad. rewrite (writeServoId_guarded p2a _ _ _ _ Hl).
  cbn [servos set_servos].
  destruct found as [|i [|j more]]; cbn [target_error].
  - reflexivity.
  - change (len [i] =? 0) with false. change (len [i] >? 1) with false.
    destruct Hbad as [->|Hbad]; [reflexivity|].
    contradiction Hbad. reflexivity.
  - replace (len (i :: j :: more) =? 0) with false
      by (symmetry; apply Z.eqb_neq; rewrite !len_cons;
          pose proof (len_nonneg more); lia).
    replace (len (i :: j :: more) >? 1) with true
      by (symmetry; rewrite Z.gtb_ltb; apply Z.ltb_lt; rewrite !len_cons;
          pose proof (len_nonneg more); lia).
    reflexivity.
Qed.
End Refusals.

(** * The claims *)

(** C1, as amended.  For every command byte and every payload of bytes, of
    length 0 to 250 on the serial port and 0 to 60 on the HID device, [_send]
    puts [encode cmd payload] on the wire (header [0x55, 0x55, len + 2, cmd],
    then the payload), and reading a frame for the same command from those
    bytes gives back exactly the payload. *)
Theorem frame_round_trip (cmd : Z) (payload : list Z) (s : state) :
  is_byte cmd = true ->
  forallb is_byte payload = true ->
  len payload <= loopback_limit s ->
  wire (snd (_send cmd payload s)) = wire s ++ encode cmd payload /\
  fst (loopback cmd payload s) = Ok (Some payload).
Proof.
  intros Hc Hd Hn.
  assert (Hn' : len payload <= 253).
  { unfold loopback_limit in Hn. destruct (_is_serial s); lia. }
  pose proof (send_wire cmd payload s Hc Hd Hn') as Hw.
  split; [exact Hw|].
  unfold loopback. munfold.
  rewrite (send_ok cmd payload s Hc Hd Hn') in *. cbn [snd] in Hw. mred.
  rewrite Hw, skipn_length_app.
  apply recv_encoded; [reflexivity|].
  unfold loopback_limit in Hn.
  destruct (_is_serial s) eqn:Hs; mred; [congruence | intros _; exact Hn].
Qed.

(** C1 at a move frame for servo 1, position 500, on the serial port. *)
Lemma frame_round_trip_witness :
  is_byte CMD_SERVO_MOVE = true /\
  forallb is_byte [1; 232; 3; 1; 244; 1] = true /\
  len [1; 232; 3; 1; 244; 1] <= loopback_limit (serial0 []) /\
  wire (snd (_send CMD_SERVO_MOVE [1; 232; 3; 1; 244; 1] (serial0 []))) =
    wire (serial0 []) ++ encode CMD_SERVO_MOVE [1; 232; 3; 1; 244; 1] /\
  fst (loopback CMD_SERVO_MOVE [1; 232; 3; 1; 244; 1] (serial0 [])) =
    Ok (Some [1; 232; 3; 1; 244; 1]).
Proof.
  refine (conj eq_refl (conj eq_refl (conj _ _))).
  - vm_compute. intros H. discriminate H.
  - apply (frame_round_trip CMD_SERVO_MOVE [1; 232; 3; 1; 244; 1] (serial0 []));
      [reflexivity | reflexivity | vm_compute; intros H; discriminate H].
Defined.

(** C1 fails as stated on the HID device: a payload of 61 bytes makes a frame
    of 65, the reader takes one report of at most 64 bytes, and 60 payload
    bytes come back. *)
Lemma round_trip_cut_by_hid_report :
  is_byte CMD_SERVO_MOVE = true /\
  forallb is_byte (repeat 7 61) = true /\
  0 <= len (repeat 7 61) <= 250 /\
  fst (loopback CMD_SERVO_MOVE (repeat 7 61) (usb0 [])) = Ok (Some (repeat 7 60)) /\
  fst (loopback CMD_SERVO_MOVE (repeat 7 61) (usb0 [])) <> Ok (Some (repeat 7 61)).
Proof.
  split; [reflexivity|]. split; [reflexivity|]. split; [vm_compute; split; intros H; discriminate H|].
  assert (H : fst (loopback CMD_SERVO_MOVE (repeat 7 61) (usb0 [])) = Ok (Some (repeat 7 60)))
    by (vm_compute; reflexivity).
  split; [exact H|]. rewrite H. vm_compute. intros E. discriminate E.
Qed.

(** C3, as amended.  For every reply of at least four bytes: when a signature
    byte is not 0x55 or the echoed command is not the expected one, [_recv]
    returns [None]; when the header matches it returns the bytes that follow
    the header, up to as many as the length byte says, without comparing the
    length byte with what came: when fewer bytes came than declared, all of
    them are returned as the payload. *)
Theorem recv_checks_header_not_length (cmd : Z) (raw : list Z)
    (rest : list (list Z)) (s : state) :
  rx s = raw :: rest ->
  4 <= len raw ->
  (header_ok cmd (visible s raw) = false -> fst (_recv cmd s) = Ok None) /\
  (header_ok cmd (visible s raw) = true ->
   fst (_recv cmd s) =
     Ok (Some (firstn (Z.to_nat (nth 2 raw 0)) (skipn 4 (visible s raw))))) /\
  (header_ok cmd (visible s raw) = true ->
   len (skipn 4 (visible s raw)) < nth 2 raw 0 ->
   fst (_recv cmd s) = Ok (Some (skipn 4 (visible s raw)))).
Proof.
  intros Hrx Hlen. pose proof (recv_result cmd raw rest s Hrx Hlen) as H.
  repeat split; intros Hh; rewrite Hh in H; [exact H | exact H |].
  intros Hshort. rewrite H. rewrite firstn_all2; [reflexivity|].
  unfold len in Hshort. lia.
Qed.

(** C3 at a whole reply to a position query of servo 2. *)
Lemma recv_checks_header_not_length_witness :
  rx (serial0 [[85; 85; 6; 21; 1; 2; 244; 1]]) = [85; 85; 6; 21; 1; 2; 244; 1] :: [] /\
  4 <= len [85; 85; 6; 21; 1; 2; 244; 1] /\
  fst (_recv CMD_GET_SERVO_POSITION (serial0 [[85; 85; 6; 21; 1; 2; 244; 1]])) =
    Ok (Some [1; 2; 244; 1]).
Proof.
  refine (conj eq_refl (conj _ _)).
  - vm_compute. intros H. discriminate H.
  - apply (proj1 (proj2 (recv_checks_header_not_length CMD_GET_SERVO_POSITION
             [85; 85; 6; 21; 1; 2; 244; 1] [] (serial0 [[85; 85; 6; 21; 1; 2; 244; 1]])
             eq_refl ltac:(vm_compute; intros H; discriminate H)))).
    reflexivity.
Defined.

(** C3 fails as stated: after a valid header that declares six bytes, one
    byte arrives; both transports return that one byte as the payload. *)
Lemma recv_returns_cut_payload :
  header_ok CMD_GET_SERVO_POSITION [85; 85; 6; 21; 1] = true /\
  fst (_recv CMD_GET_SERVO_POSITION (serial0 [[85; 85; 6; 21; 1]])) = Ok (Some [1]) /\
  fst (_recv CMD_GET_SERVO_POSITION (usb0 [[85; 85; 6; 21; 1]])) = Ok (Some [1]).
Proof. repeat split. Qed.

Section Claims.
Variable a2p : float -> Z.
Variable p2a : Z -> float.

(** C10.  A servo object handed to [setPosition], alone or as an element of a
    list, has its position field encoded without a range check: for every
    integer [p] it contributes [p & 0xff] and [(p & 0xff00) >> 8] after its
    id, no error is raised, and the frame is sent.  Stated for servo objects
    whose ids fit a byte: first for one of them, as an element of any list
    (the loop body) and alone (the whole call), then for a list of them (the
    whole call; 83 triples are what the length byte of a frame can count).
    When the caller waits, the duration is one that [time.sleep] accepts
    everywhere: from 0 to [sleep_safe_ms]. *)
Theorem setPosition_servo_object_unchecked (refs : list loc) (position : pyval)
    (duration : Z) (wait : bool) (s : state) :
  Forall (fun r => is_byte (Servo.servo_id (heap s r)) = true) refs ->
  len refs <= 83 ->
  (wait = true -> 0 <= duration <= sleep_safe_ms) ->
  (forall r servo_id p,
     In r refs ->
     heap s r = Servo.mk servo_id p ->
     (forall acc,
        setPosition_element a2p (PServo r) position acc s =
          (Ok (position,
               acc ++ [servo_id; Z.land p 0xff; Z.shiftr (Z.land p 0xff00) 8]), s)) /\
     fst (setPosition a2p (PServo r) position duration wait s) = Ok tt /\
     log (snd (setPosition a2p (PServo r) position duration wait s)) =
       log s ++
       sent_events (_is_serial s) CMD_SERVO_MOVE
         (move_payload 1 duration
            [servo_id; Z.land p 0xff; Z.shiftr (Z.land p 0xff00) 8]) ++
       slept wait duration) /\
  fst (setPosition a2p (PList (map PServo refs)) position duration wait s) = Ok tt /\
  log (snd (setPosition a2p (PList (map PServo refs)) position duration wait s)) =
    log s ++
    sent_events (_is_serial s) CMD_SERVO_MOVE
      (move_payload (len refs) duration
         (flat_map (fun r => servo_bytes (heap s r)) refs)) ++
    slept wait duration.
Proof.
  intros Hids Hn Hw. split; [| apply setPosition_servo_list; assumption].
  intros r servo_id p Hin Hheap.
  assert (Hid : is_byte (Servo.servo_id (heap s r)) = true)
    by (apply (proj1 (Forall_forall _ _) Hids r Hin)).
  assert (Hb : servo_bytes (heap s r) =
               [servo_id; Z.land p 0xff; Z.shiftr (Z.land p 0xff00) 8])
    by (rewrite Hheap; reflexivity).
  split.
  - intros acc. rewrite <- Hb. apply setPosition_element_servo. exact Hid.
  - unfold setPosition, bytearray.
    erewrite bind_ok
      by (apply check_bytes_ok; cbn [forallb]; rewrite low_byte, high_byte; reflexivity).
    erewrite bind_ok
      by (erewrite bind_ok by reflexivity; apply extend_servo; exact Hid).
    erewrite bind_ok.
    2: { apply send_ok;
           [ reflexivity
           | cbn [app forallb]; rewrite low_byte, high_byte, (servo_bytes_ok _ Hid);
             reflexivity
           | vm_compute; intros E; discriminate E ]. }
    rewrite time_sleep_ok by exact Hw. rewrite <- Hb. unfold move_payload.
    destruct (_is_serial s); mred; rewrite <- app_assoc; split; reflexivity.
Qed.

(** C9.  For every [maximum_servo_id], [listServos] probes the ids 1 to
    [maximum_servo_id] in ascending order with [getPosition]; an id whose
    probe raises anything is left out; the call never raises, returns the
    ascending list of the ids that answered, and leaves exactly that list in
    the cache [servos], whatever the cache held before.  The ids probed are
    written out with the standard library's [seq], not with [range]: they
    are [1, 2, ..., maximum_servo_id], none when [maximum_servo_id < 1]. *)
Theorem listServos_discovers (maximum_servo_id : Z) (s : state) :
  exists found s2,
    discovery (probe p2a) (map Z.of_nat (seq 1 (Z.to_nat maximum_servo_id)))
      s found s2 /\
    listServos p2a maximum_servo_id s = (Ok found, set_servos found s2) /\
    StronglySorted Z.lt found /\
    (forall i, In i found -> 1 <= i <= maximum_servo_id) /\
    (forall cached,
       listServos p2a maximum_servo_id (set_servos cached s) =
       listServos p2a maximum_servo_id s) /\
    writes (log s2) =
      writes (log s) ++
      probes_written (_is_serial s)
        (map Z.of_nat (seq 1 (Z.to_nat maximum_servo_id))).
Proof.
  destruct (listServos_run p2a maximum_servo_id s) as (found & s2 & Hd & Hl).
  exists found, s2.
  destruct (discovery_keeps_order p2a _ _ _ _ Hd (upto_sorted _ _)) as [Hs Hin].
  pose proof (discovery_effect p2a _ _ _ _ Hd) as [_ Hw].
  rewrite range_ids in Hd, Hw.
  repeat split; try assumption.
  - apply Hin, in_range in H. lia.
  - apply Hin, in_range in H. lia.
Qed.

(** C5, as amended.  With [overwrite_all_servo_ids] set and a new id from 1 to
    255, [writeServoId] runs no discovery; it sends the identity-write frame
    whenever the cached list [servos] is not empty, however many ids it
    holds, and raises "No servos to update their id", sending nothing, when
    the cached list is empty. *)
Theorem writeServoId_overwrite_all (new_servo_id : Z) (s : state) :
  1 <= new_servo_id <= 255 ->
  (servos s = [] ->
   writeServoId p2a new_servo_id true s = (Raise (ValueError msg_no_servos), s)) /\
  (servos s <> [] ->
   writeServoId p2a new_servo_id true s =
     (Ok tt,
      set_log (log s ++ id_write_events (_is_serial s) new_servo_id)
        (if _is_serial s then s else set_usb_recv_event false s))).
Proof.
  intros Hid. rewrite writeServoId_overwrite. split; intros Hs.
  - rewrite Hs. reflexivity.
  - replace (len (servos s) =? 0) with false.
    2: { symmetry. apply Z.eqb_neq. destruct (servos s); [congruence|].
         rewrite len_cons. pose proof (len_nonneg l). lia. }
    replace (new_servo_id =? 0) with false by (symmetry; apply Z.eqb_neq; lia).
    apply send_id_ok. apply is_byte_iff. lia.
Qed.

(** C6, as amended.  For every [overwrite_all_servo_ids] and every state,
    [writeServoId] with a new id of 0 raises a [ValueError] and sends no
    identity-write frame (it writes the probes of discovery, or nothing).  The
    error is the zero-id error exactly when the servo list the call checks is
    not empty and either holds one id or [overwrite_all_servo_ids] is set; it
    is "No servos to update their id" exactly when that list is empty, and
    the more-than-one-servo error otherwise. *)
Theorem writeServoId_zero_refused (overwrite_all_servo_ids : bool) (s : state) :
  exists msg s',
    writeServoId p2a 0 overwrite_all_servo_ids s = (Raise (ValueError msg), s') /\
    (msg = msg_no_servos \/ msg = msg_more_than_one \/ msg = msg_zero_id) /\
    (msg = msg_zero_id <->
     servos s' <> [] /\ (overwrite_all_servo_ids = true \/ len (servos s') = 1)) /\
    (msg = msg_no_servos <-> servos s' = []) /\
    writes (log s') =
      writes (log s) ++ guard_writes overwrite_all_servo_ids (_is_serial s) /\
    (overwrite_all_servo_ids = true -> s' = s) /\
    (overwrite_all_servo_ids = false ->
     exists found s2,
       discovery (probe p2a) (range 1 7) s found s2 /\ s' = set_servos found s2).
Proof.
  assert (Hcases : forall (ow : bool) (st : state),
    exists msg,
      (if len (servos st) =? 0 then (@Raise unit (ValueError msg_no_servos), st)
       else if (len (servos st) >? 1) && negb ow
            then (Raise (ValueError msg_more_than_one), st)
            else (Raise (ValueError msg_zero_id), st)) = (Raise (ValueError msg), st) /\
      (msg = msg_no_servos \/ msg = msg_more_than_one \/ msg = msg_zero_id) /\
      (msg = msg_zero_id <-> servos st <> [] /\ (ow = true \/ len (servos st) = 1)) /\
      (msg = msg_no_servos <-> servos st = [])).
  { intros ow st. pose proof (len_nonneg (servos st)) as Hn.
    assert (Hnil : servos st = [] <-> len (servos st) = 0).
    { destruct (servos st) as [|x l]; [tauto|]. rewrite len_cons.
      pose proof (len_nonneg l). split; [discriminate | lia]. }
    destruct (len (servos st) =? 0) eqn:E0.
    - apply Z.eqb_eq in E0. exists msg_no_servos. repeat split; auto;
        try (intros; discriminate); try tauto.
    - apply Z.eqb_neq in E0.
      destruct (len (servos st) >? 1) eqn:E1; destruct ow; cbn [negb andb].
      + exists msg_zero_id. repeat split; auto; try (intros; discriminate); tauto.
      + exists msg_more_than_one. repeat split; auto; try (intros; discriminate);
          try tauto.
        intros [_ [H|H]]; [discriminate H|]. rewrite Z.gtb_gt in E1. lia.
      + exists msg_zero_id. repeat split; auto; try (intros; discriminate); tauto.
      + exists msg_zero_id. repeat split; auto; try (intros; discriminate);
          try tauto.
        right. rewrite Z.gtb_ltb, Z.ltb_ge in E1. lia. }
  destruct overwrite_all_servo_ids.
  - destruct (Hcases true s) as (msg & Hr & H1 & H2 & H3).
    exists msg, s. rewrite writeServoId_overwrite.
    rewrite andb_false_r in Hr. change (0 =? 0) with true. cbv iota.
    split; [exact Hr|]. split; [exact H1|]. split; [exact H2|]. split; [exact H3|].
    split; [cbn [guard_writes]; rewrite app_nil_r; reflexivity|].
    split; [reflexivity | discriminate].
  - destruct (discovery_six p2a s) as (found & s2 & Hd & Hl & Hw).
    destruct (Hcases false (set_servos found s2)) as (msg & Hr & H1 & H2 & H3).
    exists msg, (set_servos found s2). rewrite (writeServoId_guarded p2a _ _ _ _ Hl).
    rewrite andb_true_r in Hr. change (0 =? 0) with true. cbv iota.
    split.
    { destruct (len (servos (set_servos found s2)) =? 0); [exact Hr|].
      destruct (len (servos (set_servos found s2)) >? 1); exact Hr. }
    split; [exact H1|]. split; [exact H2|]. split; [exact H3|].
    split; [exact Hw|].
    split; [discriminate|]. intros _. exists found, s2. split; [exact Hd | reflexivity].
Qed.

(** C2, as amended.  Arguments that break a documented precondition are
    refused before anything is written, the state left as it was: for
    [setPosition] a missing position, an integer position outside [0, 1000]
    or an angle outside [-125.0, 125.0] (with one id, or in the first
    offending pair of a list), a list element that is a list or a tuple but
    no pair of an integer id and a position, and a [servos] of another shape
    than the documented ones; for [getPosition] and [servoOff] a [servos] of
    another shape.  [writeServoId] raises for a zero id and for a target that
    is not exactly one servo; it never writes the identity-write frame when
    it raises, but without [overwrite_all_servo_ids] the six probes of
    discovery have been written before any of its checks is made.  And
    conversely: whenever [setPosition] raises without [wait], whenever it
    raises a [ValueError] that is not the one of [time.sleep] (which comes
    after the frame), whenever [getPosition] raises a [ValueError] and
    whenever [servoOff] raises, nothing has been written. *)
Theorem validation_precedes_writes :
  (forall servos position duration wait s msg,
     is_number servos = true ->
     position_error position = Some msg ->
     setPosition a2p servos position duration wait s =
       (Raise (ValueError msg), s)) /\
  (forall good bad rest position duration wait s msg,
     Forall (fun v => element_accepted (heap s) v = true) good ->
     element_error bad = Some msg ->
     len (good ++ bad :: rest) <= 255 ->
     setPosition a2p (PList (good ++ bad :: rest)) position duration wait s =
       (Raise (ValueError msg), s)) /\
  (forall servos position duration wait s,
     setPosition_shape servos = false ->
     setPosition a2p servos position duration wait s =
       (Raise (ValueError msg_servos_not_valid), s)) /\
  (forall servos degrees s,
     getPosition_shape servos = false ->
     getPosition p2a servos degrees s =
       (Raise (ValueError msg_servos_not_valid), s)) /\
  (forall servos s,
     servoOff_shape servos = false ->
     servoOff servos s = (Raise (ValueError msg_servos_incorrect), s)) /\
  (forall new_servo_id s,
     (servos s = [] ->
      writeServoId p2a new_servo_id true s =
        (Raise (ValueError msg_no_servos), s)) /\
     (servos s <> [] -> new_servo_id = 0 ->
      writeServoId p2a new_servo_id true s =
        (Raise (ValueError msg_zero_id), s))) /\
  (forall new_servo_id s,
   exists found s2,
     discovery (probe p2a) [1; 2; 3; 4; 5; 6] s found s2 /\
     writes (log s2) =
       writes (log s) ++ probes_written (_is_serial s) [1; 2; 3; 4; 5; 6] /\
     (new_servo_id = 0 \/ len found <> 1 ->
      writeServoId p2a new_servo_id false s =
        (Raise (ValueError (target_error found)), set_servos found s2))) /\
  (forall servos position duration s s' e,
     setPosition a2p servos position duration false s = (Raise e, s') ->
     writes (log s') = writes (log s)) /\
  (forall servos position duration wait s s' msg,
     setPosition a2p servos position duration wait s =
       (Raise (ValueError msg), s') ->
     msg <> msg_sleep_negative ->
     writes (log s') = writes (log s)) /\
  (forall servos degrees s s' msg,
     getPosition p2a servos degrees s = (Raise (ValueError msg), s') ->
     writes (log s') = writes (log s)) /\
  (forall servos s s' e,
     servoOff servos s = (Raise e, s') ->
     writes (log s') = writes (log s)) /\
  (forall new_servo_id overwrite_all_servo_ids s s' e,
     writeServoId p2a new_servo_id overwrite_all_servo_ids s = (Raise e, s') ->
     writes (log s') =
       writes (log s) ++ guard_writes overwrite_all_servo_ids (_is_serial s)).
Proof.
  repeat match goal with |- _ /\ _ => split end.
  - intros. apply setPosition_refuses_position; assumption.
  - intros. apply setPosition_refuses_element; assumption.
  - intros. apply setPosition_refuses_shape; assumption.
  - intros. apply getPosition_refuses_shape; assumption.
  - intros. apply servoOff_refuses_shape; assumption.
  - intros new_servo_id s. rewrite writeServoId_overwrite. split.
    + intros ->. reflexivity.
    + intros Hs ->. destruct (servos s) as [|i l]; [contradiction Hs; reflexivity|].
      replace (len (i :: l) =? 0) with false
        by (symmetry; apply Z.eqb_neq; rewrite len_cons;
            pose proof (len_nonneg l); lia).
      reflexivity.
  - intros. apply writeServoId_refuses_target.
  - intros servos position duration s s' e H.
    apply (setPosition_raise_keeps_writes a2p _ _ _ _ _ _ _ H). left. reflexivity.
  - intros servos position duration wait s s' msg H Hm.
    apply (setPosition_raise_keeps_writes a2p _ _ _ _ _ _ _ H). right.
    split; [intros E; injection E as E; contradiction | discriminate].
  - intros. eapply getPosition_value_error_keeps_writes; eassumption.
  - intros. eapply servoOff_raise_keeps_writes; eassumption.
  - intros. eapply writeServoId_raise_writes; eassumption.
Qed.

(** C4, as amended.  A list query updates the entries by the index of the
    reply, not by id: for a list of distinct servo objects and a reply that
    declares [count] entries, entry [i] of the list, for [i < count], gets the
    position at index [i] of the reply, whatever id the reply carries there;
    the other entries keep their position.  The list is in input order only
    when the reply is in request order. *)
Theorem getPosition_list_by_reply_index (refs : list loc) (reply : list Z)
    (declared : Z) (rest : list (list Z)) (degrees : bool) (s : state) :
  NoDup refs ->
  Forall (fun r => is_byte (Servo.servo_id (heap s r)) = true) refs ->
  len refs <= 252 ->
  rx s = ([SIGNATURE; SIGNATURE; declared; CMD_GET_SERVO_POSITION] ++ reply) :: rest ->
  len reply <= declared ->
  (_is_serial s = false -> len reply <= 60) ->
  0 <= nth 0 reply 0 <= len refs ->
  nth 0 reply 0 * 3 + 1 <= len reply ->
  fst (getPosition p2a (PList (map PServo refs)) degrees s) = Ok PNone /\
  forall (i : nat) (r : loc),
    nth_error refs i = Some r ->
    heap (snd (getPosition p2a (PList (map PServo refs)) degrees s)) r =
      if Z.of_nat i <? nth 0 reply 0
      then Servo.mk (Servo.servo_id (heap s r)) (reply_position reply (Z.of_nat i))
      else heap s r.
Proof.
  intros Hnd Hids Hn Hrx Hdecl Hhid Hcount Hlen.
  destruct (getPosition_list_run p2a refs reply declared rest degrees s
              Hids Hn Hrx Hdecl Hhid Hcount Hlen) as (s2 & Hh & Hrun).
  rewrite Hrun. cbn [fst snd heap set_heap]. split; [reflexivity|].
  intros i r Hi. unfold range. rewrite Z.sub_0_r.
  rewrite (assign_all refs reply (heap s2) (Z.to_nat (nth 0 reply 0)) Hnd
             ltac:(unfold len in Hcount; lia) i r Hi).
  rewrite Hh.
  destruct (Z.of_nat i <? nth 0 reply 0) eqn:E.
  - replace (Nat.ltb i (Z.to_nat (nth 0 reply 0))) with true
      by (symmetry; apply Nat.ltb_lt; apply Z.ltb_lt in E; lia).
    reflexivity.
  - replace (Nat.ltb i (Z.to_nat (nth 0 reply 0))) with false
      by (symmetry; apply Nat.ltb_ge; apply Z.ltb_ge in E; lia).
    reflexivity.
Qed.

(** C7 fails on the code: in the list [(1, 500), (2, None)] the second element
    is malformed, yet no error is raised and the frame is sent, servo 2
    taking the position 500 of the element before it. *)
Theorem setPosition_list_reuses_position :
  setPosition a2p (PList [PTuple [PInt 1; PInt 500]; PTuple [PInt 2; PNone]])
    PNone 1000 false (serial0 []) =
    (Ok tt,
     set_log [Flush; Write [0x55; 0x55; 11; 0x03];
              Write [2; 0xe8; 0x03; 1; 0xf4; 0x01; 2; 0xf4; 0x01]]
       (serial0 [])).
Proof. vm_compute. reflexivity. Qed.

(** C8 fails on the code on the serial port: when the first read times out
    with no byte, [_recv] indexes the empty reply and [IndexError] leaves
    [getBatteryVoltage] after one attempt, with no sleep. *)
Theorem getBatteryVoltage_serial_timeout :
  getBatteryVoltage (serial0 []) =
    (Raise IndexError,
     set_log [Flush; Write [0x55; 0x55; 2; 0x0f]; Read 4] (serial0 [])).
Proof. vm_compute. reflexivity. Qed.

End Claims.

(** C10 at a servo object whose position field is 70000, alone and in a list
    of two, with a wait of one second. *)
Lemma setPosition_servo_object_unchecked_witness :
  Forall (fun r => is_byte (Servo.servo_id (heap far_servo r)) = true) [3%nat; 4%nat] /\
  len [3%nat; 4%nat] <= 83 /\
  0 <= 1000 <= sleep_safe_ms /\
  heap far_servo 3%nat = Servo.mk 3 70000 /\
  log (snd (setPosition linear_angle_to_position (PServo 3%nat) PNone 1000 true
              far_servo)) =
    [Flush; Write [0x55; 0x55; 8; 0x03]; Write [1; 0xe8; 0x03; 3; 0x70; 0x11];
     Sleep (QArith_base.Qmake 1000 1000)] /\
  log (snd (setPosition linear_angle_to_position (PList [PServo 3%nat; PServo 4%nat])
              PNone 1000 true far_servo)) =
    [Flush; Write [0x55; 0x55; 11; 0x03];
     Write [2; 0xe8; 0x03; 3; 0x70; 0x11; 4; 0; 0];
     Sleep (QArith_base.Qmake 1000 1000)].
Proof.
  assert (H1 : Forall (fun r => is_byte (Servo.servo_id (heap far_servo r)) = true)
                 [3%nat; 4%nat]) by (repeat constructor).
  assert (H2 : len [3%nat; 4%nat] <= 83) by (intros E; discriminate E).
  assert (H3 : 0 <= 1000 <= sleep_safe_ms) by (split; intros E; discriminate E).
  pose proof (setPosition_servo_object_unchecked linear_angle_to_position
                [3%nat; 4%nat] PNone 1000 true far_servo H1 H2 (fun _ => H3))
    as [Hone [_ Hlist]].
  refine (conj H1 (conj H2 (conj H3 (conj eq_refl (conj _ Hlist))))).
  exact (proj2 (proj2 (Hone 3%nat 3 70000 (or_introl eq_refl) eq_refl))).
Defined.

(** C5 at a HID controller with two cached servos. *)
Lemma writeServoId_overwrite_all_witness :
  1 <= 7 <= 255 /\
  servos (set_servos [1; 2] (usb0 [])) <> [] /\
  writeServoId linear_position_to_angle 7 true (set_servos [1; 2] (usb0 [])) =
    (Ok tt,
     set_log [Write [0; 0x55; 0x55; 3; 0x1b; 7]] (set_servos [1; 2] (usb0 []))).
Proof.
  assert (H1 : 1 <= 7 <= 255) by (split; intros E; discriminate E).
  assert (H2 : servos (set_servos [1; 2] (usb0 [])) <> []) by (intros E; discriminate E).
  refine (conj H1 (conj H2 _)).
  exact (proj2 (writeServoId_overwrite_all linear_position_to_angle 7
                  (set_servos [1; 2] (usb0 [])) H1) H2).
Defined.

(** C5 fails as stated for a count of zero: on a controller that has cached no
    servo the call raises and writes nothing. *)
Lemma writeServoId_overwrite_all_without_servos :
  writeServoId linear_position_to_angle 5 true (usb0 []) =
    (Raise (ValueError msg_no_servos), usb0 []) /\
  writes (log (snd (writeServoId linear_position_to_angle 5 true (usb0 [])))) = [].
Proof. split; vm_compute; reflexivity. Qed.

(** C6 fails as stated: on a controller that has cached no servo, a new id of
    0 with [overwrite_all_servo_ids] set raises the no-servos error. *)
Lemma writeServoId_zero_reports_no_servos :
  writeServoId linear_position_to_angle 0 true (serial0 []) =
    (Raise (ValueError msg_no_servos), serial0 []) /\
  msg_no_servos <> msg_zero_id.
Proof. split; [vm_compute; reflexivity | intros E; discriminate E]. Qed.

(** C2 fails as stated for [writeServoId]: the zero-id error is raised after
    six probe frames have been written. *)
Lemma writeServoId_zero_after_probes :
  fst (writeServoId linear_position_to_angle 0 false
         (usb0 [[0x55; 0x55; 6; 0x15; 1; 1; 0xf4; 0x01]])) =
    Raise (ValueError msg_zero_id) /\
  writes (log (snd (writeServoId linear_position_to_angle 0 false
                      (usb0 [[0x55; 0x55; 6; 0x15; 1; 1; 0xf4; 0x01]])))) =
    [[0; 0x55; 0x55; 4; 0x15; 1; 1]; [0; 0x55; 0x55; 4; 0x15; 1; 2];
     [0; 0x55; 0x55; 4; 0x15; 1; 3]; [0; 0x55; 0x55; 4; 0x15; 1; 4];
     [0; 0x55; 0x55; 4; 0x15; 1; 5]; [0; 0x55; 0x55; 4; 0x15; 1; 6]].
Proof. split; vm_compute; reflexivity. Qed.

(** C2 at a position of 1001, at a list whose second element carries an angle
    of 130 degrees, at a list query holding an integer, at a float handed to
    [servoOff], and at a zero id with one cached servo. *)
Lemma validation_precedes_writes_witness :
  setPosition linear_angle_to_position (PInt 1) (PInt 1001) 1000 true (serial0 []) =
    (Raise (ValueError msg_position_range), serial0 []) /\
  setPosition linear_angle_to_position
    (PList [PServo 1%nat; PTuple [PInt 2; PFloat 130%float]; PInt 3]) PNone 1000 true
    (serial0 []) =
    (Raise (ValueError msg_angle_range), serial0 []) /\
  getPosition linear_position_to_angle (PList [PServo 1%nat; PInt 2]) false (usb0 []) =
    (Raise (ValueError msg_servos_not_valid), usb0 []) /\
  servoOff (PFloat 1%float) (usb0 []) =
    (Raise (ValueError msg_servos_incorrect), usb0 []) /\
  writeServoId linear_position_to_angle 0 true (set_servos [1] (usb0 [])) =
    (Raise (ValueError msg_zero_id), set_servos [1] (usb0 [])).
Proof.
  destruct (validation_precedes_writes linear_angle_to_position linear_position_to_angle)
    as (H1 & H2 & _ & H4 & H5 & H6 & _).
  split; [|split; [|split; [|split]]].
  - apply H1; reflexivity.
  - apply (H2 [PServo 1%nat] (PTuple [PInt 2; PFloat 130%float]) [PInt 3]).
    + repeat constructor.
    + reflexivity.
    + vm_compute. intros E. discriminate E.
  - apply H4. reflexivity.
  - apply H5. reflexivity.
  - apply (proj2 (H6 0 (set_servos [1] (usb0 [])))); [|reflexivity].
    intros E. discriminate E.
Defined.

(** C4 at a reply in request order. *)
Lemma getPosition_list_by_reply_index_witness :
  NoDup [2%nat; 5%nat] /\
  fst (getPosition linear_position_to_angle (PList (map PServo [2%nat; 5%nat])) false
         (usb0 [[0x55; 0x55; 9; 0x15; 2; 2; 0xc8; 0x00; 5; 0xf4; 0x01]])) = Ok PNone /\
  forall (i : nat) (r : loc),
    nth_error [2%nat; 5%nat] i = Some r ->
    heap (snd (getPosition linear_position_to_angle
                 (PList (map PServo [2%nat; 5%nat])) false
                 (usb0 [[0x55; 0x55; 9; 0x15; 2; 2; 0xc8; 0x00; 5; 0xf4; 0x01]]))) r =
      if Z.of_nat i <? 2
      then Servo.mk (Servo.servo_id (objects0 r))
             (reply_position [2; 2; 0xc8; 0x00; 5; 0xf4; 0x01] (Z.of_nat i))
      else objects0 r.
Proof.
  assert (Hnd : NoDup [2%nat; 5%nat]).
  { constructor; [intros [E|[]]; discriminate E|].
    constructor; [intros []|constructor]. }
  refine (conj Hnd _).
  apply (getPosition_list_by_reply_index linear_position_to_angle
           [2%nat; 5%nat] [2; 2; 0xc8; 0x00; 5; 0xf4; 0x01] 9 [] false
           (usb0 [[0x55; 0x55; 9; 0x15; 2; 2; 0xc8; 0x00; 5; 0xf4; 0x01]]) Hnd).
  - repeat constructor.
  - vm_compute. intros E. discriminate E.
  - reflexivity.
  - vm_compute. intros E. discriminate E.
  - intros _. vm_compute. intros E. discriminate E.
  - vm_compute. split; intros E; discriminate E.
  - vm_compute. intros E. discriminate E.
Defined.

(** C4 fails as stated: the query asks for ids 2 and 5, the reply carries id 5
    (position 500) before id 2 (position 200), and the entry of id 2 ends
    with position 500, the entry of id 5 with 200. *)
Lemma getPosition_list_reply_order :
  fst (getPosition linear_position_to_angle (PList [PServo 2%nat; PServo 5%nat]) false
         (usb0 [[0x55; 0x55; 9; 0x15; 2; 5; 0xf4; 0x01; 2; 0xc8; 0x00]])) = Ok PNone /\
  heap (snd (getPosition linear_position_to_angle (PList [PServo 2%nat; PServo 5%nat])
               false
               (usb0 [[0x55; 0x55; 9; 0x15; 2; 5; 0xf4; 0x01; 2; 0xc8; 0x00]]))) 2%nat =
    Servo.mk 2 500 /\
  heap (snd (getPosition linear_position_to_angle (PList [PServo 2%nat; PServo 5%nat])
               false
               (usb0 [[0x55; 0x55; 9; 0x15; 2; 5; 0xf4; 0x01; 2; 0xc8; 0x00]]))) 5%nat =
    Servo.mk 5 200.
Proof. repeat split; vm_compute; reflexivity. Qed.

(** Discovery on a HID device that answers the probes of ids 1 and 3 and is
    silent for the others: the result and the cache are [1; 3], whatever was
    cached before. *)
Lemma listServos_two_of_six :
  fst (listServos linear_position_to_angle 6
         (set_servos [9]
            (usb0 [[0x55; 0x55; 6; 0x15; 1; 1; 0xf4; 0x01]; [];
                   [0x55; 0x55; 6; 0x15; 1; 3; 0xf4; 0x01]]))) = Ok [1; 3] /\
  servos (snd (listServos linear_position_to_angle 6
         (set_servos [9]
            (usb0 [[0x55; 0x55; 6; 0x15; 1; 1; 0xf4; 0x01]; [];
                   [0x55; 0x55; 6; 0x15; 1; 3; 0xf4; 0x01]])))) = [1; 3].
Proof. split; vm_compute; reflexivity. Qed.

(** * Further properties *)

(** ** The frame writer and the frame reader at their limits *)

Lemma reads_app (l1 l2 : list event) : reads (l1 ++ l2) = reads l1 ++ reads l2.
Proof.
  induction l1 as [|e l1 IH]; [reflexivity|].
  destruct e; cbn [app reads]; rewrite ?IH; reflexivity.
Qed.

Lemma untouched_refl (s : state) : untouched s s.
Proof. repeat split. Qed.

Lemma untouched_trans (a b c : state) : untouched a b -> untouched b c -> untouched a c.
Proof.
  intros (A1 & A2 & A3 & A4) (B1 & B2 & B3 & B4).
  repeat split; congruence.
Qed.

Lemma keeps_bind {A B} (R : state -> state -> Prop) (m : M A) (k : A -> M B) :
  (forall a b c, R a b -> R b c -> R a c) ->
  keeps R m -> (forall a, keeps R (k a)) -> keeps R (bind m k).
Proof.
  intros Htrans Hm Hk s. unfold bind. specialize (Hm s).
  destruct (m s) as [[a|e] s1]; cbn [snd] in *; [|exact Hm].
  eapply Htrans; [exact Hm | apply Hk].
Qed.

Lemma keeps_builds {A} (R : state -> state -> Prop) (m : M A) (Q : A -> Prop) :
  (forall s, R s s) -> builds m Q -> keeps R m.
Proof. intros Hrefl Hb s. destruct (Hb s) as [-> _]. apply Hrefl. Qed.

Lemma pure_extend (data : list Z) (items : list pyval) : builds (extend data items) anything.
Proof.
  unfold extend. eapply builds_bind; [apply builds_as_bytes|].
  intros bs _. apply builds_ret. exact I.
Qed.

Lemma pure_append (data : list Z) (item : Z) : builds (append data item) anything.
Proof.
  unfold append. eapply builds_bind; [apply builds_check_bytes|].
  intros bs _. apply builds_ret. exact I.
Qed.

Lemma pure_setitem0 (data : list Z) (v : Z) : builds (setitem0 data v) anything.
Proof.
  unfold setitem0. destruct (is_byte v); [|apply builds_raise].
  destruct data; [apply builds_raise | apply builds_ret; exact I].
Qed.

Lemma pure_check_bytes (l : list Z) : builds (check_bytes l) anything.
Proof. eapply builds_weaken; [apply builds_check_bytes|]. intros; exact I. Qed.

Create HintDb pure.
#[local] Hint Resolve pure_extend pure_append pure_setitem0 pure_check_bytes
  builds_getitem builds_py_and builds_py_len builds_py_index builds_check_position
  builds_check_angle builds_raise : pure.

Ltac pure_step :=
  first
    [ apply builds_ret; exact I
    | apply builds_raise
    | apply builds_gets; intros; exact I
    | solve [auto with pure]
    | eapply builds_bind with (P := anything); [| intros ? _]
    | match goal with
      | |- builds (match ?x with _ => _ end) _ => destruct x
      end ].

Section Quiet.
Variable a2p : float -> Z.
Variable p2a : Z -> float.

Lemma pure_setPosition_element (servo position : pyval) (data : list Z) :
  builds (setPosition_element a2p servo position data) anything.
Proof. unfold setPosition_element. repeat pure_step. Qed.

Lemma pure_setPosition_loop (items : list pyval) :
  forall position data, builds (setPosition_loop a2p items position data) anything.
Proof.
  induction items as [|servo rest IH]; intros position data; cbn [setPosition_loop].
  - apply builds_ret. exact I.
  - eapply builds_bind; [apply pure_setPosition_element|]. intros next _. apply IH.
Qed.

Lemma pure_servoOff_loop (items : list pyval) :
  forall data, builds (servoOff_loop items data) anything.
Proof.
  induction items as [|servo rest IH]; intros data; cbn [servoOff_loop].
  - apply builds_ret. exact I.
  - destruct servo; try apply IH.
    + eapply builds_bind; [apply pure_append|]. intros d _. apply IH.
    + eapply builds_bind with (P := anything); [apply builds_gets; intros; exact I|].
      intros o _. eapply builds_bind; [apply pure_append|]. intros d _. apply IH.
Qed.

Lemma pure_getPosition_ids (items : list pyval) :
  forall data, builds (getPosition_ids items data) anything.
Proof.
  induction items as [|servo rest IH]; intros data; cbn [getPosition_ids].
  - apply builds_ret. exact I.
  - destruct servo; try apply builds_raise.
    eapply builds_bind with (P := anything); [apply builds_gets; intros; exact I|].
    intros o _. eapply builds_bind; [apply pure_append|]. intros d _. apply IH.
Qed.
End Quiet.

Lemma send_untouched (cmd : Z) (data : list Z) : keeps untouched (_send cmd data).
Proof.
  intros s. unfold untouched, _send, device_flush, device_write, check_bytes.
  run; repeat split; mred; rewrite ?reads_app; cbn [reads]; rewrite ?app_nil_r;
    reflexivity.
Qed.

Lemma sleep_untouched (secs : QArith_base.Q) : keeps untouched (time_sleep secs).
Proof.
  intros s. unfold untouched, time_sleep.
  run; repeat split; mred; rewrite ?reads_app; cbn [reads]; rewrite ?app_nil_r;
    reflexivity.
Qed.

Section FireAndForget.
Variable a2p : float -> Z.

(** X4.  [setPosition] and [servoOff] are write-only: whatever their arguments
    and whether they return or raise, they make no read, consume none of the
    device's pending input, and leave the servo objects and the cache of
    discovered ids as they were. *)
Theorem moves_and_stops_never_read :
  (forall servos position duration wait,
     keeps untouched (setPosition a2p servos position duration wait)) /\
  (forall servos, keeps untouched (servoOff servos)).
Proof.
  split.
  - intros servos position duration wait. unfold setPosition, bytearray.
    apply keeps_bind; [exact untouched_trans | |intros data].
    { eapply keeps_builds; [exact untouched_refl | apply pure_check_bytes]. }
    apply keeps_bind; [exact untouched_trans | |intros data'].
    { eapply keeps_builds with (Q := anything); [exact untouched_refl|].
      destruct servos; try apply builds_raise.
      - repeat pure_step.
      - repeat pure_step.
      - repeat pure_step.
      - eapply builds_bind; [apply pure_setitem0|]. intros d _.
        apply pure_setPosition_loop. }
    apply keeps_bind; [exact untouched_trans | apply send_untouched | intros _].
    destruct wait; [apply sleep_untouched|]. intros s. apply untouched_refl.
  - intros servos. unfold servoOff, bytearray.
    apply keeps_bind; [exact untouched_trans | |intros data].
    { eapply keeps_builds; [exact untouched_refl | apply pure_check_bytes]. }
    apply keeps_bind; [exact untouched_trans | |intros data'; apply send_untouched].
    eapply keeps_builds with (Q := anything); [exact untouched_refl|].
    destruct servos; try apply builds_raise.
    + apply builds_ret. exact I.
    + apply pure_append.
    + repeat pure_step.
    + eapply builds_bind; [apply pure_setitem0|]. intros d _.
      apply pure_servoOff_loop.
Qed.
End FireAndForget.

Lemma long_header_refused (cmd n : Z) :
  253 < n -> forallb is_byte [SIGNATURE; SIGNATURE; n + 2; cmd] = false.
Proof.
  intros Hn. cbn [forallb]. unfold is_byte at 3.
  replace (n + 2 <=? 255) with false by (symmetry; apply Z.leb_gt; lia).
  rewrite andb_false_r. reflexivity.
Qed.

Lemma send_too_long (cmd : Z) (data : list Z) (s : state) :
  253 < len data ->
  exists s',
    _send cmd data s = (Raise (ValueError msg_byte_range), s') /\
    writes (log s') = writes (log s).
Proof.
  intros Hn. pose proof (long_header_refused cmd (len data) Hn) as Hh.
  unfold _send. munfold. destruct (_is_serial s) eqn:Hs.
  - unfold device_flush. munfold. rewrite device_write_raise by exact Hh. mred.
    eexists. split; [reflexivity|]. mred.
    rewrite writes_app. cbn [writes]. rewrite app_nil_r. reflexivity.
  - replace (len data =? 0) with false by (symmetry; apply Z.eqb_neq; lia).
    cbn [negb]. rewrite device_write_raise.
    + mred. eexists. split; reflexivity.
    + change ([0; SIGNATURE; SIGNATURE; len data + 2; cmd] ++ data)
        with (0 :: ([SIGNATURE; SIGNATURE; len data + 2; cmd] ++ data)).
      cbn [forallb]. rewrite forallb_app, Hh. reflexivity.
Qed.

(** X5.  A payload of more than 253 bytes cannot be framed: the length byte
    would exceed 255, so [_send] raises [ValueError] and nothing has been
    written, on either transport. *)
Theorem send_refuses_long_frame (cmd : Z) (data : list Z) (s : state) :
  253 < len data ->
  fst (_send cmd data s) = Raise (ValueError msg_byte_range) /\
  writes (log (snd (_send cmd data s))) = writes (log s).
Proof.
  intros Hn. destruct (send_too_long cmd data s Hn) as (s' & -> & Hw).
  split; [reflexivity | exact Hw].
Qed.

(** X5 at a payload of 254 bytes on the serial port. *)
Lemma send_refuses_long_frame_witness :
  253 < len (repeat 0 254) /\
  fst (_send CMD_SERVO_STOP (repeat 0 254) (serial0 [])) =
    Raise (ValueError msg_byte_range) /\
  writes (log (snd (_send CMD_SERVO_STOP (repeat 0 254) (serial0 [])))) = [].
Proof.
  assert (H : 253 < len (repeat 0 254)) by (vm_compute; reflexivity).
  exact (conj H (send_refuses_long_frame CMD_SERVO_STOP (repeat 0 254) (serial0 []) H)).
Defined.

(** X6.  On the HID device every [_recv] makes one read of 64 bytes, takes
    exactly one report off the input (none when nothing is pending), keeps
    its first 64 bytes in [_input_report], and returns [None] when the report
    has fewer than four bytes. *)
Theorem hid_recv_takes_one_report (cmd : Z) (s : state) :
  _is_serial s = false ->
  rx (snd (_recv cmd s)) = tl (rx s) /\
  _input_report (snd (_recv cmd s)) = firstn 64 (hd [] (rx s)) /\
  log (snd (_recv cmd s)) = log s ++ [Read 64] /\
  (len (hd [] (rx s)) < 4 -> fst (_recv cmd s) = Ok None).
Proof.
  intros Hs. unfold _recv, hid_read. munfold. rewrite Hs. munfold.
  destruct (rx s) as [|report rest] eqn:Hrx; munfold; cbn [hd tl].
  - change (len (@nil Z) <? 4) with true. munfold. repeat split; assumption.
  - change (Z.to_nat 64) with 64%nat.
    destruct (len (firstn 64 report) <? 4) eqn:Hl.
    + munfold. repeat split.
    + unfold getitem.
      run; repeat split; try reflexivity; intros Hshort; exfalso;
        apply Z.ltb_ge in Hl; unfold len in *; rewrite length_firstn in Hl; lia.
Qed.

(** X6 at a report of three bytes followed by a battery reply. *)
Lemma hid_recv_takes_one_report_witness :
  _is_serial (usb0 [[0x55; 0x55; 4]; [0x55; 0x55; 4; 0x0f; 0xe8; 0x1c]]) = false /\
  rx (snd (_recv CMD_GET_BATTERY_VOLTAGE
             (usb0 [[0x55; 0x55; 4]; [0x55; 0x55; 4; 0x0f; 0xe8; 0x1c]]))) =
    [[0x55; 0x55; 4; 0x0f; 0xe8; 0x1c]] /\
  fst (_recv CMD_GET_BATTERY_VOLTAGE
         (usb0 [[0x55; 0x55; 4]; [0x55; 0x55; 4; 0x0f; 0xe8; 0x1c]])) = Ok None.
Proof.
  pose proof (hid_recv_takes_one_report CMD_GET_BATTERY_VOLTAGE
                (usb0 [[0x55; 0x55; 4]; [0x55; 0x55; 4; 0x0f; 0xe8; 0x1c]]) eq_refl)
    as (H1 & _ & _ & H4).
  refine (conj eq_refl (conj H1 (H4 _))). vm_compute. reflexivity.
Defined.

(** X7.  On the serial port, when the four header bytes are rejected (bad
    signature or another command), [_recv] returns [None] after one read of
    4 bytes and leaves every byte after the header in the input: the next
    read starts in the middle of the rejected frame. *)
Theorem serial_recv_leaves_rejected_payload (cmd : Z) (raw : list Z)
    (rest : list (list Z)) (s : state) :
  _is_serial s = true ->
  rx s = raw :: rest ->
  4 <= len raw ->
  header_ok cmd raw = false ->
  _recv cmd s =
    (Ok None, set_rx (skipn 4 raw :: rest) (set_log (log s ++ [Read 4]) s)).
Proof.
  intros Hs Hrx Hlen Hh.
  destruct raw as [|a [|b [|c [|d tl]]]];
    try (unfold len in Hlen; cbn [List.length] in Hlen; lia).
  unfold header_ok in Hh. cbn [nth] in Hh.
  unfold _recv, serial_read. munfold. rewrite Hs. munfold. rewrite Hrx.
  replace (len (a :: b :: c :: d :: tl) <? 4) with false
    by (symmetry; apply Z.ltb_ge; exact Hlen).
  munfold. change (Z.to_nat 4) with 4%nat. cbn [firstn skipn].
  unfold getitem. change (Z.to_nat 0) with 0%nat. change (Z.to_nat 1) with 1%nat.
  change (Z.to_nat 3) with 3%nat. cbn [nth_error]. munfold.
  destruct (a =? SIGNATURE); [|reflexivity]. munfold.
  destruct (b =? SIGNATURE); [|reflexivity]. munfold.
  destruct (d =? cmd); [discriminate Hh | reflexivity].
Qed.

(** X7 at a battery reply read while a position reply is expected. *)
Lemma serial_recv_leaves_rejected_payload_witness :
  _is_serial (serial0 [[0x55; 0x55; 4; 0x0f; 0xe8; 0x1c]]) = true /\
  header_ok CMD_GET_SERVO_POSITION [0x55; 0x55; 4; 0x0f; 0xe8; 0x1c] = false /\
  _recv CMD_GET_SERVO_POSITION (serial0 [[0x55; 0x55; 4; 0x0f; 0xe8; 0x1c]]) =
    (Ok None, set_rx [[0xe8; 0x1c]] (set_log [Read 4]
                (serial0 [[0x55; 0x55; 4; 0x0f; 0xe8; 0x1c]]))).
Proof.
  refine (conj eq_refl (conj eq_refl _)).
  exact (serial_recv_leaves_rejected_payload CMD_GET_SERVO_POSITION
           [0x55; 0x55; 4; 0x0f; 0xe8; 0x1c] []
           (serial0 [[0x55; 0x55; 4; 0x0f; 0xe8; 0x1c]]) eq_refl eq_refl
           ltac:(vm_compute; intros E; discriminate E) eq_refl).
Defined.

(** X8.  On the serial port, when fewer than four bytes arrive before the
    timeout, [_recv] raises [IndexError] if the bytes that came are all
    signature bytes as far as the first two go (in particular when nothing
    came), and returns [None] as soon as one of them is not. *)
Theorem serial_recv_short_reply (cmd : Z) (s : state) :
  _is_serial s = true ->
  len (hd [] (rx s)) < 4 ->
  fst (_recv cmd s) =
    if forallb (Z.eqb SIGNATURE) (firstn 2 (hd [] (rx s)))
    then Raise IndexError else Ok None.
Proof.
  intros Hs Hlen.
  unfold _recv, serial_read. munfold. rewrite Hs. munfold.
  destruct (rx s) as [|raw rest]; cbn [hd] in *; [reflexivity|].
  replace (len raw <? 4) with true by (symmetry; apply Z.ltb_lt; exact Hlen).
  munfold. unfold getitem.
  change (Z.to_nat 0) with 0%nat. change (Z.to_nat 1) with 1%nat.
  change (Z.to_nat 3) with 3%nat.
  destruct raw as [|a [|b [|c [|d tl]]]];
    try (unfold len in Hlen; cbn [List.length] in Hlen; lia);
    cbn [nth_error firstn forallb]; munfold;
    rewrite ?(Z.eqb_sym SIGNATURE);
    try (destruct (a =? SIGNATURE); munfold; [|reflexivity]);
    try (destruct (b =? SIGNATURE); munfold; [|reflexivity]);
    reflexivity.
Qed.

(** X8 at three bytes of a valid header. *)
Lemma serial_recv_short_reply_witness :
  _is_serial (serial0 [[0x55; 0x55; 4]]) = true /\
  len (hd [] (rx (serial0 [[0x55; 0x55; 4]]))) < 4 /\
  fst (_recv CMD_GET_BATTERY_VOLTAGE (serial0 [[0x55; 0x55; 4]])) = Raise IndexError.
Proof.
  refine (conj eq_refl (conj eq_refl _)).
  exact (serial_recv_short_reply CMD_GET_BATTERY_VOLTAGE
           (serial0 [[0x55; 0x55; 4]]) eq_refl eq_refl).
Defined.

(** ** Position queries *)

Lemma same_objects_refl (s : state) : same_objects s s.
Proof. split; reflexivity. Qed.

Lemma same_objects_trans (a b c : state) :
  same_objects a b -> same_objects b c -> same_objects a c.
Proof. intros [A1 A2] [B1 B2]. split; congruence. Qed.

Lemma send_same_objects (cmd : Z) (data : list Z) : keeps same_objects (_send cmd data).
Proof.
  intros s. destruct (send_untouched cmd data s) as (_ & H1 & H2 & _).
  split; assumption.
Qed.

Lemma recv_same_objects (cmd : Z) : keeps same_objects (_recv cmd).
Proof.
  intros s. destruct (recv_quiet cmd s) as (_ & H1 & H2 & _).
  split; assumption.
Qed.

Lemma upto_app (start : Z) (n m : nat) :
  upto start (n + m) = upto start n ++ upto (start + Z.of_nat n) m.
Proof.
  revert start. induction n as [|n IH]; intros start.
  - cbn [Nat.add upto app]. rewrite Z.add_0_r. reflexivity.
  - cbn [Nat.add upto app]. rewrite IH. do 3 f_equal. lia.
Qed.

Lemma bind_ext {A B} (m : M A) (f g : A -> M B) (s : state) :
  (forall a s1, f a s1 = g a s1) -> bind m f s = bind m g s.
Proof. intros H. unfold bind. destruct (m s) as [[a|e] s1]; [apply H | reflexivity]. Qed.

Lemma update_app (items : list pyval) (data : list Z) (l1 l2 : list Z) (s : state) :
  getPosition_update items data (l1 ++ l2) s =
  bind (getPosition_update items data l1)
       (fun _ => getPosition_update items data l2) s.
Proof.
  revert s. induction l1 as [|i l1 IH]; intros s; cbn [app getPosition_update].
  - reflexivity.
  - rewrite bind_assoc. apply bind_ext. intros hi s1.
    rewrite bind_assoc. apply bind_ext. intros lo s2.
    rewrite bind_assoc. apply bind_ext. intros servo s3.
    rewrite bind_assoc. apply bind_ext. intros _ s4. apply IH.
Qed.

Section Queries.
Variable p2a : Z -> float.

(** The part of [getPosition] that a list of servo objects and a reply
    with an accepted header determine: the frame goes out, the payload
    comes back, and the update loop is about to run. *)
Lemma getPosition_list_received (refs : list loc) (reply : list Z) (declared : Z)
    (rest : list (list Z)) (degrees : bool) (s : state) :
  Forall (fun r => is_byte (Servo.servo_id (heap s r)) = true) refs ->
  len refs <= 252 ->
  rx s = ([SIGNATURE; SIGNATURE; declared; CMD_GET_SERVO_POSITION] ++ reply) :: rest ->
  len reply <= declared ->
  (_is_serial s = false -> len reply <= 60) ->
  exists s2,
    heap s2 = heap s /\
    getPosition p2a (PList (map PServo refs)) degrees s =
      (count <- getitem reply 0 ;;
       getPosition_update (map PServo refs) reply (range 0 count) ;;;
       ret PNone) s2.
Proof.
  intros Hids Hn Hrx Hdecl Hhid.
  pose proof (len_nonneg refs) as Hn0.
  unfold getPosition. rewrite all_servos. unfold bytearray.
  replace (len (map PServo refs)) with (len refs)
    by (unfold len; rewrite length_map; reflexivity).
  assert (Hb : is_byte (len refs) = true) by (apply is_byte_iff; lia).
  erewrite bind_ok;
    [| erewrite bind_ok
         by (apply check_bytes_ok; cbn [forallb]; rewrite Hb; reflexivity);
       apply getPosition_ids_run; exact Hids].
  rewrite bind_ok with (a := tt)
    (s1 := set_log (log s ++ sent_events (_is_serial s) CMD_GET_SERVO_POSITION
                      ([len refs] ++ map (fun r => Servo.servo_id (heap s r)) refs))
             (if _is_serial s then s else set_usb_recv_event false s)).
  2: { apply send_ok; [reflexivity | |].
       - rewrite forallb_app, forall_bytes_map by exact Hids.
         cbn [forallb]. rewrite Hb. reflexivity.
       - unfold len in *. rewrite length_app, length_map.
         cbn [List.length]. lia. }
  match goal with |- context [bind (_recv _) _ ?st] => set (s1 := st) end.
  assert (Hrx1 : rx s1 = rx s) by (subst s1; destruct (_is_serial s); reflexivity).
  assert (Hh1 : heap s1 = heap s) by (subst s1; destruct (_is_serial s); reflexivity).
  assert (Hs1 : _is_serial s1 = _is_serial s)
    by (subst s1; destruct (_is_serial s) eqn:E; mred; rewrite ?E; reflexivity).
  rewrite Hrx in Hrx1.
  assert (Hraw : 4 <= len ([SIGNATURE; SIGNATURE; declared; CMD_GET_SERVO_POSITION] ++ reply)).
  { rewrite len_app. pose proof (len_nonneg reply). unfold len at 1.
    cbn [List.length]. lia. }
  pose proof (recv_result CMD_GET_SERVO_POSITION _ rest s1 Hrx1 Hraw) as Hr.
  pose proof (recv_quiet CMD_GET_SERVO_POSITION s1) as (_ & _ & Hq & _).
  assert (Hv : visible s1 ([SIGNATURE; SIGNATURE; declared; CMD_GET_SERVO_POSITION] ++ reply)
               = [SIGNATURE; SIGNATURE; declared; CMD_GET_SERVO_POSITION] ++ reply).
  { unfold visible. rewrite Hs1. destruct (_is_serial s); [reflexivity|].
    apply firstn_all2. specialize (Hhid eq_refl). rewrite length_app.
    cbn [List.length]. unfold len in Hhid. lia. }
  rewrite Hv in Hr. unfold header_ok in Hr. cbn [app nth skipn] in Hr.
  rewrite !Z.eqb_refl in Hr. cbn [andb] in Hr.
  rewrite firstn_all2 in Hr by (unfold len in Hdecl; lia).
  destruct (_recv CMD_GET_SERVO_POSITION s1) as [r s2] eqn:Hrecv.
  cbn [fst snd] in Hr, Hq.
  subst r. exists s2. split; [congruence|].
  erewrite bind_ok by exact Hrecv. reflexivity.
Qed.

(** X9.  [getPosition] on a list of distinct servo objects trusts the count
    byte of the reply: when the reply declares more entries than the list
    has, every object of the list is updated from the reply and then the
    call raises [IndexError], the updates staying in place. *)
Theorem getPosition_list_overlong_count (refs : list loc) (reply : list Z)
    (declared : Z) (rest : list (list Z)) (degrees : bool) (s : state) :
  NoDup refs ->
  Forall (fun r => is_byte (Servo.servo_id (heap s r)) = true) refs ->
  len refs <= 252 ->
  rx s = ([SIGNATURE; SIGNATURE; declared; CMD_GET_SERVO_POSITION] ++ reply) :: rest ->
  len reply <= declared ->
  (_is_serial s = false -> len reply <= 60) ->
  len refs < nth 0 reply 0 ->
  len refs * 3 + 3 < len reply ->
  fst (getPosition p2a (PList (map PServo refs)) degrees s) = Raise IndexError /\
  forall (i : nat) (r : loc),
    nth_error refs i = Some r ->
    heap (snd (getPosition p2a (PList (map PServo refs)) degrees s)) r =
      Servo.mk (Servo.servo_id (heap s r)) (reply_position reply (Z.of_nat i)).
Proof.
  intros Hnd Hids Hn Hrx Hdecl Hhid Hcount Hlen.
  pose proof (len_nonneg refs) as Hn0.
  destruct (getPosition_list_received refs reply declared rest degrees s
              Hids Hn Hrx Hdecl Hhid) as (s2 & Hh & Hrun).
  rewrite Hrun. clear Hrun.
  erewrite bind_ok by (apply getitem_ok with (d := 0); lia).
  change (Z.to_nat 0) with 0%nat.
  set (count := nth 0 reply 0) in *.
  assert (Hsplit : range 0 count =
                   upto 0 (List.length refs) ++
                   upto (len refs) (Z.to_nat count - List.length refs)).
  { unfold range. rewrite Z.sub_0_r.
    replace (Z.to_nat count)
      with (List.length refs + (Z.to_nat count - List.length refs))%nat at 1
      by (unfold len in *; lia).
    rewrite upto_app. reflexivity. }
  rewrite Hsplit.
  destruct (Z.to_nat count - List.length refs)%nat as [|more] eqn:Hmore;
    [unfold len in *; lia|].
  cbn [upto].
  assert (Hfirst : getPosition_update (map PServo refs) reply
                     (upto 0 (List.length refs)) s2 =
                   (Ok tt, set_heap (fold_left (assign refs reply)
                                       (upto 0 (List.length refs)) (heap s2)) s2)).
  { apply update_run. apply Forall_forall. intros i Hi.
    apply in_upto in Hi. unfold len in *. lia. }
  erewrite bind_raise.
  2: { rewrite update_app. erewrite bind_ok by exact Hfirst.
       cbn [getPosition_update].
       erewrite bind_ok by (apply getitem_ok with (d := 0); lia).
       erewrite bind_ok by (apply getitem_ok with (d := 0); lia).
       apply bind_raise. unfold getitem.
       replace (nth_error (map PServo refs) (Z.to_nat (len refs))) with (@None pyval);
         [reflexivity|].
       symmetry. apply nth_error_None. rewrite length_map. unfold len. lia. }
  cbn [fst snd heap set_heap]. split; [reflexivity|].
  intros i r Hi.
  rewrite (assign_all refs reply (heap s2) (List.length refs) Hnd (le_n _) i r Hi).
  replace (Nat.ltb i (List.length refs)) with true
    by (symmetry; apply Nat.ltb_lt; apply nth_error_Some; congruence).
  rewrite Hh. reflexivity.
Qed.

(** X10.  [getPosition] on one id that fits a byte, once a reply of at least
    four bytes is there: a rejected header raises the recv error; an accepted
    header with fewer than four payload bytes raises [IndexError]; otherwise
    the result is byte 3 times 256 plus byte 2 of the payload, converted to
    an angle when [degrees] is set.  The count and id bytes of the payload
    are not looked at. *)
Theorem getPosition_single_outcomes (i : Z) (degrees : bool) (raw : list Z)
    (rest : list (list Z)) (s : state) :
  is_byte i = true ->
  rx s = raw :: rest ->
  4 <= len raw ->
  (header_ok CMD_GET_SERVO_POSITION (visible s raw) = false ->
   fst (getPosition p2a (PInt i) degrees s) = Raise (Exception msg_recv_error)) /\
  (header_ok CMD_GET_SERVO_POSITION (visible s raw) = true ->
   len (received s raw) < 4 ->
   fst (getPosition p2a (PInt i) degrees s) = Raise IndexError) /\
  (header_ok CMD_GET_SERVO_POSITION (visible s raw) = true ->
   4 <= len (received s raw) ->
   fst (getPosition p2a (PInt i) degrees s) =
     Ok (if degrees
         then PFloat (p2a (nth 3 (received s raw) 0 * 256 + nth 2 (received s raw) 0))
         else PInt (nth 3 (received s raw) 0 * 256 + nth 2 (received s raw) 0))).
Proof.
  intros Hi Hrx Hlen.
  unfold getPosition, bytearray.
  erewrite bind_ok
    by (apply check_bytes_ok; cbn [forallb]; rewrite Hi; reflexivity).
  erewrite bind_ok.
  2: { apply send_ok; [reflexivity | cbn [forallb]; rewrite Hi; reflexivity
                      | vm_compute; intros E; discriminate E]. }
  match goal with |- context [bind (_recv _) _ ?st] => set (s1 := st) end.
  assert (Hrx1 : rx s1 = raw :: rest)
    by (subst s1; destruct (_is_serial s); exact Hrx).
  assert (Hs1 : _is_serial s1 = _is_serial s)
    by (subst s1; destruct (_is_serial s) eqn:E; mred; rewrite ?E; reflexivity).
  pose proof (recv_result CMD_GET_SERVO_POSITION raw rest s1 Hrx1 Hlen) as Hr.
  assert (Hv : visible s1 raw = visible s raw) by (unfold visible; rewrite Hs1; reflexivity).
  rewrite Hv in Hr. fold (received s raw) in Hr.
  destruct (_recv CMD_GET_SERVO_POSITION s1) as [r s2] eqn:Hrecv.
  cbn [fst] in Hr. subst r.
  erewrite bind_ok by exact Hrecv.
  destruct (header_ok CMD_GET_SERVO_POSITION (visible s raw)).
  - split; [discriminate|]. split; intros _ Hp.
    + unfold bind, getitem.
      replace (nth_error (received s raw) (Z.to_nat 3)) with (@None Z);
        [reflexivity|].
      symmetry. apply nth_error_None. unfold len in Hp. lia.
    + erewrite bind_ok by (apply getitem_ok with (d := 0); lia).
      erewrite bind_ok by (apply getitem_ok with (d := 0); lia).
      reflexivity.
  - split; [reflexivity|]. split; discriminate.
Qed.

Lemma getPosition_servo_as_id (r : loc) (degrees : bool) (s : state) :
  getPosition p2a (PServo r) degrees s =
  getPosition p2a (PInt (Servo.servo_id (heap s r))) degrees s.
Proof.
  unfold getPosition, bind, gets. cbv beta iota.
  destruct (bytearray [1; Servo.servo_id (heap s r)] s) as [[data|e] s0];
    reflexivity.
Qed.

Lemma getPosition_id_returns (i : Z) (degrees : bool) (raw : list Z)
    (rest : list (list Z)) (s : state) :
  is_byte i = true ->
  rx s = raw :: rest ->
  4 <= len raw ->
  header_ok CMD_GET_SERVO_POSITION (visible s raw) = true ->
  4 <= len (received s raw) ->
  fst (getPosition p2a (PInt i) degrees s) =
    Ok (if degrees
        then PFloat (p2a (nth 3 (received s raw) 0 * 256 + nth 2 (received s raw) 0))
        else PInt (nth 3 (received s raw) 0 * 256 + nth 2 (received s raw) 0)).
Proof.
  intros Hi Hrx Hlen Hh Hp.
  unfold getPosition, bytearray.
  erewrite bind_ok
    by (apply check_bytes_ok; cbn [forallb]; rewrite Hi; reflexivity).
  erewrite bind_ok.
  2: { apply send_ok; [reflexivity | cbn [forallb]; rewrite Hi; reflexivity
                      | vm_compute; intros E; discriminate E]. }
  match goal with |- context [bind (_recv _) _ ?st] => set (s1 := st) end.
  assert (Hrx1 : rx s1 = raw :: rest)
    by (subst s1; destruct (_is_serial s); exact Hrx).
  assert (Hs1 : _is_serial s1 = _is_serial s)
    by (subst s1; destruct (_is_serial s) eqn:E; mred; rewrite ?E; reflexivity).
  pose proof (recv_result CMD_GET_SERVO_POSITION raw rest s1 Hrx1 Hlen) as Hr.
  assert (Hv : visible s1 raw = visible s raw) by (unfold visible; rewrite Hs1; reflexivity).
  rewrite Hv, Hh in Hr. fold (received s raw) in Hr.
  destruct (_recv CMD_GET_SERVO_POSITION s1) as [res s2] eqn:Hrecv.
  cbn [fst] in Hr. cbv iota in Hr. subst res.
  erewrite bind_ok by exact Hrecv. cbv iota.
  erewrite bind_ok by (apply getitem_ok with (d := 0); lia).
  erewrite bind_ok by (apply getitem_ok with (d := 0); lia).
  reflexivity.
Qed.

Lemma getPosition_single_keeps (target : pyval) (degrees : bool) :
  (forall items, target <> PList items) ->
  keeps same_objects (getPosition p2a target degrees).
Proof.
  intros Hnl. unfold getPosition, bytearray.
  apply keeps_bind; [exact same_objects_trans | |intros data].
  { eapply keeps_builds with (Q := anything); [exact same_objects_refl|].
    destruct target; try apply builds_raise.
    - apply pure_check_bytes.
    - repeat pure_step.
    - exfalso. eapply Hnl. reflexivity. }
  apply keeps_bind; [exact same_objects_trans | apply send_same_objects | intros _].
  apply keeps_bind; [exact same_objects_trans | apply recv_same_objects |].
  intros [reply|].
  - eapply keeps_builds with (Q := anything); [exact same_objects_refl|].
    destruct target; try (exfalso; eapply Hnl; reflexivity); repeat pure_step.
  - intros s. apply same_objects_refl.
Qed.

(** X11.  [getPosition] on anything but a list never touches the servo
    objects or the cache, whether it returns or raises.  Asked about one
    servo object (with an id that fits a byte, and a reply with an accepted
    header and at least four payload bytes), it returns the position of the
    reply, byte 3 times 256 plus byte 2, and leaves the object as it was:
    the position is not stored in it. *)
Theorem getPosition_single_leaves_objects (target : pyval) (degrees : bool) :
  (forall items, target <> PList items) ->
  keeps same_objects (getPosition p2a target degrees) /\
  (forall (r : loc) (raw : list Z) (rest : list (list Z)) (s : state),
     target = PServo r ->
     is_byte (Servo.servo_id (heap s r)) = true ->
     rx s = raw :: rest ->
     4 <= len raw ->
     header_ok CMD_GET_SERVO_POSITION (visible s raw) = true ->
     4 <= len (received s raw) ->
     fst (getPosition p2a target degrees s) =
       Ok (if degrees
           then PFloat (p2a (nth 3 (received s raw) 0 * 256
                             + nth 2 (received s raw) 0))
           else PInt (nth 3 (received s raw) 0 * 256 + nth 2 (received s raw) 0)) /\
     heap (snd (getPosition p2a target degrees s)) r = heap s r).
Proof.
  intros Hnl. split; [exact (getPosition_single_keeps target degrees Hnl)|].
  intros r raw rest s -> Hid Hrx Hlen Hh Hp. split.
  - rewrite getPosition_servo_as_id.
    apply (getPosition_id_returns _ degrees raw rest s Hid Hrx Hlen Hh Hp).
  - destruct (getPosition_single_keeps (PServo r) degrees Hnl s) as [Hheap _].
    rewrite Hheap. reflexivity.
Qed.
End Queries.

(** X9 at a list of two objects and a reply that declares three entries. *)
Lemma getPosition_list_overlong_count_witness :
  NoDup [2%nat; 5%nat] /\
  fst (getPosition linear_position_to_angle (PList (map PServo [2%nat; 5%nat])) false
         (usb0 [[0x55; 0x55; 12; 0x15; 3; 2; 0xc8; 0x00; 5; 0xf4; 0x01; 6; 0x2c; 0x01]])) =
    Raise IndexError /\
  forall (i : nat) (r : loc),
    nth_error [2%nat; 5%nat] i = Some r ->
    heap (snd (getPosition linear_position_to_angle
                 (PList (map PServo [2%nat; 5%nat])) false
                 (usb0 [[0x55; 0x55; 12; 0x15; 3; 2; 0xc8; 0x00; 5; 0xf4; 0x01;
                         6; 0x2c; 0x01]]))) r =
      Servo.mk (Servo.servo_id (objects0 r))
        (reply_position [3; 2; 0xc8; 0x00; 5; 0xf4; 0x01; 6; 0x2c; 0x01] (Z.of_nat i)).
Proof.
  assert (Hnd : NoDup [2%nat; 5%nat]).
  { constructor; [intros [E|[]]; discriminate E|].
    constructor; [intros []|constructor]. }
  refine (conj Hnd _).
  apply (getPosition_list_overlong_count linear_position_to_angle
           [2%nat; 5%nat] [3; 2; 0xc8; 0x00; 5; 0xf4; 0x01; 6; 0x2c; 0x01] 12 [] false
           (usb0 [[0x55; 0x55; 12; 0x15; 3; 2; 0xc8; 0x00; 5; 0xf4; 0x01; 6; 0x2c; 0x01]])
           Hnd).
  - repeat constructor.
  - vm_compute. intros E. discriminate E.
  - reflexivity.
  - vm_compute. intros E. discriminate E.
  - intros _. vm_compute. intros E. discriminate E.
  - vm_compute. reflexivity.
  - vm_compute. reflexivity.
Defined.

(** X10 at servo 3: a whole reply, a reply one byte short, a battery reply. *)
Lemma getPosition_single_outcomes_witness :
  fst (getPosition linear_position_to_angle (PInt 3) false
         (serial0 [[0x55; 0x55; 5; 0x15; 1; 3; 0xf4; 0x01]])) = Ok (PInt 500) /\
  fst (getPosition linear_position_to_angle (PInt 3) false
         (serial0 [[0x55; 0x55; 5; 0x15; 1; 3; 0xf4]])) = Raise IndexError /\
  fst (getPosition linear_position_to_angle (PInt 3) false
         (serial0 [[0x55; 0x55; 4; 0x0f; 0xe8; 0x1c]])) = Raise (Exception msg_recv_error).
Proof.
  assert (Hb : is_byte 3 = true) by reflexivity.
  split; [|split].
  - destruct (getPosition_single_outcomes linear_position_to_angle 3 false
                [0x55; 0x55; 5; 0x15; 1; 3; 0xf4; 0x01] []
                (serial0 [[0x55; 0x55; 5; 0x15; 1; 3; 0xf4; 0x01]]) Hb eq_refl
                ltac:(vm_compute; intros E; discriminate E)) as (_ & _ & H).
    apply H; [reflexivity | vm_compute; intros E; discriminate E].
  - destruct (getPosition_single_outcomes linear_position_to_angle 3 false
                [0x55; 0x55; 5; 0x15; 1; 3; 0xf4] []
                (serial0 [[0x55; 0x55; 5; 0x15; 1; 3; 0xf4]]) Hb eq_refl
                ltac:(vm_compute; intros E; discriminate E)) as (_ & H & _).
    apply H; reflexivity.
  - destruct (getPosition_single_outcomes linear_position_to_angle 3 false
                [0x55; 0x55; 4; 0x0f; 0xe8; 0x1c] []
                (serial0 [[0x55; 0x55; 4; 0x0f; 0xe8; 0x1c]]) Hb eq_refl
                ltac:(vm_compute; intros E; discriminate E)) as (H & _ & _).
    apply H; reflexivity.
Defined.

(** X11 at servo object 3, whose position field is 0, and a reply that
    carries position 500. *)
Lemma getPosition_single_leaves_objects_witness :
  same_objects (serial0 [[0x55; 0x55; 5; 0x15; 1; 3; 0xf4; 0x01]])
    (snd (getPosition linear_position_to_angle (PServo 3%nat) false
            (serial0 [[0x55; 0x55; 5; 0x15; 1; 3; 0xf4; 0x01]]))) /\
  fst (getPosition linear_position_to_angle (PServo 3%nat) false
         (serial0 [[0x55; 0x55; 5; 0x15; 1; 3; 0xf4; 0x01]])) = Ok (PInt 500) /\
  heap (snd (getPosition linear_position_to_angle (PServo 3%nat) false
               (serial0 [[0x55; 0x55; 5; 0x15; 1; 3; 0xf4; 0x01]]))) 3%nat =
    Servo.mk 3 0.
Proof.
  destruct (getPosition_single_leaves_objects linear_position_to_angle (PServo 3%nat)
              false ltac:(intros items E; discriminate E)) as [H1 H2].
  split; [apply H1|].
  apply (H2 3%nat [0x55; 0x55; 5; 0x15; 1; 3; 0xf4; 0x01] []
            (serial0 [[0x55; 0x55; 5; 0x15; 1; 3; 0xf4; 0x01]]));
    try reflexivity; vm_compute; intros E; discriminate E.
Defined.

(** ** Moves *)

Lemma land_low (z : Z) : Z.land z 0xff = z mod 256.
Proof. change 0xff with (Z.ones 8). rewrite Z.land_ones by lia. reflexivity. Qed.

Lemma land_high (z : Z) : Z.shiftr (Z.land z 0xff00) 8 = (z / 256) mod 256.
Proof.
  rewrite Z.shiftr_land. change (Z.shiftr 0xff00 8) with 0xff.
  rewrite land_low, Z.shiftr_div_pow2 by lia. reflexivity.
Qed.

Lemma move_bytes_position (p : Z) :
  0 <= p < 65536 ->
  [Z.land p 0xff; Z.shiftr (Z.land p 0xff00) 8] = [p mod 256; p / 256].
Proof.
  intros Hp. rewrite land_low, land_high. do 2 f_equal.
  apply Z.mod_small. split; [apply Z.div_pos; lia | apply Z.div_lt_upper_bound; lia].
Qed.

Lemma move_header (duration : Z) (s : state) :
  bytearray [1; Z.land duration 0xff; Z.shiftr (Z.land duration 0xff00) 8] s =
    (Ok (move_payload 1 duration []), s).
Proof.
  unfold bytearray, move_payload. cbn [app]. apply check_bytes_ok. cbn [forallb].
  rewrite low_byte, high_byte. reflexivity.
Qed.

Lemma move_payload_bytes (count duration : Z) (triples : list Z) :
  is_byte count = true -> forallb is_byte triples = true ->
  forallb is_byte (move_payload count duration triples) = true.
Proof.
  intros Hc Ht. unfold move_payload. cbn [app forallb].
  rewrite Hc, low_byte, high_byte, Ht. reflexivity.
Qed.

Lemma move_payload_len (count duration : Z) (triples : list Z) :
  len (move_payload count duration triples) = 3 + len triples.
Proof. unfold move_payload. rewrite len_app. reflexivity. Qed.

Lemma position_range (p : Z) : (p <? 0) || (p >? 1000) = false <-> 0 <= p <= 1000.
Proof. rewrite orb_false_iff, Z.ltb_ge, Z.gtb_ltb, Z.ltb_ge. tauto. Qed.

Lemma builds_and {A} (m : M A) (P Q : A -> Prop) :
  builds m P -> builds m Q -> builds m (fun a => P a /\ Q a).
Proof.
  intros HP HQ s. destruct (HP s) as [Hs Hp]. destruct (HQ s) as [_ Hq].
  split; [exact Hs|]. intros a E. split; auto.
Qed.

Lemma sized_as_bytes (items : list pyval) :
  builds (as_bytes items) (fun bs => len bs = len items).
Proof.
  induction items as [|v items IH]; cbn [as_bytes].
  - apply builds_ret. reflexivity.
  - eapply builds_bind with (P := anything).
    + eapply builds_weaken; [apply builds_as_byte|]. intros; exact I.
    + intros b _. eapply builds_bind; [exact IH|]. intros bs Hbs.
      apply builds_ret. rewrite !len_cons, Hbs. reflexivity.
Qed.

Lemma sized_extend (data : list Z) (items : list pyval) :
  builds (extend data items) (fun d => len d = len data + len items).
Proof.
  unfold extend. eapply builds_bind; [apply sized_as_bytes|]. intros bs Hbs.
  apply builds_ret. rewrite len_app, Hbs. reflexivity.
Qed.

Lemma extend_triple (data : list Z) (i lo hi : Z) (s : state) :
  is_byte i = true -> is_byte lo = true -> is_byte hi = true ->
  extend data [PInt i; PInt lo; PInt hi] s = (Ok (data ++ [i; lo; hi]), s).
Proof.
  intros Hi Hlo Hhi. unfold extend. cbn [as_bytes]. unfold as_byte, as_int. munfold.
  rewrite Hi, Hlo, Hhi. reflexivity.
Qed.

Lemma low_bits_period (z k : Z) : Z.land (z + 65536 * k) 0xff = Z.land z 0xff.
Proof.
  rewrite !land_low. replace (z + 65536 * k) with (z + (256 * k) * 256) by lia.
  apply Z.mod_add. lia.
Qed.

Lemma high_bits_period (z k : Z) :
  Z.shiftr (Z.land (z + 65536 * k) 0xff00) 8 = Z.shiftr (Z.land z 0xff00) 8.
Proof.
  rewrite !land_high. replace (z + 65536 * k) with (z + (256 * k) * 256) by lia.
  rewrite Z.div_add by lia. replace (256 * k) with (k * 256) by lia.
  apply Z.mod_add. lia.
Qed.

Lemma move_bytes_ok (i p : Z) :
  is_byte i = true -> 0 <= p <= 1000 -> forallb is_byte (move_bytes i p) = true.
Proof.
  intros Hi Hp. unfold move_bytes. cbn [forallb]. rewrite Hi. cbn [andb].
  rewrite !andb_true_iff. repeat split; apply is_byte_iff.
  - pose proof (Z.mod_pos_bound p 256 ltac:(lia)). lia.
  - split; [apply Z.div_pos; lia|].
    assert (p / 256 < 256) by (apply Z.div_lt_upper_bound; lia). lia.
Qed.

Section Moves.
Variable a2p : float -> Z.

Lemma sized_setPosition_element (servo position : pyval) (data : list Z) :
  builds (setPosition_element a2p servo position data)
         (fun next => len (snd next) = len data + 3).
Proof.
  unfold setPosition_element.
  assert (Hobj : forall r,
    builds (o <- gets (fun s => heap s r) ;;
            data' <- extend data (servo_items o) ;; ret (position, data'))
           (fun next : pyval * list Z => len (snd next) = len data + 3)).
  { intros r. eapply builds_bind with (P := anything);
      [apply builds_gets; intros; exact I|].
    intros o _. eapply builds_bind; [apply sized_extend|]. intros d Hd.
    apply builds_ret. exact Hd. }
  assert (Hpair : forall servo',
    builds (n <- py_len servo' ;;
            is_pair <- (if n =? 2
                        then s0 <- py_index servo' 0 ;; ret (isinstance_int s0)
                        else ret false) ;;
            if is_pair then
              s1 <- py_index servo' 1 ;;
              position' <- match s1 with
                           | PInt p => check_position p ;;; ret (PInt p)
                           | PFloat f => check_angle f ;;; ret (PInt (a2p f))
                           | _ => ret position
                           end ;;
              s0 <- py_index servo' 0 ;;
              lo <- py_and position' 0xff ;;
              hi <- py_and position' 0xff00 ;;
              data' <- extend data [s0; PInt lo; PInt (Z.shiftr hi 8)] ;;
              ret (position', data')
            else raise (ValueError msg_list_not_valid))
           (fun next : pyval * list Z => len (snd next) = len data + 3)).
  { intros servo'.
    eapply builds_bind with (P := anything); [apply builds_py_len|]. intros n _.
    eapply builds_bind with (P := anything); [repeat pure_step|]. intros is_pair _.
    destruct is_pair; [|apply builds_raise].
    eapply builds_bind with (P := anything); [apply builds_py_index|]. intros s1 _.
    eapply builds_bind with (P := anything); [repeat pure_step|]. intros position' _.
    eapply builds_bind with (P := anything); [apply builds_py_index|]. intros s0 _.
    eapply builds_bind with (P := anything); [apply builds_py_and|]. intros lo _.
    eapply builds_bind with (P := anything); [apply builds_py_and|]. intros hi _.
    eapply builds_bind; [apply sized_extend|]. intros d Hd.
    apply builds_ret. exact Hd. }
  destruct servo; first [apply Hobj | apply Hpair].
Qed.

Lemma sized_setPosition_loop (items : list pyval) :
  forall (position : pyval) (data : list Z),
    builds (setPosition_loop a2p items position data)
           (fun d => len d = len data + 3 * len items).
Proof.
  induction items as [|servo rest IH]; intros position data; cbn [setPosition_loop].
  - apply builds_ret. unfold len at 3. cbn [List.length]. lia.
  - eapply builds_bind; [apply sized_setPosition_element|]. intros next Hn.
    eapply builds_weaken; [apply IH|]. intros d Hd. cbv beta in *.
    rewrite Hd, Hn, (len_cons servo rest). lia.
Qed.

(** X12.  A list of more than 83 elements cannot be moved in one call:
    whatever the elements are, [setPosition] does not return and nothing is
    written (84 triples make a payload of 255 bytes). *)
Theorem setPosition_list_limit (items : list pyval) (position : pyval)
    (duration : Z) (wait : bool) (s : state) :
  83 < len items ->
  fst (setPosition a2p (PList items) position duration wait s) <> Ok tt /\
  writes (log (snd (setPosition a2p (PList items) position duration wait s))) =
    writes (log s).
Proof.
  intros Hn. unfold setPosition.
  erewrite bind_ok by apply move_header.
  unfold move_payload. cbn [app].
  assert (Hb : builds
    (data <- setitem0 [1; Z.land duration 0xff; Z.shiftr (Z.land duration 0xff00) 8]
               (len items) ;;
     setPosition_loop a2p items position data)
    (fun d => all_bytes d /\ len d = 3 + 3 * len items)).
  { assert (H0 : all_bytes [1; Z.land duration 0xff; Z.shiftr (Z.land duration 0xff00) 8])
      by (unfold all_bytes; cbn [forallb]; rewrite low_byte, high_byte; reflexivity).
    apply builds_and.
    - eapply builds_bind; [apply builds_setitem0; exact H0|]. intros d Hd.
      apply builds_setPosition_loop. exact Hd.
    - eapply builds_bind with (P := fun d => len d = 3).
      + unfold setitem0.
        destruct (is_byte (len items)); [apply builds_ret; reflexivity | apply builds_raise].
      + intros d Hd. eapply builds_weaken; [apply sized_setPosition_loop|].
        intros d' Hd'. cbv beta in *. rewrite Hd', Hd. reflexivity. }
  destruct (Hb s) as [Hs Hv].
  match type of Hs with
  | snd (?m s) = s => destruct (m s) as [[d|e] s1] eqn:Hm
  end; cbn [fst snd] in Hs, Hv; subst s1.
  - destruct (Hv d eq_refl) as [Hd Hl].
    destruct (send_too_long CMD_SERVO_MOVE d s ltac:(lia)) as (s' & Hsend & Hw).
    erewrite bind_ok by exact Hm.
    erewrite bind_raise by exact Hsend. cbn [fst snd].
    split; [discriminate | exact Hw].
  - erewrite bind_raise by exact Hm. cbn [fst snd].
    split; [discriminate | reflexivity].
Qed.

Lemma send_move (data : list Z) (s : state) :
  forallb is_byte data = true -> len data <= 253 ->
  (_send CMD_SERVO_MOVE data ;;; ret tt) s =
    (Ok tt, set_log (log s ++ sent_events (_is_serial s) CMD_SERVO_MOVE data)
              (if _is_serial s then s else set_usb_recv_event false s)).
Proof.
  intros Hd Hl. erewrite bind_ok by (apply send_ok; [reflexivity | exact Hd | exact Hl]).
  reflexivity.
Qed.

(** X13.  [setPosition] on an id and an integer position: outside [0, 1000]
    it raises the position error and the state is untouched, whatever the id
    is; inside, for an id that fits a byte, it sends one move frame with
    count 1, the duration, the id and the position, low byte first. *)
Theorem setPosition_position_checked (i p duration : Z) (s : state) :
  (p < 0 \/ 1000 < p ->
   forall wait,
     setPosition a2p (PInt i) (PInt p) duration wait s =
       (Raise (ValueError msg_position_range), s)) /\
  (0 <= p <= 1000 -> is_byte i = true ->
   setPosition a2p (PInt i) (PInt p) duration false s =
     (Ok tt,
      set_log (log s ++ sent_events (_is_serial s) CMD_SERVO_MOVE
                          (move_payload 1 duration (move_bytes i p)))
        (if _is_serial s then s else set_usb_recv_event false s))).
Proof.
  split.
  - intros Hp wait. unfold setPosition.
    erewrite bind_ok by apply move_header.
    apply bind_raise. unfold check_position.
    replace ((p <? 0) || (p >? 1000)) with true; [reflexivity|].
    symmetry. apply orb_true_iff. rewrite Z.ltb_lt, Z.gtb_ltb, Z.ltb_lt. exact Hp.
  - intros Hp Hi. unfold setPosition.
    erewrite bind_ok by apply move_header.
    erewrite bind_ok.
    2: { unfold check_position. rewrite (proj2 (position_range p) Hp).
         munfold. cbn [py_and]. munfold. unfold move_payload. cbn [app].
         rewrite (extend_triple _ i _ _ s Hi (low_byte p) (high_byte p)).
         rewrite (move_bytes_position p) by lia. reflexivity. }
    apply send_move.
    + unfold move_payload. cbn [app forallb].
      rewrite low_byte, high_byte. apply (move_bytes_ok i p Hi Hp).
    + vm_compute. intros E. discriminate E.
Qed.

(** X14.  [setPosition] on an id and a float: below -125.0 or above 125.0 it
    raises the angle error and the state is untouched; from -125.0 to 125.0,
    for an id that fits a byte, it sends the low 16 bits of what the
    converter returns for the angle, low byte first. *)
Theorem setPosition_angle_checked (i : Z) (angle : float) (duration : Z) (s : state) :
  (PrimFloat.ltb angle (-125)%float = true \/ PrimFloat.ltb 125%float angle = true ->
   forall wait,
     setPosition a2p (PInt i) (PFloat angle) duration wait s =
       (Raise (ValueError msg_angle_range), s)) /\
  (PrimFloat.leb (-125)%float angle = true -> PrimFloat.leb angle 125%float = true ->
   is_byte i = true ->
   setPosition a2p (PInt i) (PFloat angle) duration false s =
     (Ok tt,
      set_log (log s ++ sent_events (_is_serial s) CMD_SERVO_MOVE
                          (move_payload 1 duration
                             [i; Z.land (a2p angle) 0xff;
                              Z.shiftr (Z.land (a2p angle) 0xff00) 8]))
        (if _is_serial s then s else set_usb_recv_event false s))).
Proof.
  split.
  - intros Hf wait. unfold setPosition.
    erewrite bind_ok by apply move_header.
    apply bind_raise. unfold check_angle.
    replace (PrimFloat.ltb angle (-125)%float || PrimFloat.ltb 125%float angle)
      with true by (symmetry; apply orb_true_iff; exact Hf).
    reflexivity.
  - intros Hlo Hhi Hi. unfold setPosition.
    erewrite bind_ok by apply move_header.
    erewrite bind_ok.
    2: { unfold check_angle.
         rewrite (leb_not_ltb _ _ Hlo), (leb_not_ltb _ _ Hhi).
         cbn [orb]. munfold. cbn [py_and]. munfold. unfold move_payload. cbn [app].
         rewrite (extend_triple _ i _ _ s Hi (low_byte _) (high_byte _)).
         reflexivity. }
    apply send_move.
    + unfold move_payload. cbn [app forallb].
      rewrite Hi, !low_byte, !high_byte. reflexivity.
    + vm_compute. intros E. discriminate E.
Qed.

(** X15.  A float is accepted as [servos] by the type test of [setPosition]
    but can never be sent: the call always raises and leaves the state
    untouched; with a valid integer position the error is the [TypeError] of
    [bytearray.extend]. *)
Theorem setPosition_float_id_refused (servo_id : float) (position : pyval)
    (duration : Z) (wait : bool) (s : state) :
  fst (setPosition a2p (PFloat servo_id) position duration wait s) <> Ok tt /\
  snd (setPosition a2p (PFloat servo_id) position duration wait s) = s /\
  (forall p, position = PInt p -> 0 <= p <= 1000 ->
     fst (setPosition a2p (PFloat servo_id) position duration wait s) = Raise TypeError).
Proof.
  unfold setPosition. erewrite bind_ok by apply move_header.
  assert (Hext : forall data lo hi,
            extend data [PFloat servo_id; PInt lo; PInt hi] s = (Raise TypeError, s))
    by reflexivity.
  destruct position as [|p|f|r|l|l].
  - erewrite bind_raise by reflexivity. cbn [fst snd].
    split; [discriminate|]. split; [reflexivity|]. intros p E. discriminate E.
  - unfold check_position. destruct ((p <? 0) || (p >? 1000)) eqn:Hp.
    + erewrite bind_raise by reflexivity. cbn [fst snd].
      split; [discriminate|]. split; [reflexivity|]. intros p' E Hr.
      injection E as <-. apply position_range in Hr. congruence.
    + erewrite bind_raise by (munfold; cbn [py_and]; munfold; apply Hext). cbn [fst snd].
      split; [discriminate|]. split; reflexivity.
  - unfold check_angle.
    destruct (PrimFloat.ltb f (-125)%float || PrimFloat.ltb 125%float f).
    + erewrite bind_raise by reflexivity. cbn [fst snd].
      split; [discriminate|]. split; [reflexivity|]. intros p E. discriminate E.
    + erewrite bind_raise by (munfold; cbn [py_and]; munfold; apply Hext). cbn [fst snd].
      split; [discriminate|]. split; [reflexivity|]. intros p E. discriminate E.
  - erewrite bind_raise by reflexivity. cbn [fst snd].
    split; [discriminate|]. split; [reflexivity|]. intros p E. discriminate E.
  - erewrite bind_raise by reflexivity. cbn [fst snd].
    split; [discriminate|]. split; [reflexivity|]. intros p E. discriminate E.
  - erewrite bind_raise by reflexivity. cbn [fst snd].
    split; [discriminate|]. split; [reflexivity|]. intros p E. discriminate E.
Qed.

Lemma sleep_overflows_ms (duration : Z) :
  sleep_overflows (QArith_base.Qmake duration 1000) =
    (duration <? - sleep_limit_ms) || (sleep_limit_ms <? duration).
Proof.
  unfold sleep_overflows, sleep_limit_ms. cbn [QArith_base.Qnum QArith_base.Qden].
  cbv zeta.
  destruct (Z.ltb_spec (duration * 1000000000) (- (9223372036854775808 * 1000)));
    destruct (Z.leb_spec (9223372036854775808 * 1000) (duration * 1000000000));
    destruct (Z.ltb_spec duration (- 9223372036854));
    destruct (Z.ltb_spec 9223372036854 duration);
    try reflexivity; lia.
Qed.

(** X16.  [wait=True] adds one thing to a successful [setPosition]: the call
    [time.sleep(duration/1000)] after the frame has been written.  The frame
    is written whatever the duration is; the call then raises
    [OverflowError] when the duration is beyond [sleep_limit_ms] on either
    side of zero, raises the [ValueError] of [time.sleep] when it is negative
    within that limit, and sleeps and returns when it is from 0 to
    [sleep_safe_ms]. *)
Theorem setPosition_wait_sleeps_after_frame (servos position : pyval)
    (duration : Z) (s s1 : state) :
  setPosition a2p servos position duration false s = (Ok tt, s1) ->
  (duration < - sleep_limit_ms \/ sleep_limit_ms < duration ->
   setPosition a2p servos position duration true s = (Raise OverflowError, s1)) /\
  (- sleep_limit_ms <= duration < 0 ->
   setPosition a2p servos position duration true s =
     (Raise (ValueError msg_sleep_negative), s1)) /\
  (0 <= duration <= sleep_safe_ms ->
   setPosition a2p servos position duration true s =
     (Ok tt, set_log (log s1 ++ [Sleep (QArith_base.Qmake duration 1000)]) s1)).
Proof.
  unfold setPosition, bind.
  destruct (bytearray _ s) as [[data|e] s0]; [|discriminate].
  match goal with
  | |- context [match ?m s0 with _ => _ end] => destruct (m s0) as [[data'|e] s2]
  end; [|discriminate].
  destruct (_send CMD_SERVO_MOVE data' s2) as [[[]|e] s3]; [|discriminate].
  unfold ret. intros H. injection H as <-.
  unfold time_sleep. rewrite sleep_overflows_ms. cbn [QArith_base.Qnum].
  split; [|split]; intros Hd;
    destruct (Z.ltb_spec duration (- sleep_limit_ms));
    destruct (Z.ltb_spec sleep_limit_ms duration);
    destruct (Z.ltb_spec duration 0);
    cbn [orb]; try reflexivity;
    unfold sleep_limit_ms, sleep_safe_ms in *; lia.
Qed.

(** X17.  Only the low 16 bits of [duration] reach the frame, with no range
    check: durations that differ by a multiple of 65536 give the same call
    (when the caller does not wait). *)
Theorem setPosition_duration_16_bits (servos position : pyval) (duration k : Z)
    (s : state) :
  setPosition a2p servos position (duration + 65536 * k) false s =
  setPosition a2p servos position duration false s.
Proof.
  unfold setPosition. rewrite low_bits_period, high_bits_period. reflexivity.
Qed.

Lemma setPosition_element_pair (m : Z * Z) (position : pyval) (data : list Z)
    (s : state) :
  is_byte (fst m) = true -> 0 <= snd m <= 1000 ->
  setPosition_element a2p (move_pair m) position data s =
    (Ok (PInt (snd m), data ++ move_bytes (fst m) (snd m)), s).
Proof.
  destruct m as [i p]. cbn [fst snd]. intros Hi Hp.
  unfold setPosition_element, move_pair. cbn [py_len py_index].
  unfold getitem. change (Z.to_nat 0) with 0%nat. change (Z.to_nat 1) with 1%nat.
  cbn [nth_error].
  munfold. change (len [PInt i; PInt p] =? 2) with true. munfold.
  cbn [isinstance_int]. munfold. unfold check_position.
  rewrite (proj2 (position_range p) Hp). munfold. cbn [py_and]. munfold.
  rewrite (extend_triple _ i _ _ s Hi (low_byte p) (high_byte p)).
  unfold move_bytes. change [i; p mod 256; p / 256] with ([i] ++ [p mod 256; p / 256]).
  rewrite <- (move_bytes_position p) by lia. reflexivity.
Qed.

Lemma setPosition_loop_pairs (moves : list (Z * Z)) (s : state) :
  Forall (fun m => is_byte (fst m) = true /\ 0 <= snd m <= 1000) moves ->
  forall (position : pyval) (data : list Z),
    setPosition_loop a2p (map move_pair moves) position data s =
      (Ok (data ++ flat_map (fun m => move_bytes (fst m) (snd m)) moves), s).
Proof.
  induction 1 as [|m moves [Hi Hp] _ IH]; intros position data;
    cbn [map flat_map setPosition_loop].
  - rewrite app_nil_r. reflexivity.
  - erewrite bind_ok by (apply setPosition_element_pair; assumption).
    cbn [fst snd]. rewrite IH, <- app_assoc. reflexivity.
Qed.

Lemma pairs_bytes (moves : list (Z * Z)) :
  Forall (fun m => is_byte (fst m) = true /\ 0 <= snd m <= 1000) moves ->
  forallb is_byte (flat_map (fun m => move_bytes (fst m) (snd m)) moves) = true /\
  len (flat_map (fun m => move_bytes (fst m) (snd m)) moves) = 3 * len moves.
Proof.
  induction 1 as [|m moves [Hi Hp] _ [IH1 IH2]]; [split; reflexivity|].
  cbn [flat_map]. rewrite forallb_app, (move_bytes_ok _ _ Hi Hp), IH1, len_app, IH2.
  rewrite (len_cons m moves). split; [reflexivity|].
  unfold move_bytes, len. cbn [List.length]. lia.
Qed.

(** X18.  [setPosition] on a list of up to 83 pairs [(id, position)], ids that
    fit a byte and positions in [0, 1000]: one move frame, the count byte the
    length of the list, then one triple per pair in list order, position low
    byte first; the [position] argument plays no part. *)
Theorem setPosition_pairs_in_order (moves : list (Z * Z)) (position : pyval)
    (duration : Z) (s : state) :
  Forall (fun m => is_byte (fst m) = true /\ 0 <= snd m <= 1000) moves ->
  len moves <= 83 ->
  setPosition a2p (PList (map move_pair moves)) position duration false s =
    (Ok tt,
     set_log (log s ++ sent_events (_is_serial s) CMD_SERVO_MOVE
                         (move_payload (len moves) duration
                            (flat_map (fun m => move_bytes (fst m) (snd m)) moves)))
       (if _is_serial s then s else set_usb_recv_event false s)).
Proof.
  intros Hm Hn. pose proof (len_nonneg moves) as Hn0.
  destruct (pairs_bytes moves Hm) as [Hb Hl].
  assert (Hc : is_byte (len moves) = true) by (apply is_byte_iff; lia).
  unfold setPosition. erewrite bind_ok by apply move_header.
  erewrite bind_ok.
  2: { unfold move_payload, setitem0. cbn [app].
       replace (len (map move_pair moves)) with (len moves)
         by (unfold len; rewrite length_map; reflexivity).
       rewrite Hc. erewrite bind_ok by reflexivity.
       apply setPosition_loop_pairs. exact Hm. }
  apply send_move.
  - apply (move_payload_bytes (len moves) duration _ Hc Hb).
  - rewrite (move_payload_len (len moves) duration), Hl. lia.
Qed.
End Moves.

(** X12 at a list of 84 servo objects. *)
Lemma setPosition_list_limit_witness :
  83 < len (map PServo (repeat 1%nat 84)) /\
  fst (setPosition linear_angle_to_position (PList (map PServo (repeat 1%nat 84)))
         PNone 1000 false (serial0 [])) <> Ok tt /\
  writes (log (snd (setPosition linear_angle_to_position
                      (PList (map PServo (repeat 1%nat 84))) PNone 1000 false
                      (serial0 [])))) = [].
Proof.
  assert (H : 83 < len (map PServo (repeat 1%nat 84))) by (vm_compute; reflexivity).
  exact (conj H (setPosition_list_limit linear_angle_to_position
                   (map PServo (repeat 1%nat 84)) PNone 1000 false (serial0 []) H)).
Defined.

(** X13 at servo 2: position 1001 refused, position 600 sent. *)
Lemma setPosition_position_checked_witness :
  setPosition linear_angle_to_position (PInt 2) (PInt 1001) 1000 true (usb0 []) =
    (Raise (ValueError msg_position_range), usb0 []) /\
  setPosition linear_angle_to_position (PInt 2) (PInt 600) 1000 false (usb0 []) =
    (Ok tt, set_log [Write [0; 0x55; 0x55; 8; 3; 1; 0xe8; 0x03; 2; 0x58; 0x02]]
              (usb0 [])).
Proof.
  destruct (setPosition_position_checked linear_angle_to_position 2 1001 1000 (usb0 []))
    as [H1 _].
  destruct (setPosition_position_checked linear_angle_to_position 2 600 1000 (usb0 []))
    as [_ H2].
  split.
  - apply H1. right. vm_compute. reflexivity.
  - apply H2; [split; vm_compute; intros E; discriminate E | reflexivity].
Defined.

(** X14 at servo 2: 125.5 degrees refused, 25 degrees sent as position 600. *)
Lemma setPosition_angle_checked_witness :
  setPosition linear_angle_to_position (PInt 2) (PFloat 125.5%float) 1000 true (usb0 []) =
    (Raise (ValueError msg_angle_range), usb0 []) /\
  setPosition linear_angle_to_position (PInt 2) (PFloat 25%float) 1000 false (usb0 []) =
    (Ok tt, set_log [Write [0; 0x55; 0x55; 8; 3; 1; 0xe8; 0x03; 2; 0x58; 0x02]]
              (usb0 [])).
Proof.
  destruct (setPosition_angle_checked linear_angle_to_position 2 125.5%float 1000 (usb0 []))
    as [H1 _].
  destruct (setPosition_angle_checked linear_angle_to_position 2 25%float 1000 (usb0 []))
    as [_ H2].
  split.
  - apply H1. right. reflexivity.
  - apply H2; reflexivity.
Defined.

(** X15 at id 2.0 and position 600. *)
Lemma setPosition_float_id_refused_witness :
  fst (setPosition linear_angle_to_position (PFloat 2%float) (PInt 600) 1000 false
         (serial0 [])) = Raise TypeError.
Proof.
  destruct (setPosition_float_id_refused linear_angle_to_position 2%float (PInt 600)
              1000 false (serial0 [])) as (_ & _ & H).
  apply (H 600); [reflexivity | split; vm_compute; intros E; discriminate E].
Defined.

(** X16 at durations 2^64, -1 and 1000: the frame goes out, then the error or
    the sleep. *)
Lemma setPosition_wait_sleeps_after_frame_witness :
  setPosition linear_angle_to_position (PInt 2) (PInt 600) 18446744073709551616 true
    (serial0 []) =
    (Raise OverflowError,
     set_log [Flush; Write [0x55; 0x55; 8; 3]; Write [1; 0; 0; 2; 0x58; 0x02]]
       (serial0 [])) /\
  setPosition linear_angle_to_position (PInt 2) (PInt 600) (-1) true (serial0 []) =
    (Raise (ValueError msg_sleep_negative),
     set_log [Flush; Write [0x55; 0x55; 8; 3]; Write [1; 0xff; 0xff; 2; 0x58; 0x02]]
       (serial0 [])) /\
  setPosition linear_angle_to_position (PInt 2) (PInt 600) 1000 true (serial0 []) =
    (Ok tt,
     set_log [Flush; Write [0x55; 0x55; 8; 3]; Write [1; 0xe8; 0x03; 2; 0x58; 0x02];
              Sleep (QArith_base.Qmake 1000 1000)]
       (serial0 [])).
Proof.
  split; [|split].
  - refine (proj1 (setPosition_wait_sleeps_after_frame linear_angle_to_position
                     (PInt 2) (PInt 600) 18446744073709551616 (serial0 []) _ eq_refl) _).
    right. reflexivity.
  - refine (proj1 (proj2 (setPosition_wait_sleeps_after_frame linear_angle_to_position
                            (PInt 2) (PInt 600) (-1) (serial0 []) _ eq_refl)) _).
    split; [intros E; discriminate E | reflexivity].
  - refine (proj2 (proj2 (setPosition_wait_sleeps_after_frame linear_angle_to_position
                            (PInt 2) (PInt 600) 1000 (serial0 []) _ eq_refl)) _).
    split; intros E; discriminate E.
Defined.

(** X18 at servo 1 to 500 and servo 2 to 600. *)
Lemma setPosition_pairs_in_order_witness :
  setPosition linear_angle_to_position (PList (map move_pair [(1, 500); (2, 600)]))
    PNone 1000 false (usb0 []) =
    (Ok tt,
     set_log [Write [0; 0x55; 0x55; 11; 3; 2; 0xe8; 0x03; 1; 0xf4; 0x01; 2; 0x58; 0x02]]
       (usb0 [])).
Proof.
  apply (setPosition_pairs_in_order linear_angle_to_position [(1, 500); (2, 600)]
           PNone 1000 (usb0 [])).
  - repeat constructor; cbn [snd]; vm_compute; intros E; discriminate E.
  - vm_compute. intros E. discriminate E.
Defined.

(** ** Stops, the identity write and the battery poll *)

Lemma append_ok (data : list Z) (item : Z) (s : state) :
  is_byte item = true -> append data item s = (Ok (data ++ [item]), s).
Proof.
  intros Hi. unfold append.
  erewrite bind_ok by (apply check_bytes_ok; cbn [forallb]; rewrite Hi; reflexivity).
  reflexivity.
Qed.

Lemma stop_ids_len (h : loc -> Servo.t) (items : list pyval) :
  len (stop_ids h items) <= len items.
Proof.
  induction items as [|v items IH]; [unfold len; cbn; lia|].
  unfold stop_ids in *. cbn [flat_map]. rewrite len_app, (len_cons v items).
  destruct v; unfold len at 1; cbn [List.length]; lia.
Qed.

Lemma servoOff_loop_run (items : list pyval) (s : state) :
  forallb is_byte (stop_ids (heap s) items) = true ->
  forall data,
    servoOff_loop items data s = (Ok (data ++ stop_ids (heap s) items), s).
Proof.
  induction items as [|v items IH]; intros Hb data.
  - cbn [servoOff_loop stop_ids flat_map]. rewrite app_nil_r. reflexivity.
  - unfold stop_ids in *. cbn [flat_map] in *. rewrite forallb_app in Hb.
    apply andb_true_iff in Hb. destruct Hb as [Hv Hrest].
    destruct v; cbn [servoOff_loop app]; try (apply IH; exact Hrest).
    + cbn [forallb] in Hv. rewrite andb_true_r in Hv.
      erewrite bind_ok by (apply append_ok; exact Hv).
      rewrite IH by exact Hrest. rewrite <- app_assoc. reflexivity.
    + cbn [forallb] in Hv. rewrite andb_true_r in Hv.
      erewrite bind_ok by reflexivity.
      erewrite bind_ok by (apply append_ok; exact Hv).
      rewrite IH by exact Hrest. rewrite <- app_assoc. reflexivity.
Qed.

Lemma servoOff_list_run (items : list pyval) (s : state) :
  forallb is_byte (stop_ids (heap s) items) = true ->
  len items <= 252 ->
  servoOff (PList items) s =
    (Ok tt,
     set_log (log s ++ sent_events (_is_serial s) CMD_SERVO_STOP
                         (len items :: stop_ids (heap s) items))
       (if _is_serial s then s else set_usb_recv_event false s)).
Proof.
  intros Hb Hn. pose proof (len_nonneg items) as Hn0.
  assert (Hc : is_byte (len items) = true) by (apply is_byte_iff; lia).
  unfold servoOff, bytearray.
  erewrite bind_ok by (apply check_bytes_ok; reflexivity).
  erewrite bind_ok.
  2: { unfold setitem0. rewrite Hc. erewrite bind_ok by reflexivity.
       apply servoOff_loop_run. exact Hb. }
  cbn [app]. apply send_ok; [reflexivity | |].
  - cbn [forallb]. rewrite Hc, Hb. reflexivity.
  - rewrite len_cons. pose proof (stop_ids_len (heap s) items). lia.
Qed.

(** X19.  [servoOff] on a list: the count byte is the length of the list, but
    only integers and servo objects contribute an id; an element of another
    type is passed over without an error, so the frame then declares more
    ids than it carries. *)
Theorem servoOff_list_counts_every_element (items : list pyval) (s : state) :
  forallb is_byte (stop_ids (heap s) items) = true ->
  len items <= 252 ->
  servoOff (PList items) s =
    (Ok tt,
     set_log (log s ++ sent_events (_is_serial s) CMD_SERVO_STOP
                         (len items :: stop_ids (heap s) items))
       (if _is_serial s then s else set_usb_recv_event false s)) /\
  (Exists (fun v => isinstance_int v = false /\ isinstance_Servo v = false) items ->
   len (stop_ids (heap s) items) < len items).
Proof.
  intros Hb Hn. split; [exact (servoOff_list_run items s Hb Hn)|].
  clear. induction 1 as [v items [Hi Hs]|v items _ IH].
  - unfold stop_ids. cbn [flat_map]. rewrite len_app, (len_cons v items).
    pose proof (stop_ids_len (heap s) items) as Hl. unfold stop_ids in Hl.
    destruct v; try discriminate; unfold len at 1; cbn [List.length]; lia.
  - unfold stop_ids in *. cbn [flat_map]. rewrite len_app, (len_cons v items).
    destruct v; unfold len at 1; cbn [List.length]; lia.
Qed.

(** X20.  [servoOff()] without argument is [servoOff([1, 2, 3, 4, 5, 6])]: it
    does not look at the cache of discovered ids. *)
Theorem servoOff_default_is_one_to_six (s : state) :
  servoOff PNone s = servoOff (PList (map PInt (range 1 7))) s.
Proof.
  rewrite (servoOff_list_run (map PInt (range 1 7)) s eq_refl
             ltac:(vm_compute; intros E; discriminate E)).
  unfold servoOff, bytearray.
  erewrite bind_ok by (apply check_bytes_ok; reflexivity).
  erewrite bind_ok by reflexivity.
  apply send_ok; [reflexivity | reflexivity | vm_compute; intros E; discriminate E].
Qed.

Section Identity.
Variable p2a : Z -> float.

(** X21.  [writeServoId] without [overwrite_all_servo_ids], for a new id from
    1 to 255: the ids 1 to 6 are probed afresh, the cache becomes what was
    found, and the identity frame is written exactly when one servo was
    found; none found raises the no-servos error, more than one the
    more-than-one error, after the probes and with no identity frame. *)
Theorem writeServoId_needs_exactly_one (new_servo_id : Z) (s : state) :
  1 <= new_servo_id <= 255 ->
  exists found s2,
    discovery (probe p2a) (range 1 7) s found s2 /\
    servos (snd (writeServoId p2a new_servo_id false s)) = found /\
    fst (writeServoId p2a new_servo_id false s) =
      match found with
      | [] => Raise (ValueError msg_no_servos)
      | [_] => Ok tt
      | _ => Raise (ValueError msg_more_than_one)
      end /\
    writes (log (snd (writeServoId p2a new_servo_id false s))) =
      writes (log s) ++ probes_written (_is_serial s) (range 1 7) ++
      match found with
      | [_] => writes (id_write_events (_is_serial s) new_servo_id)
      | _ => []
      end.
Proof.
  intros Hid.
  destruct (discovery_six p2a s) as (found & s2 & Hd & Hl & Hw).
  destruct (discovery_effect p2a _ _ _ _ Hd) as [Hser _].
  exists found, s2. split; [exact Hd|].
  rewrite (writeServoId_guarded p2a _ _ _ _ Hl). cbn [servos set_servos].
  cbn [guard_writes] in Hw.
  destruct found as [|i [|j more]].
  - cbn [fst snd servos set_servos log]. rewrite app_nil_r.
    repeat split; try reflexivity. exact Hw.
  - change (len [i] =? 0) with false. change (len [i] >? 1) with false.
    replace (new_servo_id =? 0) with false by (symmetry; apply Z.eqb_neq; lia).
    rewrite send_id_ok by (apply is_byte_iff; lia).
    cbn [fst snd]. split; [|split; [reflexivity|]].
    + destruct (_is_serial (set_servos [i] s2)); reflexivity.
    + assert (E : _is_serial (set_servos [i] s2) = _is_serial s) by exact Hser.
      rewrite E. mred. rewrite writes_app, Hw, <- app_assoc. reflexivity.
  - replace (len (i :: j :: more) =? 0) with false
      by (symmetry; apply Z.eqb_neq; rewrite !len_cons;
          pose proof (len_nonneg more); lia).
    replace (len (i :: j :: more) >? 1) with true
      by (symmetry; rewrite Z.gtb_ltb; apply Z.ltb_lt; rewrite !len_cons;
          pose proof (len_nonneg more); lia).
    cbn [fst snd servos set_servos log]. rewrite app_nil_r.
    repeat split; try reflexivity. exact Hw.
Qed.
End Identity.

(** One attempt of the battery poll on the HID device that finds a report too
    short to hold a header: the query is written, the report is taken, and
    the poll sleeps a second. *)
Lemma battery_attempt_hid_missed (report : list Z) (rest : list (list Z)) (s : state) :
  _is_serial s = false -> rx s = report :: rest -> len report < 4 ->
  forall n,
  exists s1,
    getBatteryVoltage_loop (S n) s = getBatteryVoltage_loop n s1 /\
    _is_serial s1 = false /\ rx s1 = rest /\ log s1 = log s ++ battery_attempt.
Proof.
  intros Hs Hrx Hl n. cbn [getBatteryVoltage_loop].
  erewrite bind_ok
    by (apply send_ok; [reflexivity | reflexivity | vm_compute; intros E; discriminate E]).
  rewrite Hs. unfold _recv, hid_read. munfold. rewrite Hs. munfold.
  rewrite Hrx. munfold. change (Z.to_nat 64) with 64%nat.
  replace (len (firstn 64 report) <? 4) with true.
  2: { symmetry. apply Z.ltb_lt. unfold len in *. rewrite length_firstn. lia. }
  munfold. unfold time_sleep. change (sleep_overflows (QArith_base.Qmake 1 1)) with false.
  cbn [QArith_base.Qnum Z.ltb Z.compare]. munfold.
  eexists. split; [reflexivity|]. mred.
  unfold sent_events, battery_attempt. rewrite <- !app_assoc.
  repeat split; first [reflexivity | assumption].
Qed.

Lemma battery_loop_missed (missed : list (list Z)) :
  Forall (fun report => len report < 4) missed ->
  forall (tail : list (list Z)) (n : nat) (s : state),
    _is_serial s = false -> rx s = missed ++ tail ->
    exists s1,
      getBatteryVoltage_loop (List.length missed + n) s = getBatteryVoltage_loop n s1 /\
      _is_serial s1 = false /\ rx s1 = tail /\
      log s1 = log s ++ concat (repeat battery_attempt (List.length missed)).
Proof.
  induction 1 as [|report missed Hr _ IH]; intros tail n s Hs Hrx.
  - exists s. cbn [List.length Nat.add repeat concat]. rewrite app_nil_r.
    repeat split; assumption.
  - cbn [List.length Nat.add]. cbn [app] in Hrx.
    destruct (battery_attempt_hid_missed report (missed ++ tail) s Hs Hrx Hr
                (List.length missed + n)) as (s1 & E1 & Hs1 & Hrx1 & Hl1).
    destruct (IH tail n s1 Hs1 Hrx1) as (s2 & E2 & Hs2 & Hrx2 & Hl2).
    exists s2. rewrite E1, E2. repeat split; try assumption.
    rewrite Hl2, Hl1. cbn [repeat concat]. rewrite <- !app_assoc. reflexivity.
Qed.

(** X22.  On the HID device, when reports too short to hold a header come
    before the battery reply: with up to four of them, every one costs an
    attempt and a sleep of one second and the voltage of the reply is
    returned; with five or more, the poll gives up after five attempts and
    returns 0.0, the reply never read. *)
Theorem getBatteryVoltage_hid_retries (missed : list (list Z)) (lo hi : Z)
    (rest : list (list Z)) (s : state) :
  _is_serial s = false ->
  Forall (fun report => len report < 4) missed ->
  rx s = missed ++ [SIGNATURE; SIGNATURE; 4; CMD_GET_BATTERY_VOLTAGE; lo; hi] :: rest ->
  (len missed <= 4 ->
   fst (getBatteryVoltage s) =
     Ok (PrimFloat.div (float_of_int (hi * 256 + lo)) 1000%float) /\
   log (snd (getBatteryVoltage s)) =
     log s ++ concat (repeat battery_attempt (List.length missed)) ++
     [Write [0; SIGNATURE; SIGNATURE; 2; CMD_GET_BATTERY_VOLTAGE]; Read 64]) /\
  (5 <= len missed ->
   fst (getBatteryVoltage s) = Ok 0%float /\
   log (snd (getBatteryVoltage s)) = log s ++ concat (repeat battery_attempt 5)).
Proof.
  intros Hs Hm Hrx. unfold getBatteryVoltage. split; intros Hn.
  - destruct (battery_loop_missed missed Hm _ (5 - List.length missed)%nat s Hs Hrx)
      as (s1 & E & Hs1 & Hrx1 & Hl1).
    replace (List.length missed + (5 - List.length missed))%nat with 5%nat in E
      by (unfold len in Hn; lia).
    rewrite E.
    destruct (5 - List.length missed)%nat as [|n] eqn:Hk; [unfold len in Hn; lia|].
    cbn [getBatteryVoltage_loop].
    erewrite bind_ok
      by (apply send_ok; [reflexivity | reflexivity | vm_compute; intros E'; discriminate E']).
    rewrite Hs1. unfold _recv, hid_read. munfold. rewrite Hs1. munfold.
    rewrite Hrx1. munfold. unfold getitem. cbn. rewrite Hl1.
    unfold sent_events. rewrite <- !app_assoc. split; reflexivity.
  - assert (Hsplit : missed = firstn 5 missed ++ skipn 5 missed)
      by (symmetry; apply firstn_skipn).
    assert (Hlen5 : List.length (firstn 5 missed) = 5%nat)
      by (rewrite length_firstn; unfold len in Hn; lia).
    rewrite Hsplit, <- app_assoc in Hrx.
    assert (Hm5 : Forall (fun report => len report < 4) (firstn 5 missed)).
    { apply Forall_forall. intros r Hr.
      apply (proj1 (Forall_forall _ _) Hm). rewrite Hsplit.
      apply in_or_app. left. exact Hr. }
    destruct (battery_loop_missed (firstn 5 missed) Hm5 _ 0%nat s Hs Hrx)
      as (s1 & E & Hs1 & Hrx1 & Hl1).
    rewrite Hlen5 in E, Hl1. cbn [Nat.add] in E.
    rewrite E. cbn [getBatteryVoltage_loop]. unfold ret. cbn [fst snd].
    split; [reflexivity | exact Hl1].
Qed.

(** X23.  A battery reply with a valid header and a single payload byte makes
    [getBatteryVoltage] raise [IndexError] at the first attempt, on either
    transport: the retry loop guards against an empty payload only. *)
Theorem getBatteryVoltage_one_byte_reply (declared lo : Z) (rest : list (list Z))
    (s : state) :
  1 <= declared ->
  rx s = [SIGNATURE; SIGNATURE; declared; CMD_GET_BATTERY_VOLTAGE; lo] :: rest ->
  fst (getBatteryVoltage s) = Raise IndexError.
Proof.
  intros Hd Hrx. unfold getBatteryVoltage. cbn [getBatteryVoltage_loop].
  erewrite bind_ok
    by (apply send_ok; [reflexivity | reflexivity | vm_compute; intros E; discriminate E]).
  match goal with |- context [bind (_recv _) _ ?st] => set (s1 := st) end.
  assert (Hrx1 : rx s1 = rx s) by (subst s1; destruct (_is_serial s); reflexivity).
  rewrite Hrx in Hrx1.
  pose proof (recv_result CMD_GET_BATTERY_VOLTAGE _ rest s1 Hrx1
                ltac:(vm_compute; intros E; discriminate E)) as Hr.
  assert (Hv : visible s1 [SIGNATURE; SIGNATURE; declared; CMD_GET_BATTERY_VOLTAGE; lo] =
               [SIGNATURE; SIGNATURE; declared; CMD_GET_BATTERY_VOLTAGE; lo])
    by (unfold visible; destruct (_is_serial s1); reflexivity).
  rewrite Hv in Hr. unfold header_ok in Hr. cbn [nth skipn] in Hr.
  rewrite !Z.eqb_refl in Hr. cbn [andb] in Hr.
  replace (firstn (Z.to_nat declared) [lo]) with [lo] in Hr.
  2: { destruct (Z.to_nat declared) as [|k] eqn:Hk; [lia|].
       cbn [firstn]. destruct k; reflexivity. }
  destruct (_recv CMD_GET_BATTERY_VOLTAGE s1) as [r s2] eqn:Hrecv.
  cbn [fst] in Hr. subst r.
  erewrite bind_ok by exact Hrecv. reflexivity.
Qed.

(** X19 at a list with a float between an id and a servo object. *)
Lemma servoOff_list_counts_every_element_witness :
  servoOff (PList [PInt 1; PFloat 2%float; PServo 3%nat]) (serial0 []) =
    (Ok tt, set_log [Flush; Write [0x55; 0x55; 5; 0x14]; Write [3; 1; 3]] (serial0 [])) /\
  len (stop_ids objects0 [PInt 1; PFloat 2%float; PServo 3%nat]) <
    len [PInt 1; PFloat 2%float; PServo 3%nat].
Proof.
  destruct (servoOff_list_counts_every_element
              [PInt 1; PFloat 2%float; PServo 3%nat] (serial0 []) eq_refl
              ltac:(vm_compute; intros E; discriminate E)) as [H1 H2].
  split; [exact H1|]. apply H2.
  apply Exists_cons_tl. apply Exists_cons_hd. split; reflexivity.
Defined.

(** X21 at new id 5 on a serial port where servo 1 alone answers. *)
Lemma writeServoId_needs_exactly_one_witness :
  1 <= 5 <= 255 /\
  exists found s2,
    discovery (probe linear_position_to_angle) (range 1 7)
      (serial0 [[0x55; 0x55; 5; 0x15; 1; 1; 0xf4; 0x01]]) found s2 /\
    servos (snd (writeServoId linear_position_to_angle 5 false
                   (serial0 [[0x55; 0x55; 5; 0x15; 1; 1; 0xf4; 0x01]]))) = found /\
    fst (writeServoId linear_position_to_angle 5 false
           (serial0 [[0x55; 0x55; 5; 0x15; 1; 1; 0xf4; 0x01]])) =
      match found with
      | [] => Raise (ValueError msg_no_servos)
      | [_] => Ok tt
      | _ => Raise (ValueError msg_more_than_one)
      end /\
    writes (log (snd (writeServoId linear_position_to_angle 5 false
                        (serial0 [[0x55; 0x55; 5; 0x15; 1; 1; 0xf4; 0x01]])))) =
      [] ++ probes_written true (range 1 7) ++
      match found with
      | [_] => writes (id_write_events true 5)
      | _ => []
      end.
Proof.
  assert (H : 1 <= 5 <= 255) by (split; vm_compute; intros E; discriminate E).
  exact (conj H (writeServoId_needs_exactly_one linear_position_to_angle 5
                   (serial0 [[0x55; 0x55; 5; 0x15; 1; 1; 0xf4; 0x01]]) H)).
Defined.

(** X22 at an empty report and a report of one byte before the reply. *)
Lemma getBatteryVoltage_hid_retries_witness :
  fst (getBatteryVoltage (usb0 [[]; [0x55]; [0x55; 0x55; 4; 0x0f; 0xe8; 0x1c]])) =
    Ok (PrimFloat.div (float_of_int (0x1c * 256 + 0xe8)) 1000%float) /\
  log (snd (getBatteryVoltage (usb0 [[]; [0x55]; [0x55; 0x55; 4; 0x0f; 0xe8; 0x1c]]))) =
    [] ++ concat (repeat battery_attempt 2) ++
    [Write [0; SIGNATURE; SIGNATURE; 2; CMD_GET_BATTERY_VOLTAGE]; Read 64].
Proof.
  destruct (getBatteryVoltage_hid_retries [[]; [0x55]] 0xe8 0x1c []
              (usb0 [[]; [0x55]; [0x55; 0x55; 4; 0x0f; 0xe8; 0x1c]]) eq_refl
              ltac:(repeat constructor) eq_refl) as [H _].
  apply H. vm_compute. intros E. discriminate E.
Defined.

(** X23 at a reply that declares and carries one byte. *)
Lemma getBatteryVoltage_one_byte_reply_witness :
  fst (getBatteryVoltage (serial0 [[0x55; 0x55; 3; 0x0f; 0xe8]])) = Raise IndexError.
Proof.
  apply (getBatteryVoltage_one_byte_reply 3 0xe8 [] (serial0 [[0x55; 0x55; 3; 0x0f; 0xe8]])).
  - vm_compute. intros E. discriminate E.
  - reflexivity.
Defined.

(** ** Which device is opened *)

Section Strip.
Variable chars : list Ascii.ascii.

Lemma lstrip_first (s : string) (c : Ascii.ascii) :
  first_char (lstrip chars s) = Some c -> among chars c = false.
Proof.
  induction s as [|a rest IH]; cbn [lstrip]; [discriminate|].
  destruct (among chars a) eqn:Ha; [exact IH|].
  cbn [first_char]. intros E. injection E as <-. exact Ha.
Qed.

Lemma only_lstrip (s : string) : only chars (lstrip chars s) = only chars s.
Proof.
  induction s as [|a rest IH]; cbn [lstrip only]; [reflexivity|].
  destruct (among chars a) eqn:Ha; [exact IH|].
  cbn [only]. rewrite Ha. reflexivity.
Qed.

Lemma rstrip_empty (s : string) :
  rstrip chars s = EmptyString <-> only chars s = true.
Proof.
  induction s as [|a rest IH]; cbn [rstrip only]; [tauto|].
  destruct (rstrip chars rest) as [|b kept].
  - rewrite (proj1 IH eq_refl), andb_true_r.
    destruct (among chars a); split; congruence.
  - destruct (only chars rest); [destruct IH as [_ IH]; discriminate (IH eq_refl)|].
    rewrite andb_false_r. split; discriminate.
Qed.

Lemma rstrip_first (s : string) :
  rstrip chars s = EmptyString \/ first_char (rstrip chars s) = first_char s.
Proof.
  destruct s as [|a rest]; [left; reflexivity|]. cbn [rstrip].
  destruct (rstrip chars rest); [destruct (among chars a)|]; auto.
Qed.

Lemma last_char_some (c : Ascii.ascii) (s : string) : last_char (String c s) <> None.
Proof.
  revert c. induction s as [|b rest IH]; intros c; [discriminate|].
  change (last_char (String c (String b rest)))
    with (match last_char (String b rest) with None => Some c | found => found end).
  specialize (IH b). destruct (last_char (String b rest)); [exact IH | discriminate].
Qed.

Lemma rstrip_last (s : string) (c : Ascii.ascii) :
  last_char (rstrip chars s) = Some c -> among chars c = false.
Proof.
  induction s as [|a rest IH]; cbn [rstrip]; [discriminate|].
  destruct (rstrip chars rest) as [|b kept].
  - destruct (among chars a) eqn:Ha; [discriminate|].
    cbn [last_char]. intros E. injection E as <-. exact Ha.
  - change (last_char (String a (String b kept)))
      with (match last_char (String b kept) with None => Some a | found => found end).
    pose proof (last_char_some b kept) as Hn.
    destruct (last_char (String b kept)); [exact IH | contradiction].
Qed.

Lemma strip_empty (s : string) : strip chars s = EmptyString <-> only chars s = true.
Proof. unfold strip. rewrite rstrip_empty, only_lstrip. tauto. Qed.

Lemma strip_edges (s : string) (c : Ascii.ascii) :
  first_char (strip chars s) = Some c \/ last_char (strip chars s) = Some c ->
  among chars c = false.
Proof.
  unfold strip. intros [H|H].
  - destruct (rstrip_first (lstrip chars s)) as [E|E].
    + rewrite E in H. discriminate H.
    + rewrite E in H. exact (lstrip_first s c H).
  - exact (rstrip_last _ c H).
Qed.
End Strip.

Lemma com_is_not_usb (com_port : string) :
  String.prefix "COM"%string com_port = true ->
  String.prefix "USB"%string com_port = false.
Proof.
  destruct com_port as [|c rest]; [discriminate|]. cbn [String.prefix].
  destruct (Ascii.ascii_dec _ c) as [<-|]; [reflexivity | discriminate].
Qed.

(** X24.  When [__init__] opens the HID device by serial number, the serial
    number is [com_port.strip('USB')]: it is not empty and neither begins nor
    ends with one of the letters U, S, B.  A device whose serial number
    begins or ends with one of them cannot be selected this way. *)
Theorem hid_open_serial_number (com_port : string) (usb_path : option string)
    (vendor_id product_id : Z) (serial_number : string) :
  Controller_open com_port usb_path =
    Ok (Hid_open vendor_id product_id (Some serial_number)) ->
  serial_number = strip USB com_port /\
  serial_number <> EmptyString /\
  forall c, first_char serial_number = Some c \/ last_char serial_number = Some c ->
            among USB c = false.
Proof.
  unfold Controller_open.
  destruct (String.prefix "COM"%string com_port); [discriminate|].
  destruct (String.prefix "USB"%string com_port); [|discriminate].
  cbv zeta. destruct (strip USB com_port) as [|c kept] eqn:E.
  - destruct usb_path; discriminate.
  - intros H. injection H as _ _ <-. split; [reflexivity|]. split; [discriminate|].
    rewrite <- E. apply strip_edges.
Qed.

(** X25.  [usb_path] is used exactly when [com_port] starts with 'USB' and
    holds no other character than U, S, B; with any serial number left after
    the strip, [usb_path] is ignored. *)
Theorem usb_path_needs_bare_port (com_port path path' : string) :
  Controller_open com_port (Some path) = Ok (Hid_open_path path') <->
  path' = path /\ String.prefix "USB"%string com_port = true /\
  only USB com_port = true.
Proof.
  unfold Controller_open. split.
  - destruct (String.prefix "COM"%string com_port); [discriminate|].
    destruct (String.prefix "USB"%string com_port); [|discriminate].
    cbv zeta. destruct (strip USB com_port) as [|c kept] eqn:E; [|discriminate].
    intros H. injection H as <-. apply strip_empty in E. auto.
  - intros (-> & Hu & Ho).
    destruct (String.prefix "COM"%string com_port) eqn:Hc.
    + rewrite (com_is_not_usb com_port Hc) in Hu. discriminate Hu.
    + rewrite Hu. cbv zeta. rewrite (proj2 (strip_empty USB com_port) Ho). reflexivity.
Qed.

(** X24 at a port name whose serial-number part begins with B and ends with S. *)
Lemma hid_open_serial_number_witness :
  Controller_open "USBB496D2D5AS"%string None =
    Ok (Hid_open 0x0483 0x5750 (Some "496D2D5A"%string)) /\
  "496D2D5A"%string = strip USB "USBB496D2D5AS"%string /\
  "496D2D5A"%string <> EmptyString /\
  forall c, first_char "496D2D5A"%string = Some c \/ last_char "496D2D5A"%string = Some c ->
            among USB c = false.
Proof.
  assert (H : Controller_open "USBB496D2D5AS"%string None =
              Ok (Hid_open 0x0483 0x5750 (Some "496D2D5A"%string))) by reflexivity.
  exact (conj H (hid_open_serial_number _ _ _ _ _ H)).
Defined.

(** X25 at the port name 'USB'. *)
Lemma usb_path_needs_bare_port_witness :
  Controller_open "USB"%string (Some "1-1.2:1.0"%string) =
    Ok (Hid_open_path "1-1.2:1.0"%string).
Proof.
  apply (proj2 (usb_path_needs_bare_port "USB"%string "1-1.2:1.0"%string
                  "1-1.2:1.0"%string)).
  repeat split.
Defined.
